(** * PIM audit (src/pim_audit.py): classification engine and Graph fetch

    A shallow embedding of the audit script.  JSON objects are finite maps
    from field names to string values: [a.get("k")] is [a !! "k"], [None]
    for an absent field or a JSON null, and [a.get("k", d)] is
    [default d (a !! "k")], where the field is a string or absent, as in
    the directory's schema.  The role-name cache is a
    finite map, the key sets of the joins are finite sets of pairs, HTTP is
    an oracle indexed by the number of requests issued so far, and the
    functions that touch the cache, the network or the console thread a
    [world] explicitly.  The duration of an activation is a binary64 float,
    as in the script. *)

From Stdlib Require Import ZArith Lia Ascii String PrimFloat FloatOps Uint63 SpecFloat.
From stdpp Require Import gmap strings list pretty.

Open Scope string_scope.
Open Scope list_scope.
Open Scope Z_scope.

(** ** Python values *)

(** A JSON object whose scalar fields are strings. *)
Abbreviation obj := (gmap string string).

(** Truthiness of [x.get(k)]: [None] and the empty string are falsy. *)
Definition truthy (v : option string) : bool :=
  match v with
  | Some s => negb (String.eqb s "")
  | None => false
  end.

(** [s.replace("Z", "+00:00")]: every occurrence is replaced. *)
Fixpoint replace_Z (s : string) : string :=
  match s with
  | EmptyString => EmptyString
  | String c rest =>
      if Ascii.eqb c "Z"%char then "+00:00" +:+ replace_Z rest
      else String c (replace_Z rest)
  end.

(** The text of a response body, [r.text]: a Python [str] as the sequence
    of its characters, each a code point.  The script slices it, which
    counts characters; the other strings are only compared, tested for
    emptiness and concatenated, and are kept as [string]s. *)
Abbreviation chars := (list N).


(** [s[:n]]: the first [n] characters, all of [s] when it has fewer. *)
Definition str_take (n : nat) (s : chars) : chars := take n s.

(** A [datetime]: the wall-clock fields as microseconds since
    0001-01-01T00:00:00, and the UTC offset in microseconds when the value
    is aware ([None] for a naive value). *)
Record datetime := { wall_us : Z; utcoffset : option Z }.

(** [a >= b] on datetimes; [None] is the TypeError Python raises when one
    side is naive and the other aware. *)
Definition dt_ge (a b : datetime) : option bool :=
  match utcoffset a, utcoffset b with
  | Some oa, Some ob => Some (wall_us b - ob <=? wall_us a - oa)
  | None, None => Some (wall_us b <=? wall_us a)
  | _, _ => None
  end.

(** [a - b] as a timedelta in microseconds; [None] is the TypeError. *)
Definition dt_sub (a b : datetime) : option Z :=
  match utcoffset a, utcoffset b with
  | Some oa, Some ob => Some ((wall_us a - oa) - (wall_us b - ob))
  | None, None => Some (wall_us a - wall_us b)
  | _, _ => None
  end.

(** The exceptions the script meets. *)
Inductive exn :=
| RequestsError                 (* [requests.get] raised *)
| ValueError                    (* [int] or [time.sleep] raised *)
| HTTPError (status : Z)        (* [raise_for_status] raised *)
| JSONDecodeError               (* [r.json()] raised *)
| TypeError                     (* [list.extend] on a value that is no iterable *)
| OverflowError                 (* [time.sleep] on a length its timer cannot hold *)
| OSError.                      (* [time.sleep] refused by the operating system *)

(** The pieces of the Python runtime the script calls and does not define:
    [datetime.fromisoformat] and [int] on a string ([None] is ValueError),
    and [time.sleep] on an int: [time_sleep n secs] is what the sleep that
    follows the [n]-th request of the run does, [None] when it sleeps and
    returns, [Some e] when it raises [e] (a negative length, a length of
    more seconds than the timer holds, a length the platform refuses). *)
Class PyRuntime := {
  fromisoformat : string -> option datetime;
  py_int : string -> option Z;
  time_sleep : nat -> Z -> option exn
}.

(** ** HTTP *)

(** The ["value"] member of a decoded body: absent, an array of objects,
    or a JSON value that is no iterable (null, a number, a boolean).  A
    string, an object or an array of other values there is not modelled. *)
Inductive value_member :=
| NoValue
| ValueArray (items : list obj)
| ValueNotIterable.

(** The body of a reply once [r.json()] has decoded it: the scalar fields
    of the object and its ["value"] member. *)
Record json_body := { fields : obj; value : value_member }.

(** [data.get("value", [])] as [items.extend] takes it: the items to
    append, [None] when [extend] raises TypeError. *)
Definition page_items (v : value_member) : option (list obj) :=
  match v with
  | NoValue => Some []
  | ValueArray items => Some items
  | ValueNotIterable => None
  end.

(** What the script reads of a [requests] response.  [json] is the body
    when it decodes to a JSON object and [None] when [r.json()] raises;
    bodies that decode to another JSON value are not modelled. *)
Record response := {
  status_code : Z;
  retry_after : option string;
  json : option json_body;
  text : chars
}.

(** [requests.get] returns a response or raises. *)
Inductive outcome :=
| RequestException
| Reply (r : response).

(** The network: the outcome of the [n]-th request of the run, for a URL
    and its query parameters. *)
Class Network :=
  requests_get : nat -> string -> option (list (string * string)) -> outcome.

(** ** The world the script runs in *)

Inductive event :=
| PrintThrottled (wait_s : Z)
| PrintGraphErrorJson (status : Z) (body : json_body)
| PrintGraphErrorText (status : Z) (body : chars)
| PrintLoaded (n : nat)
| PrintBulkFailed
| Sleep (wait_s : Z).

Record world := {
  _role_name_by_id : gmap string string;
  requests_made : nat;
  console : list event
}.

Definition set_cache (c : gmap string string) (w : world) : world :=
  {| _role_name_by_id := c; requests_made := requests_made w; console := console w |}.

Definition emit (e : event) (w : world) : world :=
  {| _role_name_by_id := _role_name_by_id w; requests_made := requests_made w;
     console := console w ++ [e] |}.

(** Computations that read and write the world. *)
Definition M (A : Type) : Type := world -> A * world.

Definition ret {A} (a : A) : M A := fun w => (a, w).

Definition bind {A B} (m : M A) (k : A -> M B) : M B :=
  fun w => let (a, w') := m w in k a w'.

Notation "'do' x <- m ; k" := (bind m (fun x => k))
  (at level 10, x name, m at level 100, k at level 200).

(** Issue one GET: ask the network and count the request. *)
Definition http_get `{Network} (url : string) (params : option (list (string * string)))
  : M outcome :=
  fun w =>
    (requests_get (requests_made w) url params,
     {| _role_name_by_id := _role_name_by_id w;
        requests_made := S (requests_made w);
        console := console w |}).

(** ** Constants *)

Definition GRAPH : string := "https://graph.microsoft.com/v1.0".
Definition MAX_ACTIVATION_HOURS : Z := 8.
Definition WINDOW_DAYS : Z := 30.

Definition PRIV_ROLES_literal : list string :=
  [ "Global Administrator";
    "Privileged Role Administrator";
    "Security Administrator";
    "Conditional Access Administrator";
    "Application Administrator";
    "Cloud Application Administrator";
    "Exchange Administrator";
    "SharePoint Administrator" ].

Definition PRIV_ROLES : gset string := list_to_set PRIV_ROLES_literal.

(** ** Graph helper: [gget_all] (lines 56-78) *)

Inductive result (A : Type) :=
| Returned (a : A)
| Raised (e : exn).
Arguments Returned {A} a.
Arguments Raised {A} e.

(** [r.raise_for_status()] raises on a status from 400 to 599. *)
Definition raises_for_status (status : Z) : bool :=
  (400 <=? status) && (status <? 600).

(** How one turn of the [while] loop ends. *)
Inductive turn :=
| Continue (url : option string) (items : list obj)
| Raise (e : exn).

(** One turn of the loop on a non-empty [url]; [params] is [None] from the
    second turn on. *)
Definition gget_turn `{PyRuntime} `{Network} (url : string)
    (params : option (list (string * string))) (items : list obj) : M turn :=
  fun w =>
    let (o, w1) := http_get url params w in
    match o with
    | RequestException => (Raise RequestsError, w1)
    | Reply r =>
        if status_code r =? 429 then
          match py_int (default "2" (retry_after r)) with
          | None => (Raise ValueError, w1)
          | Some wait_s =>
              let w2 := emit (PrintThrottled wait_s) w1 in
              match time_sleep (requests_made w) wait_s with
              | Some e => (Raise e, w2)
              | None => (Continue (Some url) items, emit (Sleep wait_s) w2)
              end
          end
        else
          let w2 :=
            if 400 <=? status_code r then
              emit (match json r with
                    | Some body => PrintGraphErrorJson (status_code r) body
                    | None => PrintGraphErrorText (status_code r) (str_take 800 (text r))
                    end) w1
            else w1 in
          if raises_for_status (status_code r) then (Raise (HTTPError (status_code r)), w2)
          else
            match json r with
            | None => (Raise JSONDecodeError, w2)
            | Some data =>
                match page_items (value data) with
                | None => (Raise TypeError, w2)
                | Some page =>
                    (Continue (fields data !! "@odata.nextLink") (items ++ page), w2)
                end
            end
    end.

(** The [while url:] loop, for at most [fuel] turns; [None] when the loop
    is still running after them. *)
Fixpoint gget_loop `{PyRuntime} `{Network} (fuel : nat) (url : option string)
    (params : option (list (string * string))) (items : list obj) (w : world)
  : option (result (list obj)) * world :=
  if truthy url then
    match fuel with
    | O => (None, w)
    | S fuel' =>
        let (t, w1) := gget_turn (default "" url) params items w in
        match t with
        | Continue url' items' => gget_loop fuel' url' None items' w1
        | Raise e => (Some (Raised e), w1)
        end
    end
  else (Some (Returned items), w).

Definition gget_all `{PyRuntime} `{Network} (fuel : nat) (path : string)
    (params : option (list (string * string))) (w : world)
  : option (result (list obj)) * world :=
  gget_loop fuel (Some (GRAPH +:+ path)) params [] w.

(** A reply [gget_all] takes a page from: not a 429 and not an error. *)
Definition accepted (r : response) : Prop :=
  status_code r ≠ 429 ∧ raises_for_status (status_code r) = false.

(** The pages the directory serves from request [n] on for [url], asked
    without query parameters: after any number of 429 replies whose
    Retry-After is absent or an integer that [time.sleep] takes, an
    accepted reply whose body decodes, with an array or nothing under
    ["value"], carries the page, and its next link, if any, leads to the
    rest. *)
Inductive paged `{PyRuntime} `{Network} : nat → string → list (list obj) → Prop :=
| paged_throttled n url r wait_s pages :
    requests_get n url None = Reply r →
    status_code r = 429 →
    py_int (default "2" (retry_after r)) = Some wait_s →
    time_sleep n wait_s = None →
    paged (S n) url pages →
    paged n url pages
| paged_last n url r data page :
    requests_get n url None = Reply r →
    accepted r →
    json r = Some data →
    page_items (value data) = Some page →
    truthy (fields data !! "@odata.nextLink") = false →
    paged n url [page]
| paged_next n url r data page pages :
    requests_get n url None = Reply r →
    accepted r →
    json r = Some data →
    page_items (value data) = Some page →
    truthy (fields data !! "@odata.nextLink") = true →
    paged (S n) (default "" (fields data !! "@odata.nextLink")) pages →
    paged n url (page :: pages).

(** ** Role definitions cache and lookups *)

(** [f"{GRAPH}/roleManagement/directory/roleDefinitions/{role_def_id}"] *)
Definition role_url (role_def_id : string) : string :=
  GRAPH +:+ "/roleManagement/directory/roleDefinitions/" +:+ role_def_id.

(** [f"{GRAPH}/users/{pid}"] *)
Definition user_url (pid : string) : string := GRAPH +:+ "/users/" +:+ pid.

Definition role_name `{Network} (role_def_id : option string) : M string :=
  fun w =>
    if negb (truthy role_def_id) then ("", w)
    else
      let id := default "" role_def_id in
      match _role_name_by_id w !! id with
      | Some name => (name, w)
      | None =>
          let url := role_url id in
          let (o, w1) := http_get url None w in
          match o with
          | Reply r =>
              if status_code r <? 400 then
                match json r with
                | Some body =>
                    let name := default id (fields body !! "displayName") in
                    (name, set_cache (<[id := name]> (_role_name_by_id w1)) w1)
                | None => (id, w1)
                end
              else (id, w1)
          | RequestException => (id, w1)
          end
      end.

Definition upn `{Network} (pid : option string) : M string :=
  fun w =>
    if negb (truthy pid) then ("", w)
    else
      let p := default "" pid in
      let (o, w1) := http_get (user_url p) None w in
      match o with
      | Reply r =>
          if status_code r <? 400 then
            match json r with
            | Some body => (default p (fields body !! "userPrincipalName"), w1)
            | None => (p, w1)
            end
          else (p, w1)
      | RequestException => (p, w1)
      end.

(** [{d["id"]: d.get("displayName","") for d in defs}], as the pairs in
    order; [None] is the KeyError of a definition without an id. *)
Fixpoint role_pairs (defs : list obj) : option (list (string * string)) :=
  match defs with
  | [] => Some []
  | d :: rest =>
      match d !! "id" with
      | None => None
      | Some id =>
          match role_pairs rest with
          | None => None
          | Some kvs => Some ((id, default "" (d !! "displayName")) :: kvs)
          end
      end
  end.

(** [cache.update(pairs)]: the pairs are written in order. *)
Definition update (cache : gmap string string) (kvs : list (string * string))
  : gmap string string :=
  foldl (λ c kv, <[kv.1 := kv.2]> c) cache kvs.

(** The bulk preload, with [fuel] turns for its fetch; [None] when the
    fetch is still running after them. *)
Definition load_all_role_definitions `{PyRuntime} `{Network} (fuel : nat) (w : world)
  : option world :=
  match gget_all fuel "/roleManagement/directory/roleDefinitions" None w with
  | (None, _) => None
  | (Some (Returned defs), w1) =>
      match role_pairs defs with
      | Some kvs =>
          let cache := update (_role_name_by_id w1) kvs in
          Some (emit (PrintLoaded (size cache)) (set_cache cache w1))
      | None => Some (emit PrintBulkFailed w1)
      end
  | (Some (Raised _), w1) => Some (emit PrintBulkFailed w1)
  end.

(** ** Floats *)

(** [a / b] on Python ints, [b > 0]: the binary64 nearest to the quotient,
    ties to even.  The quotient is scaled to an integer of 56 or 57 bits
    whose last bit is sticky, which the conversion rounds once. *)
Definition truediv (a b : Z) : float :=
  if a =? 0 then 0%float
  else
    let n := Z.abs a in
    let k := 55 + Z.log2 b - Z.log2 n in
    let num := if 0 <=? k then n * 2 ^ k else n in
    let den := if 0 <=? k then b else b * 2 ^ (- k) in
    let m := 2 * (num / den) + (if num mod den =? 0 then 0 else 1) in
    let f := Z.ldexp (PrimFloat.of_uint63 (Uint63.of_Z m)) (- (k + 1)) in
    if a <? 0 then (- f)%float else f.

(** [float(n)] *)
Definition float_of_int (n : Z) : float := truediv n 1.

(** [timedelta.total_seconds()]: the microseconds divided by [10**6]. *)
Definition total_seconds (td_us : Z) : float := truediv td_us (10 ^ 6).

(** The integer nearest to [a / b], [b > 0], ties to even. *)
Definition round_half_even (a b : Z) : Z :=
  let q := a / b in
  let r := a mod b in
  if 2 * r <? b then q
  else if b <? 2 * r then q + 1
  else if Z.even q then q else q + 1.

(** [round(x, ndigits)] on a float: the exact value of [x] is rounded to
    [ndigits] decimals, ties to even, and the decimal is converted back. *)
Definition py_round (x : float) (ndigits : nat) : float :=
  match Prim2SF x with
  | S754_finite sgn m e =>
      let p := 10 ^ Z.of_nat ndigits in
      let num := (if sgn then - Z.pos m else Z.pos m) * p in
      let n := if 0 <=? e then num * 2 ^ e else round_half_even num (2 ^ (- e)) in
      if n =? 0 then (if sgn then (- 0)%float else 0%float) else truediv n p
  | _ => x
  end.

(** What "rounded to two decimal places" says of a binary64: [k] is the
    integer nearest to a hundred times the value [± m · 2^e], the even one
    of the two when the value lies halfway between them. *)
Definition nearest_hundredth (sgn : bool) (m : positive) (e : Z) (k : Z) : Prop :=
  let v := 100 * (if sgn then - Z.pos m else Z.pos m) in
  if 0 <=? e then k = v * 2 ^ e
  else Z.abs (2 * v - 2 * k * 2 ^ (- e)) ≤ 2 ^ (- e)
       ∧ (Z.abs (2 * v - 2 * k * 2 ^ (- e)) = 2 ^ (- e) → Z.even k = true).

(** [y] is [x] rounded to two decimals: the binary64 nearest to [k / 100]
    for the integer [k] nearest to [100 x], a negative zero when a
    negative [x] rounds to zero; an infinity, a NaN or a zero is kept. *)
Definition rounded_to_hundredths (x y : float) : Prop :=
  match Prim2SF x with
  | S754_finite sgn m e =>
      ∃ k, nearest_hundredth sgn m e k
           ∧ (y = truediv k 100 ∨ (k = 0 ∧ sgn = true ∧ y = (- 0)%float))
  | _ => y = x
  end.

(** ** Classification (lines 204-265 of [main]) *)

Abbreviation key := (option string * option string)%type.

Record PermanentAssignment := {
  pa_principalId : option string;
  pa_principalUPN : string;
  pa_role : string;
  pa_assignmentId : option string;
  pa_createdDateTime : option string
}.

Record StaleEligibility := {
  se_principalId : option string;
  se_principalUPN : string;
  se_role : string;
  se_eligibilityId : option string;
  se_eligibleSince : option string
}.

Record LongActivation := {
  la_principalId : option string;
  la_principalUPN : string;
  la_role : string;
  la_instanceId : option string;
  la_start : string;
  la_end : string;
  la_hours : float
}.

Definition inst_keys (inst : list obj) : gset key :=
  list_to_set ((fun i : obj => (i !! "principalId", i !! "roleDefinitionId")) <$> inst).

Definition recent_keys (inst : list obj) : gset key :=
  list_to_set ((fun i : obj => (i !! "principalId", i !! "roleDefinitionId")) <$> inst).

(** Body of the loop over [assignments]: the record it appends, if any. *)
Definition permanent_body `{Network} (keys : gset key) (a : obj)
  : M (option PermanentAssignment) :=
  do rname <- role_name (a !! "roleDefinitionId");
  if decide (rname ∈ PRIV_ROLES) then
    let k : key := (a !! "principalId", a !! "roleDefinitionId") in
    if decide (k ∈ keys) then ret None
    else
      do u <- upn (a !! "principalId");
      ret (Some {| pa_principalId := a !! "principalId";
                   pa_principalUPN := u;
                   pa_role := rname;
                   pa_assignmentId := a !! "id";
                   pa_createdDateTime := a !! "createdDateTime" |})
  else ret None.

Fixpoint permanent_loop `{Network} (keys : gset key) (assignments : list obj)
    (permanent : list PermanentAssignment) : M (list PermanentAssignment) :=
  match assignments with
  | [] => ret permanent
  | a :: rest =>
      do r <- permanent_body keys a;
      permanent_loop keys rest (permanent ++ option_list r)
  end.

(** Body of the loop over [eligibles]. *)
Definition stale_body `{Network} (keys : gset key) (e : obj)
  : M (option StaleEligibility) :=
  do rname <- role_name (e !! "roleDefinitionId");
  if decide (rname ∈ PRIV_ROLES) then
    let k : key := (e !! "principalId", e !! "roleDefinitionId") in
    if decide (k ∈ keys) then ret None
    else
      do u <- upn (e !! "principalId");
      ret (Some {| se_principalId := e !! "principalId";
                   se_principalUPN := u;
                   se_role := rname;
                   se_eligibilityId := e !! "id";
                   se_eligibleSince := e !! "startDateTime" |})
  else ret None.

Fixpoint stale_loop `{Network} (keys : gset key) (eligibles : list obj)
    (stale : list StaleEligibility) : M (list StaleEligibility) :=
  match eligibles with
  | [] => ret stale
  | e :: rest =>
      do r <- stale_body keys e;
      stale_loop keys rest (stale ++ option_list r)
  end.

(** [hours = (e - s).total_seconds()/3600.0] *)
Definition hours_of (td_us : Z) : float := (total_seconds td_us / 3600)%float.

(** [hours > MAX_ACTIVATION_HOURS] *)
Definition over_limit (hours : float) : bool :=
  PrimFloat.ltb (float_of_int MAX_ACTIVATION_HOURS) hours.

(** The [try] block of the loop over [inst]: the duration of the instance
    when both timestamps parse and subtract; [None] is the [except] branch. *)
Definition duration_hours `{PyRuntime} (start end_ : string) : option float :=
  match fromisoformat (replace_Z start) with
  | None => None
  | Some s =>
      match fromisoformat (replace_Z end_) with
      | None => None
      | Some e =>
          match dt_sub e s with
          | None => None
          | Some td => Some (hours_of td)
          end
      end
  end.

(** Body of the loop over [inst]. *)
Definition long_body `{PyRuntime} `{Network} (i : obj) : M (option LongActivation) :=
  do rname <- role_name (i !! "roleDefinitionId");
  if decide (rname ∈ PRIV_ROLES) then
    if truthy (i !! "startDateTime") && truthy (i !! "endDateTime") then
      let start := default "" (i !! "startDateTime") in
      let end_ := default "" (i !! "endDateTime") in
      match duration_hours start end_ with
      | Some hours =>
          if over_limit hours then
            do u <- upn (i !! "principalId");
            ret (Some {| la_principalId := i !! "principalId";
                         la_principalUPN := u;
                         la_role := rname;
                         la_instanceId := i !! "id";
                         la_start := start;
                         la_end := end_;
                         la_hours := py_round hours 2 |})
          else ret None
      | None => ret None
      end
    else ret None
  else ret None.

Fixpoint long_loop `{PyRuntime} `{Network} (inst : list obj)
    (long_acts : list LongActivation) : M (list LongActivation) :=
  match inst with
  | [] => ret long_acts
  | i :: rest =>
      do r <- long_body i;
      long_loop rest (long_acts ++ option_list r)
  end.

(** [sum(1 for a in xs if role_name(a.get("roleDefinitionId"), token) in PRIV_ROLES)] *)
Fixpoint count_privileged `{Network} (xs : list obj) (n : nat) : M nat :=
  match xs with
  | [] => ret n
  | a :: rest =>
      do rname <- role_name (a !! "roleDefinitionId");
      count_privileged rest (if decide (rname ∈ PRIV_ROLES) then S n else n)
  end.

(** [sorted] on strings, by insertion. *)
Fixpoint insert_sorted (x : string) (l : list string) : list string :=
  match l with
  | [] => [x]
  | y :: rest => if String.leb x y then x :: l else y :: insert_sorted x rest
  end.

Definition sorted (l : list string) : list string := foldr insert_sorted [] l.

Record Metrics := {
  timestamp : string;
  privileged_roles_tracked : list string;
  active_privileged_assignments : nat;
  eligible_privileged_users : nat;
  activations_last_30d : nat;
  permanent_privileged_assignments : nat;
  stale_eligibilities_90d : nat;
  long_activations_over_8h : nat
}.

Record Snapshot := {
  metrics : Metrics;
  permanent : list PermanentAssignment;
  staleEligibilities : list StaleEligibility;
  longActivations : list LongActivation
}.

(** From the key set to the metrics: what [main] computes from the three
    collections once [inst] is filtered, and writes to the snapshot. *)
Definition classify `{PyRuntime} `{Network} (ts : string)
    (assignments eligibles inst : list obj) : M Snapshot :=
  do permanent <- permanent_loop (inst_keys inst) assignments [];
  do stale <- stale_loop (recent_keys inst) eligibles [];
  do long_acts <- long_loop inst [];
  do apa <- count_privileged assignments 0%nat;
  do epu <- count_privileged eligibles 0%nat;
  ret {| metrics :=
           {| timestamp := ts;
              privileged_roles_tracked := sorted (elements PRIV_ROLES);
              active_privileged_assignments := apa;
              eligible_privileged_users := epu;
              activations_last_30d := length inst;
              permanent_privileged_assignments := length permanent;
              stale_eligibilities_90d := length stale;
              long_activations_over_8h := length long_acts |};
         permanent := permanent;
         staleEligibilities := stale;
         longActivations := long_acts |}.

(** ** The window (lines 183-191 of [main]) *)

(** [since_dt = datetime.now(timezone.utc) - timedelta(days=WINDOW_DAYS)],
    for a clock that reads [now_us] microseconds, UTC. *)
Definition since_dt (now_us : Z) : datetime :=
  {| wall_us := now_us - WINDOW_DAYS * 86400 * 10 ^ 6; utcoffset := Some 0 |}.

Definition _parse_iso `{PyRuntime} (dt : option string) : option datetime :=
  if negb (truthy dt) then None
  else fromisoformat (replace_Z (default "" dt)).

(** The condition of the comprehension,
    [(s:=_parse_iso(i.get("startDateTime"))) and s >= since_dt];
    [None] is the TypeError of the comparison. *)
Definition in_window `{PyRuntime} (since : datetime) (i : obj) : option bool :=
  match _parse_iso (i !! "startDateTime") with
  | None => Some false
  | Some s => dt_ge s since
  end.

(** [inst = [i for i in inst_all if ...]]; [None] when the comparison
    raises on some instance. *)
Fixpoint filter_inst `{PyRuntime} (since : datetime) (inst_all : list obj)
  : option (list obj) :=
  match inst_all with
  | [] => Some []
  | i :: rest =>
      match in_window since i with
      | None => None
      | Some b =>
          match filter_inst since rest with
          | None => None
          | Some inst => Some (if b then i :: inst else inst)
          end
      end
  end.

(** The filter and the classification, as [main] chains them on the three
    collections it fetched; [None] when the filter raises. *)
Definition classify_collections `{PyRuntime} `{Network} (now_us : Z) (ts : string)
    (assignments eligibles inst_all : list obj) (w : world)
  : option (Snapshot * world) :=
  match filter_inst (since_dt now_us) inst_all with
  | None => None
  | Some inst => Some (classify ts assignments eligibles inst w)
  end.

(** ** A runtime and two directories to run the script on

    [py310] follows the grammar Python 3.7 to 3.10 document for
    [datetime.fromisoformat], [YYYY-MM-DD[*HH[:MM[:SS[.fff[fff]]]][+HH:MM[:SS[.ffffff]]]]],
    in the steps of the library's [_parse_isoformat_date], [_parse_hh_mm_ss_ff]
    and [_parse_isoformat_time], [int] on an optionally signed run of
    decimal digits, and [time.sleep] as CPython keeps the length, in
    nanoseconds in a signed 64-bit integer. *)

Definition digit (c : ascii) : option Z :=
  let n := Z.of_N (N_of_ascii c) in
  if (48 <=? n) && (n <=? 57) then Some (n - 48) else None.

Fixpoint digits (s : string) (acc : Z) : option Z :=
  match s with
  | EmptyString => Some acc
  | String c rest =>
      match digit c with
      | Some d => digits rest (10 * acc + d)
      | None => None
      end
  end.

Definition number (s : string) : option Z :=
  match s with
  | EmptyString => None
  | _ => digits s 0
  end.

Definition int_of_string (s : string) : option Z :=
  match s with
  | String "-" rest => Z.opp <$> number rest
  | String "+" rest => number rest
  | _ => number s
  end.

Definition is_leap (y : Z) : bool :=
  (y mod 4 =? 0) && (negb (y mod 100 =? 0) || (y mod 400 =? 0)).

Definition days_in_month (y m : Z) : Z :=
  if m =? 2 then (if is_leap y then 29 else 28)
  else if (m =? 4) || (m =? 6) || (m =? 9) || (m =? 11) then 30
  else 31.

Definition days_before_year (y : Z) : Z :=
  let y' := y - 1 in
  y' * 365 + y' / 4 - y' / 100 + y' / 400.

Definition days_before_month (y m : Z) : Z :=
  foldr Z.add 0 (days_in_month y <$> (Z.of_nat <$> seq 1 (Z.to_nat (m - 1)))).

Definition ymd2ord (y m d : Z) : Z :=
  days_before_year y + days_before_month y m + d.

(** [tstr[pos:pos+n]] *)
Definition slice (pos n : nat) (s : string) : string := String.substring pos n s.

(** [_parse_isoformat_date] and the range checks of the constructor:
    the ordinal of the day. *)
Definition parse_isoformat_date (dstr : string) : option Z :=
  y ← number (slice 0 4 dstr);
  m ← number (slice 5 2 dstr);
  d ← number (slice 8 2 dstr);
  if (String.length dstr =? 10)%nat
     && String.eqb (slice 4 1 dstr) "-" && String.eqb (slice 7 1 dstr) "-"
     && (String.length (slice 0 4 dstr) =? 4)%nat
     && (1 <=? y) && (y <=? 9999) && (1 <=? m) && (m <=? 12)
     && (1 <=? d) && (d <=? days_in_month y m)
  then Some (ymd2ord y m d) else None.

(** [_parse_hh_mm_ss_ff]: the two-digit components, [fuel] of them at most
    separated by colons, then an optional fraction of 3 or 6 digits. *)
Fixpoint parse_components (fuel : nat) (tstr : string) : option (list Z * string) :=
  match fuel with
  | O => Some ([], tstr)
  | S fuel' =>
      if (String.length tstr <? 2)%nat then None
      else
        c ← number (slice 0 2 tstr);
        let rest := slice 2 (String.length tstr - 2) tstr in
        match rest, fuel' with
        | EmptyString, _ => Some ([c], rest)
        | _, O => Some ([c], rest)
        | String ":" rest', _ =>
            '(cs, r) ← parse_components fuel' rest';
            Some (c :: cs, r)
        | _, _ => None
        end
  end.

Definition parse_hh_mm_ss_ff (tstr : string) : option (Z * Z * Z * Z) :=
  '(cs, rest) ← parse_components 3 tstr;
  let hh := default 0 (cs !! 0%nat) in
  let mm := default 0 (cs !! 1%nat) in
  let ss := default 0 (cs !! 2%nat) in
  match rest with
  | EmptyString => Some (hh, mm, ss, 0)
  | String "." frac =>
      f ← number frac;
      if (String.length frac =? 3)%nat then Some (hh, mm, ss, f * 1000)
      else if (String.length frac =? 6)%nat then Some (hh, mm, ss, f)
      else None
  | _ => None
  end.

Definition us_of (c : Z * Z * Z * Z) : Z :=
  let '(hh, mm, ss, ff) := c in ((hh * 60 + mm) * 60 + ss) * 10 ^ 6 + ff.

(** [tstr.find(c)] *)
Definition find (c : string) (tstr : string) : option nat := String.index 0 c tstr.

(** [_parse_isoformat_time]: the microseconds into the day and the offset. *)
Definition parse_isoformat_time (tstr : string) : option (Z * option Z) :=
  if (String.length tstr <? 2)%nat then None
  else
    let tz_pos := match find "-" tstr with Some p => Some p | None => find "+" tstr end in
    let timestr := match tz_pos with Some p => slice 0 p tstr | None => tstr end in
    '(hh, mm, ss, ff) ← parse_hh_mm_ss_ff timestr;
    if (hh <? 24) && (mm <? 60) && (ss <? 60) then
      match tz_pos with
      | None => Some (us_of (hh, mm, ss, ff), None)
      | Some p =>
          let tzstr := slice (S p) (String.length tstr - S p) tstr in
          let n := String.length tzstr in
          if (n =? 5)%nat || (n =? 8)%nat || (n =? 15)%nat then
            tz ← parse_hh_mm_ss_ff tzstr;
            let off := us_of tz in
            if off <? 24 * 3600 * 10 ^ 6 then
              Some (us_of (hh, mm, ss, ff),
                    Some (if String.eqb (slice p 1 tstr) "-" then - off else off))
            else None
          else None
      end
    else None.

Definition fromisoformat_310 (date_string : string) : option datetime :=
  ord ← parse_isoformat_date (slice 0 10 date_string);
  let tstr := slice 11 (String.length date_string - 11) date_string in
  match tstr with
  | EmptyString =>
      Some {| wall_us := (ord - 1) * 86400 * 10 ^ 6; utcoffset := None |}
  | _ =>
      '(t, off) ← parse_isoformat_time tstr;
      Some {| wall_us := (ord - 1) * 86400 * 10 ^ 6 + t; utcoffset := off |}
  end.

(** [time.sleep(secs)] on an int: the length is converted to nanoseconds
    first, which raises OverflowError when [secs * 10**9] does not fit 64
    bits, and a negative length that fits raises ValueError; a length that
    passes both is handed to the platform's timer, taken here to sleep. *)
Definition sleep_310 (_ : nat) (secs : Z) : option exn :=
  if (secs * 10 ^ 9 <? - 2 ^ 63) || (2 ^ 63 - 1 <? secs * 10 ^ 9) then Some OverflowError
  else if secs <? 0 then Some ValueError
  else None.

Definition py310 : PyRuntime :=
  {| fromisoformat := fromisoformat_310; py_int := int_of_string;
     time_sleep := sleep_310 |}.


Definition ok_reply (fs : obj) : outcome :=
  Reply {| status_code := 200; retry_after := None;
           json := Some {| fields := fs; value := NoValue |}; text := [] |}.

Definition error_reply (status : Z) : outcome :=
  Reply {| status_code := status; retry_after := None; json := None; text := [] |}.

Definition ga_id : string := "62e90394-69f5-4237-9190-012177145e10".
Definition ua_id : string := "fe930be7-5e62-47db-91af-98c3a49a38b1".

(** A directory that answers: two role definitions and one user. *)
Definition directory_up : Network := fun _ url _ =>
  if String.eqb url (role_url ga_id)
  then ok_reply {[ "id" := ga_id; "displayName" := "Global Administrator" ]}
  else if String.eqb url (role_url ua_id)
  then ok_reply {[ "id" := ua_id; "displayName" := "User Administrator" ]}
  else if String.eqb url (user_url "P")
  then ok_reply {[ "id" := "P"; "userPrincipalName" := "p@contoso.com" ]}
  else error_reply 404.

(** A directory whose every request fails with 503. *)
Definition directory_down : Network := fun _ _ _ => error_reply 503.

(** A directory that fails the first request of the run and answers after. *)
Definition directory_flaky : Network := fun n url p =>
  match n with
  | O => RequestException
  | S _ => directory_up n url p
  end.

Definition fresh : world :=
  {| _role_name_by_id := ∅; requests_made := 0; console := [] |}.

(** ** Resolution held fixed

    What a per-id lookup yields from a reply, and the predicates that say
    the directory answers a lookup the same way whenever it is asked. *)

(** The world after one request. *)
Definition asked (w : world) : world :=
  {| _role_name_by_id := _role_name_by_id w;
     requests_made := S (requests_made w);
     console := console w |}.

(** [metrics] with another run timestamp. *)
Definition with_timestamp (ts : string) (m : Metrics) : Metrics :=
  {| timestamp := ts;
     privileged_roles_tracked := privileged_roles_tracked m;
     active_privileged_assignments := active_privileged_assignments m;
     eligible_privileged_users := eligible_privileged_users m;
     activations_last_30d := activations_last_30d m;
     permanent_privileged_assignments := permanent_privileged_assignments m;
     stale_eligibilities_90d := stale_eligibilities_90d m;
     long_activations_over_8h := long_activations_over_8h m |}.

(** The name the lookup takes from the outcome of its request, if any. *)
Definition fetched_name (id : string) (o : outcome) : option string :=
  match o with
  | Reply r =>
      if status_code r <? 400 then
        match json r with
        | Some body => Some (default id (fields body !! "displayName"))
        | None => None
        end
      else None
  | RequestException => None
  end.

Definition fetched_upn (p : string) (o : outcome) : string :=
  match o with
  | Reply r =>
      if status_code r <? 400 then
        match json r with
        | Some body => default p (fields body !! "userPrincipalName")
        | None => p
        end
      else p
  | RequestException => p
  end.

Definition roles_fixed `{Network} : Prop :=
  ∀ n m id, requests_get n (role_url id) None = requests_get m (role_url id) None.

Definition upns_fixed `{Network} : Prop :=
  ∀ n m pid, requests_get n (user_url pid) None = requests_get m (user_url pid) None.

(** The name an id resolves to from cache [c0] when lookups are fixed. *)
Definition resolve `{Network} (c0 : gmap string string) (role_def_id : option string)
  : string :=
  if negb (truthy role_def_id) then ""
  else
    let id := default "" role_def_id in
    match c0 !! id with
    | Some name => name
    | None => default id (fetched_name id (requests_get 0 (role_url id) None))
    end.

(** The cache of [w] is [c0] and the names lookups have added to it. *)
Definition warm `{Network} (c0 : gmap string string) (w : world) : Prop :=
  ∀ id, _role_name_by_id w !! id = c0 !! id
        ∨ (c0 !! id = None
           ∧ _role_name_by_id w !! id
             = fetched_name id (requests_get 0 (role_url id) None)).

(** Some request for the role definition [id] was answered with a status
    below 400 and a body that gives it the name [name]. *)
Definition looked_up `{Network} (id name : string) : Prop :=
  ∃ n r body, requests_get n (role_url id) None = Reply r
              ∧ status_code r < 400
              ∧ json r = Some body
              ∧ name = default id (fields body !! "displayName").

(** Every entry of the cache of [w] was in [c0] or was looked up. *)
Definition cache_from `{Network} (c0 : gmap string string) (w : world) : Prop :=
  ∀ id name, _role_name_by_id w !! id = Some name →
             c0 !! id = Some name ∨ looked_up id name.


(** Every start that parses carries a UTC offset. *)
Definition starts_aware `{PyRuntime} (inst_all : list obj) : Prop :=
  ∀ (i : obj) s, i ∈ inst_all →
    _parse_iso (i !! "startDateTime") = Some s → is_Some (utcoffset s).

(** Request [n] for [url] is answered by a 429 whose Retry-After is absent
    or an integer, and [time.sleep] takes that many seconds. *)
Definition throttled `{PyRuntime} `{Network} (n : nat) (url : string)
    (params : option (list (string * string))) (wait_s : Z) : Prop :=
  ∃ r, requests_get n url params = Reply r
       ∧ status_code r = 429
       ∧ py_int (default "2" (retry_after r)) = Some wait_s
       ∧ time_sleep n wait_s = None.

(** ** Sample records *)

(** An assignment of Global Administrator to principal P. *)
Definition ga_assignment : obj :=
  {[ "id" := "a1"; "principalId" := "P"; "roleDefinitionId" := ga_id;
     "createdDateTime" := "2023-05-01T08:00:00Z" ]}.

(** An activation of that role by that principal. *)
Definition ga_instance : obj :=
  {[ "id" := "i1"; "principalId" := "P"; "roleDefinitionId" := ga_id;
     "startDateTime" := "2024-01-01T00:00:00Z";
     "endDateTime" := "2024-01-01T09:30:00Z" ]}.

(** An activation of the same role by another principal. *)
Definition other_instance : obj :=
  {[ "id" := "i2"; "principalId" := "Q"; "roleDefinitionId" := ga_id;
     "startDateTime" := "2024-01-02T00:00:00Z";
     "endDateTime" := "2024-01-02T01:00:00Z" ]}.

(** An assignment of User Administrator, which PRIV_ROLES does not hold. *)
Definition ua_assignment : obj :=
  {[ "id" := "a2"; "principalId" := "P"; "roleDefinitionId" := ua_id;
     "createdDateTime" := "2023-05-01T08:00:00Z" ]}.

(** An eligibility of principal P for Global Administrator. *)
Definition ga_eligibility : obj :=
  {[ "id" := "e1"; "principalId" := "P"; "roleDefinitionId" := ga_id;
     "startDateTime" := "2023-01-01T00:00:00Z" ]}.






(** An activation of Global Administrator that lasts eight hours and one
    second. *)
Definition long_instance : obj :=
  {[ "id" := "i3"; "principalId" := "P"; "roleDefinitionId" := ga_id;
     "startDateTime" := "2024-01-10T22:00:00Z";
     "endDateTime" := "2024-01-11T06:00:01Z" ]}.

(** ** Directories that throttle, page and misbehave *)

Definition page_reply (items : list obj) (next : option string) : outcome :=
  Reply {| status_code := 200; retry_after := None;
           json := Some {| fields := match next with
                                     | Some u => {[ "@odata.nextLink" := u ]}
                                     | None => ∅
                                     end;
                           value := ValueArray items |};
           text := [] |}.

Definition throttle_reply (retry : option string) : outcome :=
  Reply {| status_code := 429; retry_after := retry; json := None; text := [] |}.




(** Always throttles, for one second. *)
Definition directory_busy : Network := fun _ _ _ => throttle_reply (Some "1").





(** Throttles the first request; after that a request with query
    parameters gets the one matching instance and a request without gets
    both. *)
Definition directory_filtered : Network := fun n _ params =>
  match n, params with
  | 0%nat, _ => throttle_reply None
  | _, Some _ => page_reply [ga_instance] None
  | _, None => page_reply [ga_instance; other_instance] None
  end.

(** ** GitHub helpers (lines 80-132) and the tickets of [main] (lines 278-292)

    GitHub is a second oracle, indexed by the number of requests sent to
    it; the requests sent and the lines printed are kept in a [desk]. *)

Definition GITHUB : string := "https://api.github.com".

(** The optional settings read from the environment: owner and name are
    strings, empty when unset; the token is [None] when unset or blank. *)
Record Config := {
  GITHUB_REPO_OWNER : string;
  GITHUB_REPO_NAME : string;
  GITHUB_TOKEN : option string
}.

Definition gh_headers (cfg : Config) : gmap string string :=
  if negb (truthy (GITHUB_TOKEN cfg)) then
    {[ "Accept" := "application/vnd.github+json";
       "User-Agent" := "pim-anti-sticky-bot/1.2" ]}
  else
    {[ "Authorization" := "token " +:+ default "" (GITHUB_TOKEN cfg);
       "Accept" := "application/vnd.github+json";
       "User-Agent" := "pim-anti-sticky-bot/1.2" ]}.

(** The payload of [create_issue]; [labels] is set when the list given is
    not empty. *)
Record issue := {
  issue_title : string;
  issue_body : string;
  issue_labels : option (list string)
}.

Inductive gh_request :=
| GhGet (url : string) (headers : gmap string string)
| GhPost (url : string) (headers : gmap string string) (payload : issue).

(** What the script reads of a decoded GitHub body: the three keys it
    asks for, [None] for a key the body does not have.  GitHub sends
    [has_issues] as a boolean. *)
Record gh_body := {
  gh_login : option string;
  gh_has_issues : option bool;
  gh_html_url : option string
}.

(** A reply: [gh_json] is what [r.json()] returns, [None] when it raises;
    a body that is JSON but no object counts as [None] too, the [.get]
    the script makes on it raising as well. *)
Record gh_response := {
  gh_status : Z;
  gh_json : option gh_body;
  gh_text : chars
}.

Inductive gh_outcome :=
| GhException
| GhReply (r : gh_response).

Class GitHub := github : nat → gh_request → gh_outcome.

Inductive gh_event :=
| PrintNoToken
| PrintBadCredentials
| PrintTokenOk (login : option string)
| PrintCannotAccess (status : Z)
| PrintIssuesDisabled
| PrintRepoReachable
| PrintDryRun (title : string)
| PrintGitHubErrorJson (status : Z) (body : gh_body)
| PrintGitHubErrorText (status : Z) (body : chars)
| PrintCreated (html_url : option string).

Record desk := {
  sent : list gh_request;
  printed : list gh_event
}.

Definition gh_print (e : gh_event) (d : desk) : desk :=
  {| sent := sent d; printed := printed d ++ [e] |}.

Definition gh_send `{GitHub} (q : gh_request) (d : desk) : gh_outcome * desk :=
  (github (length (sent d)) q, {| sent := sent d ++ [q]; printed := printed d |}).

Definition repo_url (cfg : Config) : string :=
  GITHUB +:+ "/repos/" +:+ GITHUB_REPO_OWNER cfg +:+ "/" +:+ GITHUB_REPO_NAME cfg.

Definition gh_self_check `{GitHub} (cfg : Config) (d : desk) : result bool * desk :=
  if negb (truthy (GITHUB_TOKEN cfg)
           && truthy (Some (GITHUB_REPO_OWNER cfg))
           && truthy (Some (GITHUB_REPO_NAME cfg)))
  then (Returned false, gh_print PrintNoToken d)
  else
    let h := gh_headers cfg in
    let (o, d1) := gh_send (GhGet (GITHUB +:+ "/user") h) d in
    match o with
    | GhException => (Raised RequestsError, d1)
    | GhReply r =>
        if gh_status r =? 401 then (Returned false, gh_print PrintBadCredentials d1)
        else
          match gh_json r with
          | None => (Raised JSONDecodeError, d1)
          | Some b =>
              let d2 := gh_print (PrintTokenOk (gh_login b)) d1 in
              let (o2, d3) := gh_send (GhGet (repo_url cfg) h) d2 in
              match o2 with
              | GhException => (Raised RequestsError, d3)
              | GhReply r2 =>
                  if 400 <=? gh_status r2 then
                    (Returned false, gh_print (PrintCannotAccess (gh_status r2)) d3)
                  else
                    match gh_json r2 with
                    | None => (Raised JSONDecodeError, d3)
                    | Some b2 =>
                        if negb (default true (gh_has_issues b2)) then
                          (Returned false, gh_print PrintIssuesDisabled d3)
                        else (Returned true, gh_print PrintRepoReachable d3)
                    end
              end
          end
    end.

Definition create_issue `{GitHub} (cfg : Config) (title body : string)
    (labels : list string) (enabled : bool) (d : desk) : result unit * desk :=
  if negb enabled then (Returned tt, gh_print (PrintDryRun title) d)
  else
    let url := repo_url cfg +:+ "/issues" in
    let payload :=
      {| issue_title := title; issue_body := body;
         issue_labels := match labels with [] => None | _ => Some labels end |} in
    let (o, d1) := gh_send (GhPost url (gh_headers cfg) payload) d in
    match o with
    | GhException => (Raised RequestsError, d1)
    | GhReply r =>
        let d2 :=
          if 400 <=? gh_status r then
            gh_print (match gh_json r with
                      | Some b => PrintGitHubErrorJson (gh_status r) b
                      | None => PrintGitHubErrorText (gh_status r) (str_take 800 (gh_text r))
                      end) d1
          else d1 in
        if raises_for_status (gh_status r) then (Raised (HTTPError (gh_status r)), d2)
        else
          match gh_json r with
          | None => (Raised JSONDecodeError, d2)
          | Some b => (Returned tt, gh_print (PrintCreated (gh_html_url b)) d2)
          end
    end.

(** [json.dumps(record, indent=2)], which the script calls and does not
    define. *)
Class JsonDumps := {
  dumps_permanent : PermanentAssignment → string;
  dumps_stale : StaleEligibility → string;
  dumps_long : LongActivation → string
}.

(** A ticket as the loops of [main] pass it to [create_issue]. *)
Record ticket := {
  ticket_title : string;
  ticket_body : string;
  ticket_labels : list string
}.

Definition fence (json_text : string) : string :=
  String "010" (String "010" ("```json" +:+ String "010" json_text
                               +:+ String "010" "```")).

Definition permanent_ticket `{JsonDumps} (p : PermanentAssignment) : ticket :=
  {| ticket_title :=
       "Permanent privileged assignment: " +:+ pa_principalUPN p +:+ " → " +:+ pa_role p;
     ticket_body :=
       "Detected permanent privileged assignment:" +:+ fence (dumps_permanent p);
     ticket_labels := ["pim"; "sticky-admin"] |}.

Definition stale_ticket `{JsonDumps} (s : StaleEligibility) : ticket :=
  {| ticket_title :=
       "Stale PIM eligibility: " +:+ se_principalUPN s +:+ " → " +:+ se_role s
       +:+ " (no activation in " +:+ pretty WINDOW_DAYS +:+ "d)";
     ticket_body := "Detected stale eligibility:" +:+ fence (dumps_stale s);
     ticket_labels := ["pim"; "stale-eligibility"] |}.

Definition long_ticket `{JsonDumps} (la : LongActivation) : ticket :=
  {| ticket_title :=
       "Long activation > " +:+ pretty MAX_ACTIVATION_HOURS +:+ "h: "
       +:+ la_principalUPN la +:+ " → " +:+ la_role la;
     ticket_body := "Detected long PIM activation:" +:+ fence (dumps_long la);
     ticket_labels := ["pim"; "long-activation"] |}.

(** A [for] loop whose body may raise: the first exception ends it. *)
Fixpoint for_each {A} (f : A → desk → result unit * desk) (l : list A) (d : desk)
  : result unit * desk :=
  match l with
  | [] => (Returned tt, d)
  | x :: rest =>
      let (r, d1) := f x d in
      match r with
      | Returned _ => for_each f rest d1
      | Raised e => (Raised e, d1)
      end
  end.

Definition file_ticket `{GitHub} (cfg : Config) (enabled : bool) (t : ticket)
  : desk → result unit * desk :=
  create_issue cfg (ticket_title t) (ticket_body t) (ticket_labels t) enabled.

(** The three loops over the lists at the end of [main]. *)
Definition notify `{GitHub} `{JsonDumps} (cfg : Config) (gh_ok : bool) (snap : Snapshot)
    (d : desk) : result unit * desk :=
  let (r1, d1) :=
    for_each (λ p, file_ticket cfg gh_ok (permanent_ticket p)) (permanent snap) d in
  match r1 with
  | Raised e => (Raised e, d1)
  | Returned _ =>
      let (r2, d2) :=
        for_each (λ s, file_ticket cfg gh_ok (stale_ticket s)) (staleEligibilities snap) d1 in
      match r2 with
      | Raised e => (Raised e, d2)
      | Returned _ =>
          for_each (λ la, file_ticket cfg gh_ok (long_ticket la)) (longActivations snap) d2
      end
  end.

(** The tickets of a snapshot, in the order [main] files them. *)
Definition tickets `{JsonDumps} (snap : Snapshot) : list ticket :=
  (permanent_ticket <$> permanent snap)
  ++ (stale_ticket <$> staleEligibilities snap)
  ++ (long_ticket <$> longActivations snap).

(** The POST [create_issue] sends for a ticket. *)
Definition ticket_post (cfg : Config) (t : ticket) : gh_request :=
  GhPost (repo_url cfg +:+ "/issues") (gh_headers cfg)
    {| issue_title := ticket_title t; issue_body := ticket_body t;
       issue_labels :=
         match ticket_labels t with [] => None | _ => Some (ticket_labels t) end |}.

(** A reply [create_issue] takes as success. *)
Definition created (o : gh_outcome) : Prop :=
  ∃ r b, o = GhReply r ∧ raises_for_status (gh_status r) = false ∧ gh_json r = Some b.

(** ** More sample data *)

Definition contoso : Config :=
  {| GITHUB_REPO_OWNER := "contoso"; GITHUB_REPO_NAME := "pim-audit";
     GITHUB_TOKEN := Some "ghp_example" |}.

Definition gh_reply (status : Z) (b : gh_body) : gh_outcome :=
  GhReply {| gh_status := status; gh_json := Some b; gh_text := [] |}.

Definition empty_body : gh_body :=
  {| gh_login := None; gh_has_issues := None; gh_html_url := None |}.

(** A GitHub that accepts the token, shows the repository and creates
    every issue. *)
Definition github_up : GitHub := fun _ q =>
  match q with
  | GhGet url _ =>
      if String.eqb url (GITHUB +:+ "/user") then
        gh_reply 200 {| gh_login := Some "auditor"; gh_has_issues := None;
                        gh_html_url := None |}
      else gh_reply 200 {| gh_login := None; gh_has_issues := Some true;
                           gh_html_url := None |}
  | GhPost _ _ _ =>
      gh_reply 201 {| gh_login := None; gh_has_issues := None;
                      gh_html_url := Some "https://github.com/contoso/pim-audit/issues/1" |}
  end.

(** A GitHub that answers the who-am-I request with 403 and a JSON body,
    and is otherwise as [github_up]. *)
Definition github_forbidden_user : GitHub := fun n q =>
  match q with
  | GhGet url _ =>
      if String.eqb url (GITHUB +:+ "/user") then gh_reply 403 empty_body
      else github_up n q
  | _ => github_up n q
  end.

(** A GitHub that creates the first issue and answers 422 after. *)
Definition github_second_post_fails : GitHub := fun n q =>
  match n with
  | O => github_up n q
  | S _ => gh_reply 422 empty_body
  end.

(** A [json.dumps] for the examples: the role name stands for the text. *)
Definition dumps_role : JsonDumps :=
  {| dumps_permanent := pa_role; dumps_stale := se_role; dumps_long := la_role |}.

Definition no_desk : desk := {| sent := []; printed := [] |}.

(** A snapshot with two permanent assignments and one stale eligibility. *)
Definition three_findings : Snapshot :=
  {| metrics :=
       {| timestamp := "20240131-120000";
          privileged_roles_tracked := sorted (elements PRIV_ROLES);
          active_privileged_assignments := 2;
          eligible_privileged_users := 1;
          activations_last_30d := 0;
          permanent_privileged_assignments := 2;
          stale_eligibilities_90d := 1;
          long_activations_over_8h := 0 |};
     permanent :=
       [ {| pa_principalId := Some "p1"; pa_principalUPN := "ann@contoso.com";
            pa_role := "Global Administrator"; pa_assignmentId := Some "a1";
            pa_createdDateTime := Some "2023-01-01T00:00:00Z" |};
         {| pa_principalId := Some "p2"; pa_principalUPN := "bob@contoso.com";
            pa_role := "Security Administrator"; pa_assignmentId := Some "a2";
            pa_createdDateTime := None |} ];
     staleEligibilities :=
       [ {| se_principalId := Some "p3"; se_principalUPN := "cy@contoso.com";
            se_role := "Global Administrator"; se_eligibilityId := Some "e1";
            se_eligibleSince := Some "2023-06-01T00:00:00Z" |} ];
     longActivations := [] |}.

(** A directory that serves the role definitions in one page and is
    otherwise as [directory_up]. *)
Definition directory_defs : Network := fun n url p =>
  if String.eqb url (GRAPH +:+ "/roleManagement/directory/roleDefinitions")
  then page_reply [ {[ "id" := ga_id; "displayName" := "Global Administrator" ]};
                    {[ "id" := ua_id ]} ] None
  else directory_up n url p.

(** A directory whose role definitions page holds a definition without an
    id. *)
Definition directory_defs_broken : Network := fun n url p =>
  if String.eqb url (GRAPH +:+ "/roleManagement/directory/roleDefinitions")
  then page_reply [ {[ "id" := ga_id; "displayName" := "Global Administrator" ]};
                    {[ "displayName" := "Orphan" ]} ] None
  else directory_up n url p.

(** A directory that answers role lookups only from the third request on. *)
Definition directory_late : Network := fun n url p =>
  match n with
  | 0%nat | 1%nat => error_reply 503
  | _ => directory_up n url p
  end.

(** ** What the further statements speak of *)

(** The role definition id of [a] is cached in [c] under a privileged
    name. *)
Definition cached_privileged (c : gmap string string) (a : obj) : bool :=
  match a !! "roleDefinitionId" with
  | Some id =>
      negb (String.eqb id "")
      && match c !! id with
         | Some name => bool_decide (name ∈ PRIV_ROLES)
         | None => false
         end
  | None => false
  end.

(** No record's role definition id is itself a name of PRIV_ROLES. *)
Definition ids_are_not_names (xs : list obj) : Prop :=
  Forall (λ a : obj, ∀ id, a !! "roleDefinitionId" = Some id → id ∉ PRIV_ROLES) xs.

(** From [w] to [w'] the cache only gained entries, nothing was printed
    and at most [k] requests were made. *)
Definition within (k : nat) (w w' : world) : Prop :=
  _role_name_by_id w ⊆ _role_name_by_id w'
  ∧ console w' = console w
  ∧ (requests_made w ≤ requests_made w' ≤ requests_made w + k)%nat.

(** * Properties *)

(** ** The loops append the records of their bodies, in order *)

Section Loops.
Context `{PyRuntime} `{Network}.

Lemma permanent_loop_acc keys l acc w :
  permanent_loop keys l acc w =
    ((acc ++ (permanent_loop keys l [] w).1), (permanent_loop keys l [] w).2).
Proof.
  revert acc w. induction l as [|a l IH]; intros acc w; simpl.
  - unfold ret; simpl. by rewrite app_nil_r.
  - unfold bind. destruct (permanent_body keys a w) as [r w1].
    rewrite (IH (acc ++ option_list r)), (IH ([] ++ option_list r)); simpl.
    by rewrite app_assoc.
Qed.

Lemma permanent_loop_cons keys a l w :
  permanent_loop keys (a :: l) [] w =
    let r := permanent_body keys a w in
    let rest := permanent_loop keys l [] r.2 in
    (option_list r.1 ++ rest.1, rest.2).
Proof.
  simpl. unfold bind. destruct (permanent_body keys a w) as [r w1]; simpl.
  by rewrite permanent_loop_acc.
Qed.

Lemma permanent_loop_app keys l1 l2 w :
  permanent_loop keys (l1 ++ l2) [] w =
    let r1 := permanent_loop keys l1 [] w in
    let r2 := permanent_loop keys l2 [] r1.2 in
    (r1.1 ++ r2.1, r2.2).
Proof.
  revert w. induction l1 as [|a l1 IH]; intros w.
  - simpl. unfold ret; simpl. by destruct (permanent_loop keys l2 [] w).
  - rewrite <- app_comm_cons, !permanent_loop_cons; simpl.
    rewrite IH; simpl. by rewrite app_assoc.
Qed.

Lemma stale_loop_acc keys l acc w :
  stale_loop keys l acc w =
    ((acc ++ (stale_loop keys l [] w).1), (stale_loop keys l [] w).2).
Proof.
  revert acc w. induction l as [|a l IH]; intros acc w; simpl.
  - unfold ret; simpl. by rewrite app_nil_r.
  - unfold bind. destruct (stale_body keys a w) as [r w1].
    rewrite (IH (acc ++ option_list r)), (IH ([] ++ option_list r)); simpl.
    by rewrite app_assoc.
Qed.

Lemma stale_loop_cons keys a l w :
  stale_loop keys (a :: l) [] w =
    let r := stale_body keys a w in
    let rest := stale_loop keys l [] r.2 in
    (option_list r.1 ++ rest.1, rest.2).
Proof.
  simpl. unfold bind. destruct (stale_body keys a w) as [r w1]; simpl.
  by rewrite stale_loop_acc.
Qed.

Lemma stale_loop_app keys l1 l2 w :
  stale_loop keys (l1 ++ l2) [] w =
    let r1 := stale_loop keys l1 [] w in
    let r2 := stale_loop keys l2 [] r1.2 in
    (r1.1 ++ r2.1, r2.2).
Proof.
  revert w. induction l1 as [|a l1 IH]; intros w.
  - simpl. unfold ret; simpl. by destruct (stale_loop keys l2 [] w).
  - rewrite <- app_comm_cons, !stale_loop_cons; simpl.
    rewrite IH; simpl. by rewrite app_assoc.
Qed.

Lemma long_loop_acc l acc w :
  long_loop l acc w =
    ((acc ++ (long_loop l [] w).1), (long_loop l [] w).2).
Proof.
  revert acc w. induction l as [|a l IH]; intros acc w; simpl.
  - unfold ret; simpl. by rewrite app_nil_r.
  - unfold bind. destruct (long_body a w) as [r w1].
    rewrite (IH (acc ++ option_list r)), (IH ([] ++ option_list r)); simpl.
    by rewrite app_assoc.
Qed.

Lemma long_loop_cons a l w :
  long_loop (a :: l) [] w =
    let r := long_body a w in
    let rest := long_loop l [] r.2 in
    (option_list r.1 ++ rest.1, rest.2).
Proof.
  simpl. unfold bind. destruct (long_body a w) as [r w1]; simpl.
  by rewrite long_loop_acc.
Qed.

Lemma long_loop_app l1 l2 w :
  long_loop (l1 ++ l2) [] w =
    let r1 := long_loop l1 [] w in
    let r2 := long_loop l2 [] r1.2 in
    (r1.1 ++ r2.1, r2.2).
Proof.
  revert w. induction l1 as [|a l1 IH]; intros w.
  - simpl. unfold ret; simpl. by destruct (long_loop l2 [] w).
  - rewrite <- app_comm_cons, !long_loop_cons; simpl.
    rewrite IH; simpl. by rewrite app_assoc.
Qed.

(** The key set holds exactly the keys of the instances it is built from. *)
Lemma elem_of_inst_keys (k : key) (inst : list obj) :
  k ∈ inst_keys inst ↔
  ∃ i : obj, i ∈ inst ∧ (i !! "principalId", i !! "roleDefinitionId") = k.
Proof.
  unfold inst_keys. rewrite elem_of_list_to_set, list_elem_of_fmap.
  split; intros (i & ? & ?); exists i; split; congruence.
Qed.

(** What the bodies do once the role name is known. *)
Lemma permanent_body_eq keys a w :
  permanent_body keys a w =
    let rn := role_name (a !! "roleDefinitionId") w in
    if decide (rn.1 ∈ PRIV_ROLES) then
      if decide ((a !! "principalId", a !! "roleDefinitionId") ∈ keys) then (None, rn.2)
      else
        let u := upn (a !! "principalId") rn.2 in
        (Some {| pa_principalId := a !! "principalId";
                 pa_principalUPN := u.1;
                 pa_role := rn.1;
                 pa_assignmentId := a !! "id";
                 pa_createdDateTime := a !! "createdDateTime" |}, u.2)
    else (None, rn.2).
Proof.
  unfold permanent_body, bind, ret.
  destruct (role_name (a !! "roleDefinitionId") w) as [rname w1]; simpl.
  destruct (decide (rname ∈ PRIV_ROLES)); [|reflexivity].
  destruct (decide (_ ∈ keys)); [reflexivity|].
  destruct (upn (a !! "principalId") w1); reflexivity.
Qed.

Lemma stale_body_eq keys e w :
  stale_body keys e w =
    let rn := role_name (e !! "roleDefinitionId") w in
    if decide (rn.1 ∈ PRIV_ROLES) then
      if decide ((e !! "principalId", e !! "roleDefinitionId") ∈ keys) then (None, rn.2)
      else
        let u := upn (e !! "principalId") rn.2 in
        (Some {| se_principalId := e !! "principalId";
                 se_principalUPN := u.1;
                 se_role := rn.1;
                 se_eligibilityId := e !! "id";
                 se_eligibleSince := e !! "startDateTime" |}, u.2)
    else (None, rn.2).
Proof.
  unfold stale_body, bind, ret.
  destruct (role_name (e !! "roleDefinitionId") w) as [rname w1]; simpl.
  destruct (decide (rname ∈ PRIV_ROLES)); [|reflexivity].
  destruct (decide (_ ∈ keys)); [reflexivity|].
  destruct (upn (e !! "principalId") w1); reflexivity.
Qed.

Lemma long_body_eq i w :
  long_body i w =
    let rn := role_name (i !! "roleDefinitionId") w in
    if decide (rn.1 ∈ PRIV_ROLES) then
      if truthy (i !! "startDateTime") && truthy (i !! "endDateTime") then
        let start := default "" (i !! "startDateTime") in
        let end_ := default "" (i !! "endDateTime") in
        match duration_hours start end_ with
        | Some hours =>
            if over_limit hours then
              let u := upn (i !! "principalId") rn.2 in
              (Some {| la_principalId := i !! "principalId";
                       la_principalUPN := u.1;
                       la_role := rn.1;
                       la_instanceId := i !! "id";
                       la_start := start;
                       la_end := end_;
                       la_hours := py_round hours 2 |}, u.2)
            else (None, rn.2)
        | None => (None, rn.2)
        end
      else (None, rn.2)
    else (None, rn.2).
Proof.
  unfold long_body, bind, ret.
  destruct (role_name (i !! "roleDefinitionId") w) as [rname w1]; simpl.
  destruct (decide (rname ∈ PRIV_ROLES)); [|reflexivity].
  destruct (truthy (i !! "startDateTime") && truthy (i !! "endDateTime")); [|reflexivity].
  destruct (duration_hours _ _); [|reflexivity].
  destruct (over_limit _); [|reflexivity].
  destruct (upn (i !! "principalId") w1); reflexivity.
Qed.

End Loops.

(** ** Standing assignments (lines 204-218) *)

Section Permanent.
Context `{Network}.

(** C1.  When the loop reaches an assignment [a] whose role name resolves
    to a member of PRIV_ROLES, the body appends a record for [a] if and
    only if the key of [a] is not in the key set built from the in-window
    instances, that is, if and only if no in-window instance carries that
    exact (principalId, roleDefinitionId) pair; the record carries the
    resolved name, and the permanent list of the whole run is the records
    of the assignments before [a], then that of [a] if any, then those of
    the assignments after it. *)
Theorem permanent_iff_no_instance_in_window
    (inst pre post : list obj) (a : obj) (w0 : world) :
  let keys := inst_keys inst in
  let before := permanent_loop keys pre [] w0 in
  let rn := role_name (a !! "roleDefinitionId") before.2 in
  let r := permanent_body keys a before.2 in
  let after := permanent_loop keys post [] r.2 in
  rn.1 ∈ PRIV_ROLES →
  (is_Some r.1 ↔ (a !! "principalId", a !! "roleDefinitionId") ∉ keys)
  ∧ (is_Some r.1 ↔
     ¬ ∃ i : obj, i ∈ inst ∧ i !! "principalId" = a !! "principalId"
                  ∧ i !! "roleDefinitionId" = a !! "roleDefinitionId")
  ∧ (∀ p, r.1 = Some p →
       pa_role p = rn.1 ∧ pa_principalId p = a !! "principalId"
       ∧ pa_assignmentId p = a !! "id"
       ∧ pa_createdDateTime p = a !! "createdDateTime")
  ∧ (permanent_loop keys (pre ++ a :: post) [] w0).1
    = before.1 ++ option_list r.1 ++ after.1.
Proof.
  intros keys before rn r after Hpriv.
  assert (Hr : r = if decide ((a !! "principalId", a !! "roleDefinitionId") ∈ keys)
                   then (None, rn.2)
                   else (Some {| pa_principalId := a !! "principalId";
                                 pa_principalUPN := (upn (a !! "principalId") rn.2).1;
                                 pa_role := rn.1;
                                 pa_assignmentId := a !! "id";
                                 pa_createdDateTime := a !! "createdDateTime" |},
                         (upn (a !! "principalId") rn.2).2)).
  { subst r. rewrite permanent_body_eq. cbv zeta. fold rn.
    destruct (decide (rn.1 ∈ PRIV_ROLES)) as [_|Hn]; [reflexivity|].
    destruct (Hn Hpriv). }
  assert (Hiff : is_Some r.1 ↔ (a !! "principalId", a !! "roleDefinitionId") ∉ keys).
  { rewrite Hr.
    destruct (decide (_ ∈ keys)) as [Hin|Hout]; cbn [fst]; split.
    - intros Hs. destruct (is_Some_None Hs).
    - intros Hout. destruct (Hout Hin).
    - intros _. exact Hout.
    - intros _. eexists. reflexivity. }
  split; [exact Hiff|]. split; [|split].
  - rewrite Hiff. subst keys. rewrite elem_of_inst_keys.
    split; intros Hn (i & Hi & Hk); apply Hn; exists i.
    + destruct Hk as [-> ->]. split; [exact Hi|reflexivity].
    + injection Hk as ? ?. split; [exact Hi|]. split; assumption.
  - intros p. rewrite Hr.
    destruct (decide (_ ∈ keys)); cbn [fst]; intros Hp.
    + discriminate Hp.
    + injection Hp as <-. cbn. repeat split.
  - rewrite permanent_loop_app. cbv zeta. cbn [fst snd].
    rewrite permanent_loop_cons. reflexivity.
Qed.

End Permanent.

(** The case C1 singles out: with no in-window instance for (P, Global
    Administrator) the assignment is listed as permanent, also when another
    principal activated the role; with one it is not. *)
Lemma permanent_global_administrator :
  (@permanent_loop directory_up (inst_keys [other_instance]) [ga_assignment] [] fresh).1
    = [ {| pa_principalId := Some "P"; pa_principalUPN := "p@contoso.com";
           pa_role := "Global Administrator"; pa_assignmentId := Some "a1";
           pa_createdDateTime := Some "2023-05-01T08:00:00Z" |} ]
  ∧ (@permanent_loop directory_up (inst_keys [other_instance; ga_instance])
       [ga_assignment] [] fresh).1 = [].
Proof.
  pose proof (@permanent_iff_no_instance_in_window directory_up
                [other_instance] [] [] ga_assignment fresh) as H1.
  pose proof (@permanent_iff_no_instance_in_window directory_up
                [other_instance; ga_instance] [] [] ga_assignment fresh) as H2.
  split.
  - destruct H1 as (_ & _ & _ & E); [vm_compute; set_solver|].
    etransitivity; [exact E|]. vm_compute. reflexivity.
  - destruct H2 as (_ & _ & _ & E); [vm_compute; set_solver|].
    etransitivity; [exact E|]. vm_compute. reflexivity.
Defined.

(** ** Only privileged role names are ever listed *)

Section Privileged.
Context `{PyRuntime} `{Network}.

Lemma permanent_body_role keys a w p :
  (permanent_body keys a w).1 = Some p → pa_role p ∈ PRIV_ROLES.
Proof.
  rewrite permanent_body_eq. cbv zeta.
  destruct (decide (_ ∈ PRIV_ROLES)) as [Hp|]; [|discriminate].
  destruct (decide (_ ∈ keys)); [discriminate|].
  cbn [fst]. intros Hs. injection Hs as <-. exact Hp.
Qed.

Lemma stale_body_role keys e w p :
  (stale_body keys e w).1 = Some p → se_role p ∈ PRIV_ROLES.
Proof.
  rewrite stale_body_eq. cbv zeta.
  destruct (decide (_ ∈ PRIV_ROLES)) as [Hp|]; [|discriminate].
  destruct (decide (_ ∈ keys)); [discriminate|].
  cbn [fst]. intros Hs. injection Hs as <-. exact Hp.
Qed.

Lemma long_body_role i w p :
  (long_body i w).1 = Some p → la_role p ∈ PRIV_ROLES.
Proof.
  rewrite long_body_eq. cbv zeta.
  destruct (decide (_ ∈ PRIV_ROLES)) as [Hp|]; [|discriminate].
  destruct (truthy _ && truthy _); [|discriminate].
  destruct (duration_hours _ _); [|discriminate].
  destruct (over_limit _); [|discriminate].
  cbn [fst]. intros Hs. injection Hs as <-. exact Hp.
Qed.

Lemma permanent_loop_roles keys l w :
  Forall (λ p, pa_role p ∈ PRIV_ROLES) (permanent_loop keys l [] w).1.
Proof.
  revert w. induction l as [|a l IH]; intros w.
  - apply Forall_nil_2.
  - rewrite permanent_loop_cons. cbv zeta. cbn [fst].
    apply Forall_app_2; [|apply IH].
    destruct (permanent_body keys a w).1 as [p|] eqn:E; cbn.
    + apply Forall_cons_2; [|apply Forall_nil_2].
      exact (permanent_body_role _ _ _ _ E).
    + apply Forall_nil_2.
Qed.

Lemma stale_loop_roles keys l w :
  Forall (λ p, se_role p ∈ PRIV_ROLES) (stale_loop keys l [] w).1.
Proof.
  revert w. induction l as [|a l IH]; intros w.
  - apply Forall_nil_2.
  - rewrite stale_loop_cons. cbv zeta. cbn [fst].
    apply Forall_app_2; [|apply IH].
    destruct (stale_body keys a w).1 as [p|] eqn:E; cbn.
    + apply Forall_cons_2; [|apply Forall_nil_2].
      exact (stale_body_role _ _ _ _ E).
    + apply Forall_nil_2.
Qed.

Lemma long_loop_roles l w :
  Forall (λ p, la_role p ∈ PRIV_ROLES) (long_loop l [] w).1.
Proof.
  revert w. induction l as [|a l IH]; intros w.
  - apply Forall_nil_2.
  - rewrite long_loop_cons. cbv zeta. cbn [fst].
    apply Forall_app_2; [|apply IH].
    destruct (long_body a w).1 as [p|] eqn:E; cbn.
    + apply Forall_cons_2; [|apply Forall_nil_2].
      exact (long_body_role _ _ _ E).
    + apply Forall_nil_2.
Qed.

(** The three lists of a run, as [classify] threads the world through
    the loops. *)
Lemma classify_lists ts assignments eligibles inst w :
  let p := permanent_loop (inst_keys inst) assignments [] w in
  let s := stale_loop (recent_keys inst) eligibles [] p.2 in
  let l := long_loop inst [] s.2 in
  let ca := count_privileged assignments 0%nat l.2 in
  let ce := count_privileged eligibles 0%nat ca.2 in
  classify ts assignments eligibles inst w =
    ({| metrics :=
          {| timestamp := ts;
             privileged_roles_tracked := sorted (elements PRIV_ROLES);
             active_privileged_assignments := ca.1;
             eligible_privileged_users := ce.1;
             activations_last_30d := length inst;
             permanent_privileged_assignments := length p.1;
             stale_eligibilities_90d := length s.1;
             long_activations_over_8h := length l.1 |};
        permanent := p.1;
        staleEligibilities := s.1;
        longActivations := l.1 |}, ce.2).
Proof.
  unfold classify, bind, ret. cbv zeta.
  destruct (permanent_loop (inst_keys inst) assignments [] w) as [p w1]. cbn [fst snd].
  destruct (stale_loop (recent_keys inst) eligibles [] w1) as [s w2]. cbn [fst snd].
  destruct (long_loop inst [] w2) as [l w3]. cbn [fst snd].
  destruct (count_privileged assignments 0%nat w3) as [ca w4]. cbn [fst snd].
  destruct (count_privileged eligibles 0%nat w4) as [ce w5]. reflexivity.
Qed.

(** C4.  A record whose role name resolves, when the loop reaches it, to a
    name outside PRIV_ROLES is appended to none of the three lists, so
    every record of the three lists of a run carries a role name of
    PRIV_ROLES; and PRIV_ROLES is the set of the eight names of the
    literal. *)
Theorem non_privileged_never_classified :
  (∀ keys (x : obj) w,
      (role_name (x !! "roleDefinitionId") w).1 ∉ PRIV_ROLES →
      (permanent_body keys x w).1 = None
      ∧ (stale_body keys x w).1 = None
      ∧ (long_body x w).1 = None)
  ∧ (∀ ts assignments eligibles inst w,
       let snap := (classify ts assignments eligibles inst w).1 in
       Forall (λ p, pa_role p ∈ PRIV_ROLES) (permanent snap)
       ∧ Forall (λ p, se_role p ∈ PRIV_ROLES) (staleEligibilities snap)
       ∧ Forall (λ p, la_role p ∈ PRIV_ROLES) (longActivations snap))
  ∧ size PRIV_ROLES = 8%nat
  ∧ (∀ name, name ∈ PRIV_ROLES ↔ name ∈ PRIV_ROLES_literal).
Proof.
  split; [|split; [|split]].
  - intros keys x w Hn.
    rewrite permanent_body_eq, stale_body_eq, long_body_eq. cbv zeta.
    destruct (decide (_ ∈ PRIV_ROLES)) as [Hp|_]; [destruct (Hn Hp)|].
    repeat split.
  - intros ts assignments eligibles inst w snap. subst snap.
    rewrite classify_lists. cbv zeta. cbn [fst permanent staleEligibilities longActivations].
    split; [apply permanent_loop_roles|].
    split; [apply stale_loop_roles|apply long_loop_roles].
  - vm_compute. reflexivity.
  - intros name. Transparent PRIV_ROLES. unfold PRIV_ROLES. Opaque PRIV_ROLES.
    apply elem_of_list_to_set.
Qed.

End Privileged.

(** A User Administrator record is listed nowhere, whatever the key set. *)
Lemma user_administrator_not_listed :
  (@role_name directory_up (ua_assignment !! "roleDefinitionId") fresh).1
     = "User Administrator"
  ∧ (@permanent_body directory_up ∅ ua_assignment fresh).1 = None
  ∧ (@stale_body directory_up ∅ ua_assignment fresh).1 = None
  ∧ (@long_body py310 directory_up ua_assignment fresh).1 = None.
Proof.
  split; [vm_compute; reflexivity|].
  apply (proj1 (@non_privileged_never_classified py310 directory_up)).
  apply (bool_decide_unpack _). vm_compute. exact I.
Defined.

(** ** The two key sets (lines 204 and 220) *)

(** C9.  The key set of the permanent check and the key set of the stale
    check are the same set, so an assignment and an eligibility whose key
    is the key of some in-window instance are both left out of their
    lists. *)
Theorem join_key_sets_coincide `{Network} (inst : list obj) :
  inst_keys inst = recent_keys inst
  ∧ ∀ (i a e : obj) (w w' : world),
      i ∈ inst →
      a !! "principalId" = i !! "principalId" →
      a !! "roleDefinitionId" = i !! "roleDefinitionId" →
      e !! "principalId" = i !! "principalId" →
      e !! "roleDefinitionId" = i !! "roleDefinitionId" →
      (permanent_body (inst_keys inst) a w).1 = None
      ∧ (stale_body (recent_keys inst) e w').1 = None.
Proof.
  split; [reflexivity|].
  intros i a e w w' Hi Ha1 Ha2 He1 He2.
  assert (Hk : (i !! "principalId", i !! "roleDefinitionId") ∈ inst_keys inst).
  { apply elem_of_inst_keys. exists i. split; [exact Hi|reflexivity]. }
  rewrite permanent_body_eq, stale_body_eq. cbv zeta.
  rewrite Ha1, Ha2, He1, He2. change (recent_keys inst) with (inst_keys inst).
  split.
  - destruct (decide (_ ∈ PRIV_ROLES)); [|reflexivity].
    destruct (decide (_ ∈ inst_keys inst)) as [|Hn]; [reflexivity|destruct (Hn Hk)].
  - destruct (decide (_ ∈ PRIV_ROLES)); [|reflexivity].
    destruct (decide (_ ∈ inst_keys inst)) as [|Hn]; [reflexivity|destruct (Hn Hk)].
Qed.

(** One activation by P takes both the assignment and the eligibility of
    P out of their lists. *)
Lemma one_instance_clears_both :
  (@permanent_body directory_up (inst_keys [ga_instance]) ga_assignment fresh).1 = None
  ∧ (@stale_body directory_up (recent_keys [ga_instance]) ga_eligibility fresh).1 = None.
Proof.
  apply (proj2 (@join_key_sets_coincide directory_up [ga_instance]) ga_instance).
  - apply list_elem_of_singleton. reflexivity.
  - vm_compute. reflexivity.
  - vm_compute. reflexivity.
  - vm_compute. reflexivity.
  - vm_compute. reflexivity.
Defined.

(** ** The lookups, step by step *)

Section Lookups.
Context `{Network}.

Lemma role_name_eq (role_def_id : option string) (w : world) :
  role_name role_def_id w =
    if negb (truthy role_def_id) then ("", w)
    else
      let id := default "" role_def_id in
      match _role_name_by_id w !! id with
      | Some name => (name, w)
      | None =>
          match fetched_name id (requests_get (requests_made w) (role_url id) None) with
          | Some name => (name, set_cache (<[id := name]> (_role_name_by_id w)) (asked w))
          | None => (id, asked w)
          end
      end.
Proof.
  unfold role_name, http_get, fetched_name, asked.
  destruct (negb (truthy role_def_id)); [reflexivity|]. cbv zeta.
  destruct (_role_name_by_id w !! default "" role_def_id); [reflexivity|].
  destruct (requests_get _ _ _) as [|r]; [reflexivity|].
  destruct (status_code r <? 400); [|reflexivity].
  destruct (json r); reflexivity.
Qed.

Lemma upn_eq (pid : option string) (w : world) :
  upn pid w =
    if negb (truthy pid) then ("", w)
    else
      let p := default "" pid in
      (fetched_upn p (requests_get (requests_made w) (user_url p) None), asked w).
Proof.
  unfold upn, http_get, fetched_upn, asked.
  destruct (negb (truthy pid)); [reflexivity|]. cbv zeta.
  destruct (requests_get _ _ _) as [|r]; [reflexivity|].
  destruct (status_code r <? 400); [|reflexivity].
  destruct (json r); reflexivity.
Qed.

Lemma upn_cache pid w : _role_name_by_id (upn pid w).2 = _role_name_by_id w.
Proof.
  rewrite upn_eq. destruct (negb (truthy pid)); reflexivity.
Qed.

Lemma warm_refl w : warm (_role_name_by_id w) w.
Proof. intros id. left. reflexivity. Qed.

Lemma warm_cache c0 w w' :
  _role_name_by_id w' = _role_name_by_id w → warm c0 w → warm c0 w'.
Proof. intros E Hw id. rewrite E. apply Hw. Qed.

(** With lookups fixed, a warm cache resolves every id as [c0] does, and
    stays warm. *)
Lemma role_name_fixed c0 rid w :
  roles_fixed → warm c0 w →
  (role_name rid w).1 = resolve c0 rid ∧ warm c0 (role_name rid w).2.
Proof.
  intros Hfix Hw. rewrite role_name_eq. unfold resolve.
  destruct (negb (truthy rid)); [split; [reflexivity|exact Hw]|]. cbv zeta.
  set (id := default "" rid).
  rewrite (Hfix (requests_made w) 0%nat id).
  destruct (Hw id) as [E|[E0 E]].
  - rewrite E. destruct (c0 !! id) as [name|] eqn:Ec.
    + split; [reflexivity|exact Hw].
    + destruct (fetched_name id _) as [name|] eqn:Ef; cbn [fst snd default].
      * split; [reflexivity|]. intros id'. cbn.
        destruct (decide (id = id')) as [<-|Hne].
        -- right. rewrite lookup_insert_eq. split; [exact Ec|]. symmetry; exact Ef.
        -- rewrite lookup_insert_ne by exact Hne. apply Hw.
      * split; [reflexivity|]. exact Hw.
  - rewrite E, E0.
    destruct (fetched_name id _) as [name|] eqn:Ef; cbn [fst snd default].
    + split; [reflexivity|exact Hw].
    + split; [reflexivity|exact Hw].
Qed.

Lemma upn_fixed pid w w' :
  upns_fixed → (upn pid w).1 = (upn pid w').1.
Proof.
  intros Hfix. rewrite !upn_eq.
  destruct (negb (truthy pid)); [reflexivity|]. cbv zeta. cbn [fst].
  rewrite (Hfix (requests_made w) (requests_made w')). reflexivity.
Qed.

End Lookups.

(** ** Runs with the resolution held fixed *)

Section Fixed.
Context `{PyRuntime} `{Network}.
Hypothesis Hroles : roles_fixed.

Lemma permanent_body_warm c0 keys a w :
  warm c0 w → warm c0 (permanent_body keys a w).2.
Proof.
  intros Hw. rewrite permanent_body_eq. cbv zeta.
  destruct (role_name_fixed c0 (a !! "roleDefinitionId") w Hroles Hw) as [_ Hw1].
  destruct (decide (_ ∈ PRIV_ROLES)); [|exact Hw1].
  destruct (decide (_ ∈ keys)); [exact Hw1|].
  cbn [snd]. exact (warm_cache _ _ _ (upn_cache _ _) Hw1).
Qed.

Lemma stale_body_warm c0 keys a w :
  warm c0 w → warm c0 (stale_body keys a w).2.
Proof.
  intros Hw. rewrite stale_body_eq. cbv zeta.
  destruct (role_name_fixed c0 (a !! "roleDefinitionId") w Hroles Hw) as [_ Hw1].
  destruct (decide (_ ∈ PRIV_ROLES)); [|exact Hw1].
  destruct (decide (_ ∈ keys)); [exact Hw1|].
  cbn [snd]. exact (warm_cache _ _ _ (upn_cache _ _) Hw1).
Qed.

Lemma long_body_warm c0 a w :
  warm c0 w → warm c0 (long_body a w).2.
Proof.
  intros Hw. rewrite long_body_eq. cbv zeta.
  destruct (role_name_fixed c0 (a !! "roleDefinitionId") w Hroles Hw) as [_ Hw1].
  destruct (decide (_ ∈ PRIV_ROLES)); [|exact Hw1].
  destruct (truthy _ && truthy _); [|exact Hw1].
  destruct (duration_hours _ _); [|exact Hw1].
  destruct (over_limit _); [|exact Hw1].
  cbn [snd]. exact (warm_cache _ _ _ (upn_cache _ _) Hw1).
Qed.

Lemma permanent_loop_warm c0 keys l w :
  warm c0 w → warm c0 (permanent_loop keys l [] w).2.
Proof.
  revert w. induction l as [|a l IH]; intros w Hw; [exact Hw|].
  rewrite permanent_loop_cons. cbv zeta. cbn [snd].
  apply IH, permanent_body_warm, Hw.
Qed.

Lemma stale_loop_warm c0 keys l w :
  warm c0 w → warm c0 (stale_loop keys l [] w).2.
Proof.
  revert w. induction l as [|a l IH]; intros w Hw; [exact Hw|].
  rewrite stale_loop_cons. cbv zeta. cbn [snd].
  apply IH, stale_body_warm, Hw.
Qed.

Lemma long_loop_warm c0 l w :
  warm c0 w → warm c0 (long_loop l [] w).2.
Proof.
  revert w. induction l as [|a l IH]; intros w Hw; [exact Hw|].
  rewrite long_loop_cons. cbv zeta. cbn [snd].
  apply IH, long_body_warm, Hw.
Qed.

(** The count of the metrics is the number of records whose id resolves
    to a privileged name. *)
Lemma count_privileged_fixed c0 xs n w :
  warm c0 w →
  (count_privileged xs n w).1
    = (n + length (filter (λ a : obj, resolve c0 (a !! "roleDefinitionId") ∈ PRIV_ROLES) xs))%nat
  ∧ warm c0 (count_privileged xs n w).2.
Proof.
  revert n w. induction xs as [|a xs IH]; intros n w Hw.
  - cbn. split; [lia|exact Hw].
  - cbn [count_privileged]. unfold bind.
    destruct (role_name_fixed c0 (a !! "roleDefinitionId") w Hroles Hw) as [E Hw1].
    destruct (role_name (a !! "roleDefinitionId") w) as [rname w1].
    cbn [fst snd] in E, Hw1. subst rname.
    destruct (IH (if decide (resolve c0 (a !! "roleDefinitionId") ∈ PRIV_ROLES)
                  then S n else n) w1 Hw1) as [IH1 IH2].
    split; [|exact IH2]. rewrite IH1. rewrite filter_cons.
    destruct (decide (_ ∈ PRIV_ROLES)); cbn [length]; lia.
Qed.

(** The permanent list has one record for each assignment with a
    privileged name and no in-window instance. *)
Lemma permanent_loop_length c0 keys l w :
  warm c0 w →
  length (permanent_loop keys l [] w).1
    = length (filter (λ a : obj,
                resolve c0 (a !! "roleDefinitionId") ∈ PRIV_ROLES
                ∧ (a !! "principalId", a !! "roleDefinitionId") ∉ keys) l).
Proof.
  revert w. induction l as [|a l IH]; intros w Hw; [reflexivity|].
  rewrite permanent_loop_cons. cbv zeta. cbn [fst].
  rewrite length_app, (IH _ (permanent_body_warm c0 keys a w Hw)).
  rewrite permanent_body_eq. cbv zeta.
  destruct (role_name_fixed c0 (a !! "roleDefinitionId") w Hroles Hw) as [E _].
  rewrite E, filter_cons.
  destruct (decide (resolve c0 _ ∈ PRIV_ROLES)) as [Hp|Hp].
  - destruct (decide (_ ∈ keys)) as [Hk|Hk].
    + rewrite decide_False; [reflexivity|]. intros [_ Hn]. exact (Hn Hk).
    + rewrite decide_True; [reflexivity|]. split; assumption.
  - rewrite decide_False; [reflexivity|]. intros [Hn _]. exact (Hp Hn).
Qed.

Lemma filter_and_length (P Q : obj → Prop)
    `{∀ x, Decision (P x)} `{∀ x, Decision (Q x)} (l : list obj) :
  (length (filter (λ x, P x ∧ Q x) l) ≤ length (filter P l))%nat.
Proof.
  induction l as [|x l IH]; [reflexivity|].
  rewrite !filter_cons.
  destruct (decide (P x ∧ Q x)) as [[Hp _]|Hn].
  - rewrite decide_True by exact Hp. cbn [length]. lia.
  - destruct (decide (P x)); cbn [length]; lia.
Qed.

(** The same bodies from two warm worlds. *)
Hypothesis Hupns : upns_fixed.

Lemma permanent_body_fixed c0 keys a w w' :
  warm c0 w → warm c0 w' →
  (permanent_body keys a w).1 = (permanent_body keys a w').1.
Proof.
  intros Hw Hw'. rewrite !permanent_body_eq. cbv zeta.
  destruct (role_name_fixed c0 (a !! "roleDefinitionId") w Hroles Hw) as [E _].
  destruct (role_name_fixed c0 (a !! "roleDefinitionId") w' Hroles Hw') as [E' _].
  rewrite E, E'.
  destruct (decide (_ ∈ PRIV_ROLES)); [|reflexivity].
  destruct (decide (_ ∈ keys)); [reflexivity|].
  cbn [fst]. f_equal. f_equal. apply upn_fixed, Hupns.
Qed.

Lemma stale_body_fixed c0 keys a w w' :
  warm c0 w → warm c0 w' →
  (stale_body keys a w).1 = (stale_body keys a w').1.
Proof.
  intros Hw Hw'. rewrite !stale_body_eq. cbv zeta.
  destruct (role_name_fixed c0 (a !! "roleDefinitionId") w Hroles Hw) as [E _].
  destruct (role_name_fixed c0 (a !! "roleDefinitionId") w' Hroles Hw') as [E' _].
  rewrite E, E'.
  destruct (decide (_ ∈ PRIV_ROLES)); [|reflexivity].
  destruct (decide (_ ∈ keys)); [reflexivity|].
  cbn [fst]. f_equal. f_equal. apply upn_fixed, Hupns.
Qed.

Lemma long_body_fixed c0 a w w' :
  warm c0 w → warm c0 w' →
  (long_body a w).1 = (long_body a w').1.
Proof.
  intros Hw Hw'. rewrite !long_body_eq. cbv zeta.
  destruct (role_name_fixed c0 (a !! "roleDefinitionId") w Hroles Hw) as [E _].
  destruct (role_name_fixed c0 (a !! "roleDefinitionId") w' Hroles Hw') as [E' _].
  rewrite E, E'.
  destruct (decide (_ ∈ PRIV_ROLES)); [|reflexivity].
  destruct (truthy _ && truthy _); [|reflexivity].
  destruct (duration_hours _ _); [|reflexivity].
  destruct (over_limit _); [|reflexivity].
  cbn [fst]. f_equal. f_equal. apply upn_fixed, Hupns.
Qed.

Lemma permanent_loop_fixed c0 keys l w w' :
  warm c0 w → warm c0 w' →
  (permanent_loop keys l [] w).1 = (permanent_loop keys l [] w').1.
Proof.
  revert w w'. induction l as [|a l IH]; intros w w' Hw Hw'; [reflexivity|].
  rewrite !permanent_loop_cons. cbv zeta. cbn [fst].
  rewrite (permanent_body_fixed c0 keys a w w' Hw Hw').
  f_equal. apply IH; apply permanent_body_warm; assumption.
Qed.

Lemma stale_loop_fixed c0 keys l w w' :
  warm c0 w → warm c0 w' →
  (stale_loop keys l [] w).1 = (stale_loop keys l [] w').1.
Proof.
  revert w w'. induction l as [|a l IH]; intros w w' Hw Hw'; [reflexivity|].
  rewrite !stale_loop_cons. cbv zeta. cbn [fst].
  rewrite (stale_body_fixed c0 keys a w w' Hw Hw').
  f_equal. apply IH; apply stale_body_warm; assumption.
Qed.

Lemma long_loop_fixed c0 l w w' :
  warm c0 w → warm c0 w' →
  (long_loop l [] w).1 = (long_loop l [] w').1.
Proof.
  revert w w'. induction l as [|a l IH]; intros w w' Hw Hw'; [reflexivity|].
  rewrite !long_loop_cons. cbv zeta. cbn [fst].
  rewrite (long_body_fixed c0 a w w' Hw Hw').
  f_equal. apply IH; apply long_body_warm; assumption.
Qed.

Lemma classify_warm c0 ts assignments eligibles inst w :
  warm c0 w → warm c0 (classify ts assignments eligibles inst w).2.
Proof.
  intros Hw. rewrite classify_lists. cbv zeta. cbn [snd].
  apply count_privileged_fixed, count_privileged_fixed.
  apply long_loop_warm, stale_loop_warm, permanent_loop_warm, Hw.
Qed.

Lemma classify_fixed c0 ts ts' assignments eligibles inst w w' :
  warm c0 w → warm c0 w' →
  let snap := (classify ts assignments eligibles inst w).1 in
  let snap' := (classify ts' assignments eligibles inst w').1 in
  permanent snap' = permanent snap
  ∧ staleEligibilities snap' = staleEligibilities snap
  ∧ longActivations snap' = longActivations snap
  ∧ metrics snap' = with_timestamp ts' (metrics snap).
Proof.
  intros Hw Hw' snap snap'. subst snap snap'.
  rewrite !classify_lists. cbv zeta.
  cbn [fst permanent staleEligibilities longActivations metrics].
  pose proof (permanent_loop_warm c0 (inst_keys inst) assignments _ Hw) as Hp.
  pose proof (permanent_loop_warm c0 (inst_keys inst) assignments _ Hw') as Hp'.
  pose proof (stale_loop_warm c0 (recent_keys inst) eligibles _ Hp) as Hs.
  pose proof (stale_loop_warm c0 (recent_keys inst) eligibles _ Hp') as Hs'.
  pose proof (long_loop_warm c0 inst _ Hs) as Hl.
  pose proof (long_loop_warm c0 inst _ Hs') as Hl'.
  destruct (count_privileged_fixed c0 assignments 0%nat _ Hl) as [Ea Ha].
  destruct (count_privileged_fixed c0 assignments 0%nat _ Hl') as [Ea' Ha'].
  destruct (count_privileged_fixed c0 eligibles 0%nat _ Ha) as [Ee _].
  destruct (count_privileged_fixed c0 eligibles 0%nat _ Ha') as [Ee' _].
  rewrite (permanent_loop_fixed c0 _ assignments w' w Hw' Hw).
  rewrite (stale_loop_fixed c0 _ eligibles _ _ Hp' Hp).
  rewrite (long_loop_fixed c0 inst _ _ Hs' Hs).
  repeat split. unfold with_timestamp. cbn.
  rewrite Ea', Ee', <- Ea, <- Ee. reflexivity.
Qed.

End Fixed.

(** C5.  With role-name resolution held fixed, the count of privileged
    assignments in the metrics is the number of assignments whose id
    resolves to a name of PRIV_ROLES, the permanent list has one record for
    each of those whose key is not in the in-window key set, and so the
    count is at least the length of the permanent list; the two differ as
    soon as a privileged assignment has an in-window instance. *)
Theorem privileged_count_bounds_permanent :
  (∀ (rt : PyRuntime) (net : Network) ts (assignments eligibles inst : list obj) w,
      roles_fixed →
      let snap := (classify ts assignments eligibles inst w).1 in
      let c0 := _role_name_by_id w in
      active_privileged_assignments (metrics snap)
        = length (filter (λ a : obj, resolve c0 (a !! "roleDefinitionId") ∈ PRIV_ROLES)
                    assignments)
      ∧ length (permanent snap)
        = length (filter (λ a : obj,
                    resolve c0 (a !! "roleDefinitionId") ∈ PRIV_ROLES
                    ∧ (a !! "principalId", a !! "roleDefinitionId") ∉ inst_keys inst)
                    assignments)
      ∧ permanent_privileged_assignments (metrics snap) = length (permanent snap)
      ∧ (length (permanent snap) ≤ active_privileged_assignments (metrics snap))%nat)
  ∧ (let snap := (@classify py310 directory_up "2024-01-15T000000Z"
                    [ga_assignment] [] [ga_instance] fresh).1 in
     @roles_fixed directory_up
     ∧ active_privileged_assignments (metrics snap) = 1%nat
     ∧ length (permanent snap) = 0%nat).
Proof.
  split.
  - intros rt net ts assignments eligibles inst w Hroles snap c0.
    assert (Hw : warm c0 w) by apply warm_refl.
    subst snap. rewrite classify_lists. cbv zeta.
    cbn [fst metrics permanent active_privileged_assignments
         permanent_privileged_assignments].
    pose proof (permanent_loop_warm Hroles c0 (inst_keys inst) assignments _ Hw) as Hp.
    pose proof (stale_loop_warm Hroles c0 (recent_keys inst) eligibles _ Hp) as Hs.
    pose proof (long_loop_warm Hroles c0 inst _ Hs) as Hl.
    destruct (count_privileged_fixed Hroles c0 assignments 0%nat _ Hl) as [Ea _].
    rewrite Ea, (permanent_loop_length Hroles c0 _ assignments w Hw).
    repeat split. cbn [Nat.add]. apply filter_and_length.
  - cbv zeta. split; [intros n m id; reflexivity|].
    split; vm_compute; reflexivity.
Qed.

(** The bound on a run with one privileged and one other assignment. *)
Lemma privileged_count_bounds_permanent_run :
  let snap := (@classify py310 directory_up "2024-01-15T000000Z"
                 [ga_assignment; ua_assignment] [] [ga_instance] fresh).1 in
  @roles_fixed directory_up
  ∧ (length (permanent snap) ≤ active_privileged_assignments (metrics snap))%nat.
Proof.
  cbv zeta.
  assert (Hf : @roles_fixed directory_up) by (intros n m id; reflexivity).
  split; [exact Hf|].
  apply (proj1 privileged_count_bounds_permanent py310 directory_up
           "2024-01-15T000000Z" [ga_assignment; ua_assignment] [] [ga_instance]
           fresh Hf).
Defined.

(** C6.  With role and UPN lookups answered the same way whenever asked,
    a second classification of the same three collections at the same
    reference time, started in the world the first one left, yields the
    same three lists and the same metrics but for the run timestamp; and
    when the first run stops on the window filter, so does the second. *)
Theorem classification_idempotent
    (rt : PyRuntime) (net : Network) (now_us : Z) (ts1 ts2 : string)
    (assignments eligibles inst_all : list obj) (w : world) :
  roles_fixed → upns_fixed →
  match classify_collections now_us ts1 assignments eligibles inst_all w with
  | Some (snap1, w1) =>
      ∃ snap2 w2,
        classify_collections now_us ts2 assignments eligibles inst_all w1
          = Some (snap2, w2)
        ∧ permanent snap2 = permanent snap1
        ∧ staleEligibilities snap2 = staleEligibilities snap1
        ∧ longActivations snap2 = longActivations snap1
        ∧ metrics snap2 = with_timestamp ts2 (metrics snap1)
  | None =>
      ∀ w', classify_collections now_us ts2 assignments eligibles inst_all w' = None
  end.
Proof.
  intros Hroles Hupns. unfold classify_collections.
  destruct (filter_inst (since_dt now_us) inst_all) as [inst|]; [|reflexivity].
  destruct (classify ts1 assignments eligibles inst w) as [snap1 w1] eqn:E1.
  destruct (classify ts2 assignments eligibles inst w1) as [snap2 w2] eqn:E2.
  exists snap2, w2. split; [reflexivity|].
  pose proof (warm_refl w) as Hw.
  pose proof (classify_warm Hroles (_role_name_by_id w) ts1 assignments eligibles
                inst w Hw) as Hw1.
  rewrite E1 in Hw1. cbn [snd] in Hw1.
  pose proof (classify_fixed Hroles Hupns (_role_name_by_id w) ts1 ts2
                assignments eligibles inst w w1 Hw Hw1) as Hc.
  cbv zeta in Hc. rewrite E1, E2 in Hc. exact Hc.
Qed.

(** A second run on the directory that answers. *)
Lemma classification_idempotent_run :
  @roles_fixed directory_up ∧ @upns_fixed directory_up
  ∧ match @classify_collections py310 directory_up 63840873600000000
            "2024-01-15T000000Z" [ga_assignment; ua_assignment] [ga_eligibility]
            [ga_instance; other_instance] fresh with
    | Some (snap1, w1) =>
        ∃ snap2 w2,
          @classify_collections py310 directory_up 63840873600000000
            "2024-01-15T000100Z" [ga_assignment; ua_assignment] [ga_eligibility]
            [ga_instance; other_instance] w1 = Some (snap2, w2)
          ∧ permanent snap2 = permanent snap1
          ∧ staleEligibilities snap2 = staleEligibilities snap1
          ∧ longActivations snap2 = longActivations snap1
          ∧ metrics snap2 = with_timestamp "2024-01-15T000100Z" (metrics snap1)
    | None =>
        ∀ w', @classify_collections py310 directory_up 63840873600000000
                "2024-01-15T000100Z" [ga_assignment; ua_assignment] [ga_eligibility]
                [ga_instance; other_instance] w' = None
    end.
Proof.
  assert (Hr : @roles_fixed directory_up) by (intros n m id; reflexivity).
  assert (Hu : @upns_fixed directory_up) by (intros n m id; reflexivity).
  split; [exact Hr|]. split; [exact Hu|].
  exact (classification_idempotent py310 directory_up 63840873600000000
           "2024-01-15T000000Z" "2024-01-15T000100Z"
           [ga_assignment; ua_assignment] [ga_eligibility]
           [ga_instance; other_instance] fresh Hr Hu).
Defined.

(** ** The window (lines 183-191) *)

Section Window.
Context `{PyRuntime}.


Lemma in_window_aware now_us (i : obj) :
  (∀ s, _parse_iso (i !! "startDateTime") = Some s → is_Some (utcoffset s)) →
  is_Some (in_window (since_dt now_us) i).
Proof.
  intros Ha. unfold in_window.
  destruct (_parse_iso (i !! "startDateTime")) as [s|]; [|eexists; reflexivity].
  destruct (Ha s eq_refl) as [off Eo]. unfold dt_ge, since_dt.
  rewrite Eo. cbn [utcoffset]. eexists; reflexivity.
Qed.

Lemma filter_inst_aware now_us inst_all :
  starts_aware inst_all →
  filter_inst (since_dt now_us) inst_all
    = Some (filter (λ i : obj, in_window (since_dt now_us) i = Some true) inst_all).
Proof.
  induction inst_all as [|i l IH]; intros Ha; [reflexivity|].
  cbn [filter_inst].
  destruct (in_window_aware now_us i) as [b Eb].
  { intros s Hs. apply (Ha i s); [apply list_elem_of_here|exact Hs]. }
  rewrite Eb, IH.
  - rewrite filter_cons. destruct b.
    + rewrite decide_True by exact Eb. reflexivity.
    + rewrite decide_False by (rewrite Eb; discriminate). reflexivity.
  - intros j s Hj Hs. apply (Ha j s); [apply list_elem_of_further, Hj|exact Hs].
Qed.


End Window.




(** ** Long activations (lines 235-254) *)

Section Long.
Context `{PyRuntime} `{Network}.

Lemma role_name_console rid w : console (role_name rid w).2 = console w.
Proof.
  rewrite role_name_eq. destruct (negb (truthy rid)); [reflexivity|]. cbv zeta.
  destruct (_ !! _); [reflexivity|]. destruct (fetched_name _ _); reflexivity.
Qed.

Lemma upn_console pid w : console (upn pid w).2 = console w.
Proof. rewrite upn_eq. destruct (negb (truthy pid)); reflexivity. Qed.

Lemma long_body_console i w : console (long_body i w).2 = console w.
Proof.
  rewrite long_body_eq. cbv zeta.
  destruct (decide (_ ∈ PRIV_ROLES)); [|apply role_name_console].
  destruct (truthy _ && truthy _); [|apply role_name_console].
  destruct (duration_hours _ _); [|apply role_name_console].
  destruct (over_limit _); [|apply role_name_console].
  cbn [snd]. rewrite upn_console. apply role_name_console.
Qed.

Lemma long_loop_console l w : console (long_loop l [] w).2 = console w.
Proof.
  revert w. induction l as [|i l IH]; intros w; [reflexivity|].
  rewrite long_loop_cons. cbv zeta. cbn [snd]. rewrite IH. apply long_body_console.
Qed.

Lemma over_limit_eq hours : over_limit hours = (8 <? hours)%float.
Proof.
  unfold over_limit.
  replace (float_of_int MAX_ACTIVATION_HOURS) with 8%float
    by (vm_compute; reflexivity).
  reflexivity.
Qed.

Lemma truthy_Some st : st ≠ "" → truthy (Some st) = true.
Proof.
  intros Hne. unfold truthy. destruct (String.eqb_spec st ""); [contradiction|reflexivity].
Qed.

(** The body on an instance of a privileged role whose two timestamps
    are present and parse. *)
Lemma long_body_parsed (i : obj) w st en s e :
  (role_name (i !! "roleDefinitionId") w).1 ∈ PRIV_ROLES →
  i !! "startDateTime" = Some st → st ≠ "" →
  i !! "endDateTime" = Some en → en ≠ "" →
  fromisoformat (replace_Z st) = Some s →
  fromisoformat (replace_Z en) = Some e →
  (long_body i w).1 =
    match dt_sub e s with
    | Some td =>
        if (8 <? hours_of td)%float then
          Some {| la_principalId := i !! "principalId";
                  la_principalUPN :=
                    (upn (i !! "principalId")
                       (role_name (i !! "roleDefinitionId") w).2).1;
                  la_role := (role_name (i !! "roleDefinitionId") w).1;
                  la_instanceId := i !! "id";
                  la_start := st;
                  la_end := en;
                  la_hours := py_round (hours_of td) 2 |}
        else None
    | None => None
    end.
Proof.
  intros Hp Hst Hst' Hen Hen' Hs He.
  rewrite long_body_eq. cbv zeta.
  destruct (decide (_ ∈ PRIV_ROLES)) as [_|Hn]; [|destruct (Hn Hp)].
  rewrite Hst, Hen, !truthy_Some by assumption. cbn [andb].
  change (default "" (Some st)) with st. change (default "" (Some en)) with en.
  unfold duration_hours. rewrite Hs, He.
  destruct (dt_sub e s) as [td|]; [|reflexivity].
  rewrite over_limit_eq. destruct (8 <? hours_of td)%float; reflexivity.
Qed.

(** The body on an instance with a timestamp that is missing, empty or
    does not parse: nothing is appended, and the world is the one the
    role lookup left. *)
Lemma long_body_skipped (i : obj) w :
  truthy (i !! "startDateTime") = false
  ∨ truthy (i !! "endDateTime") = false
  ∨ fromisoformat (replace_Z (default "" (i !! "startDateTime"))) = None
  ∨ fromisoformat (replace_Z (default "" (i !! "endDateTime"))) = None →
  long_body i w = (None, (role_name (i !! "roleDefinitionId") w).2).
Proof.
  intros Hc. rewrite long_body_eq. cbv zeta.
  destruct (decide (_ ∈ PRIV_ROLES)); [|reflexivity].
  destruct (truthy (i !! "startDateTime")) eqn:Es; [|reflexivity].
  destruct (truthy (i !! "endDateTime")) eqn:Ee; [|reflexivity].
  cbn [andb]. unfold duration_hours.
  destruct Hc as [Hc|[Hc|[Hc|Hc]]]; try discriminate Hc.
  - rewrite Hc. reflexivity.
  - destruct (fromisoformat (replace_Z (default "" (i !! "startDateTime"))));
      [rewrite Hc|]; reflexivity.
Qed.

(** [round_half_even a b] is the integer nearest to [a / b], the even one
    when two are as near. *)
Lemma round_half_even_nearest a b :
  0 < b →
  Z.abs (2 * a - 2 * round_half_even a b * b) ≤ b
  ∧ (Z.abs (2 * a - 2 * round_half_even a b * b) = b
     → Z.even (round_half_even a b) = true).
Proof.
  intros Hb. unfold round_half_even.
  pose proof (Z.div_mod a b ltac:(lia)) as Hd.
  pose proof (Z.mod_pos_bound a b Hb) as Hm.
  set (q := a / b) in *. set (r := a mod b) in *.
  destruct (Z.ltb_spec (2 * r) b) as [H1|H1].
  - split; [nia|]. intros He. nia.
  - destruct (Z.ltb_spec b (2 * r)) as [H2|H2].
    + split; [nia|]. intros He. nia.
    + destruct (Z.even q) eqn:Eq.
      * split; [nia|]. intros _. exact Eq.
      * split; [nia|]. intros _. rewrite Z.even_add, Eq. reflexivity.
Qed.

(** [round(x, 2)] rounds to two decimals. *)
Lemma py_round_hundredths x : rounded_to_hundredths x (py_round x 2).
Proof.
  unfold rounded_to_hundredths, py_round.
  destruct (Prim2SF x) as [| | |sgn m e]; try reflexivity.
  cbv zeta. change (10 ^ Z.of_nat 2) with 100.
  set (n := if 0 <=? e then _ else _).
  exists n. split.
  - unfold nearest_hundredth. cbv zeta. subst n.
    destruct (Z.leb_spec 0 e) as [He|He].
    + f_equal. lia.
    + replace (100 * (if sgn then - Z.pos m else Z.pos m))
        with ((if sgn then - Z.pos m else Z.pos m) * 100) by lia.
      apply round_half_even_nearest. apply Z.pow_pos_nonneg; lia.
  - destruct (Z.eqb_spec n 0) as [Hn|Hn].
    + destruct sgn; [right; repeat split; assumption|left; rewrite Hn; reflexivity].
    + left. reflexivity.
Qed.

End Long.

(** C2.  For an instance of [inst] whose role name resolves to a member of
    PRIV_ROLES and whose start and end are present and parse, the body
    appends a record if and only if end minus start is defined and its
    length in hours, as a float, is strictly greater than 8, and the record
    keeps that length rounded to two decimals: the float nearest to
    [k / 100] for the integer [k] nearest to a hundred times the length,
    the even one at a tie; an instance with a timestamp that is missing,
    empty or unparsable appends nothing, prints nothing, and the loop goes
    on to the instances after it.  Start 2024-01-01T00:00:00Z and end
    2024-01-01T09:30:00Z give 9.5 hours and a record; eight hours exactly
    give none, a microsecond more gives one; eight hours and a second are
    8.000277777777777 hours and kept as 8.0, nine hours, seven minutes and
    34 seconds are 9.126111111111111 hours and kept as 9.13, and 0.125
    rounds to 0.12, 8.005 to 8.01 and 2.675 to 2.67, as the floats
    nearest to these decimals do. *)
Theorem long_activation_iff_over_limit :
  (∀ (rt : PyRuntime) (net : Network) (i : obj) (w : world) st en s e,
      (role_name (i !! "roleDefinitionId") w).1 ∈ PRIV_ROLES →
      i !! "startDateTime" = Some st → st ≠ "" →
      i !! "endDateTime" = Some en → en ≠ "" →
      fromisoformat (replace_Z st) = Some s →
      fromisoformat (replace_Z en) = Some e →
      let r := (long_body i w).1 in
      (is_Some r ↔ ∃ td, dt_sub e s = Some td ∧ (8 <? hours_of td)%float = true)
      ∧ (∀ p, r = Some p →
           ∃ td, dt_sub e s = Some td
                 ∧ la_hours p = py_round (hours_of td) 2
                 ∧ rounded_to_hundredths (hours_of td) (la_hours p)
                 ∧ la_start p = st ∧ la_end p = en
                 ∧ la_role p = (role_name (i !! "roleDefinitionId") w).1))
  ∧ (∀ (rt : PyRuntime) (net : Network) (i : obj) (w : world),
       truthy (i !! "startDateTime") = false
       ∨ truthy (i !! "endDateTime") = false
       ∨ fromisoformat (replace_Z (default "" (i !! "startDateTime"))) = None
       ∨ fromisoformat (replace_Z (default "" (i !! "endDateTime"))) = None →
       long_body i w = (None, (role_name (i !! "roleDefinitionId") w).2))
  ∧ (∀ (rt : PyRuntime) (net : Network) (pre post : list obj) (i : obj) (w0 : world),
       let before := long_loop pre [] w0 in
       let r := long_body i before.2 in
       let after := long_loop post [] r.2 in
       (long_loop (pre ++ i :: post) [] w0).1 = before.1 ++ option_list r.1 ++ after.1
       ∧ console (long_loop (pre ++ i :: post) [] w0).2 = console w0)
  ∧ MAX_ACTIVATION_HOURS = 8
  ∧ @duration_hours py310 "2024-01-01T00:00:00Z" "2024-01-01T09:30:00Z" = Some 9.5%float
  ∧ (@long_body py310 directory_up ga_instance fresh).1
    = Some {| la_principalId := Some "P"; la_principalUPN := "p@contoso.com";
              la_role := "Global Administrator"; la_instanceId := Some "i1";
              la_start := "2024-01-01T00:00:00Z";
              la_end := "2024-01-01T09:30:00Z"; la_hours := 9.5 |}
  ∧ @duration_hours py310 "2024-01-01T00:00:00Z" "2024-01-01T08:00:00Z" = Some 8%float
  ∧ over_limit 8 = false
  ∧ over_limit (hours_of (8 * 3600 * 10 ^ 6 + 1)) = true
  ∧ hours_of 28801000000 = 0x1.0002468acf135p+3%float
  ∧ (@long_body py310 directory_up long_instance fresh).1
    = Some {| la_principalId := Some "P"; la_principalUPN := "p@contoso.com";
              la_role := "Global Administrator"; la_instanceId := Some "i3";
              la_start := "2024-01-10T22:00:00Z";
              la_end := "2024-01-11T06:00:01Z"; la_hours := 8 |}
  ∧ hours_of 32854000000 = 0x1.24091a2b3c4d6p+3%float
  ∧ py_round (hours_of 32854000000) 2 = 0x1.2428f5c28f5c3p+3%float
  ∧ py_round 0.125 2 = 0x1.eb851eb851eb8p-4%float
  ∧ py_round 0x1.0028f5c28f5c3p+3 2 = 0x1.0051eb851eb85p+3%float
  ∧ py_round 0x1.5666666666666p+1 2 = 0x1.55c28f5c28f5cp+1%float.
Proof.
  split; [|split; [|split]].
  - intros rt net i w st en s e Hp Hst Hst' Hen Hen' Hs He r. subst r.
    rewrite (long_body_parsed i w st en s e Hp Hst Hst' Hen Hen' Hs He).
    destruct (dt_sub e s) as [td|].
    + destruct (8 <? hours_of td)%float eqn:Eh.
      * split.
        -- split; [intros _; exists td; split; [reflexivity|exact Eh]|].
           intros _. eexists. reflexivity.
        -- intros p [= <-]. exists td. cbn [la_hours la_start la_end la_role].
           split; [reflexivity|]. split; [reflexivity|].
           split; [apply py_round_hundredths|]. repeat split.
      * split.
        -- split; [intros Hs'; destruct (is_Some_None Hs')|].
           intros (td' & [= <-] & Ht). rewrite Eh in Ht. discriminate Ht.
        -- intros p Hp'. discriminate Hp'.
    + split.
      * split; [intros Hs'; destruct (is_Some_None Hs')|].
        intros (td' & Hd & _). discriminate Hd.
      * intros p Hp'. discriminate Hp'.
  - intros rt net i w. apply long_body_skipped.
  - intros rt net pre post i w0. cbv zeta. split.
    + rewrite long_loop_app. cbv zeta. cbn [fst snd].
      rewrite long_loop_cons. reflexivity.
    + apply long_loop_console.
  - split; [reflexivity|].
    repeat split; vm_compute; reflexivity.
Qed.

(** Eight hours and one second: a record, whose hours are 8.0. *)
Lemma long_activation_on_long_instance :
  ∃ p, (@long_body py310 directory_up long_instance fresh).1 = Some p
       ∧ la_hours p = 8%float
       ∧ rounded_to_hundredths 0x1.0002468acf135p+3 (la_hours p).
Proof.
  destruct (proj1 long_activation_iff_over_limit py310 directory_up long_instance
              fresh "2024-01-10T22:00:00Z" "2024-01-11T06:00:01Z"
              {| wall_us := 63840520800000000; utcoffset := Some 0 |}
              {| wall_us := 63840549601000000; utcoffset := Some 0 |})
    as [Hiff Hrec].
  - apply (bool_decide_unpack _). vm_compute. exact I.
  - vm_compute. reflexivity.
  - discriminate.
  - vm_compute. reflexivity.
  - discriminate.
  - vm_compute. reflexivity.
  - vm_compute. reflexivity.
  - destruct (proj2 Hiff) as [p Hp].
    { eexists. split; [reflexivity|]. vm_compute. reflexivity. }
    exists p. split; [exact Hp|].
    destruct (Hrec p Hp) as (td & Htd & Hh & Hr & _).
    injection Htd as <-. split.
    + rewrite Hh. vm_compute. reflexivity.
    + replace 0x1.0002468acf135p+3%float
        with (hours_of (63840549601000000 - 0 - (63840520800000000 - 0)))
        by (vm_compute; reflexivity).
      exact Hr.
Defined.

(** ** The paginated fetch (lines 56-78) *)

Section Fetch.
Context `{PyRuntime} `{Network}.

Lemma gget_turn_requests url params items w :
  requests_made (gget_turn url params items w).2 = S (requests_made w).
Proof.
  unfold gget_turn, http_get.
  destruct (requests_get _ _ _) as [|r]; [reflexivity|].
  destruct (status_code r =? 429).
  - destruct (py_int _) as [wait_s|]; [|reflexivity].
    destruct (time_sleep _ _); reflexivity.
  - destruct (400 <=? status_code r);
      destruct (raises_for_status _); try reflexivity;
      (destruct (json r) as [data|]; [|reflexivity]);
      destruct (page_items (value data)); reflexivity.
Qed.

(** A 429 with a usable Retry-After: print, sleep, same URL, same items. *)
Lemma gget_turn_throttled url params items w wait_s :
  throttled (requests_made w) url params wait_s →
  gget_turn url params items w =
    (Continue (Some url) items,
     emit (Sleep wait_s) (emit (PrintThrottled wait_s) (asked w))).
Proof.
  intros (r & Hr & Hs & Hi & Hw). unfold gget_turn, http_get.
  rewrite Hr, Hs. cbn [Z.eqb Pos.eqb]. rewrite Hi, Hw. reflexivity.
Qed.





(** What a turn that continues has seen. *)
Lemma gget_turn_continue url params items w url' items' :
  (gget_turn url params items w).1 = Continue url' items' →
  (∃ wait_s, throttled (requests_made w) url params wait_s
             ∧ url' = Some url ∧ items' = items)
  ∨ (∃ r data page, requests_get (requests_made w) url params = Reply r
               ∧ accepted r ∧ json r = Some data
               ∧ page_items (value data) = Some page
               ∧ url' = fields data !! "@odata.nextLink"
               ∧ items' = items ++ page).
Proof.
  unfold gget_turn, http_get.
  destruct (requests_get _ _ _) as [|r] eqn:Hr; [discriminate|].
  destruct (Z.eqb_spec (status_code r) 429) as [Hs|Hs].
  - destruct (py_int _) as [wait_s|] eqn:Hi; [|discriminate].
    destruct (time_sleep _ _) as [e|] eqn:Hw; [discriminate|].
    cbn [fst]. intros [= <- <-]. left. exists wait_s.
    split; [|split; reflexivity]. exists r. repeat split; assumption.
  - destruct (raises_for_status (status_code r)) eqn:Hok.
    + destruct (400 <=? status_code r); discriminate.
    + destruct (json r) as [data|] eqn:Hj.
      * destruct (page_items (value data)) as [page|] eqn:Hv.
        -- intros Hc. right. exists r, data, page.
           split; [reflexivity|]. split; [split; assumption|]. split; [exact Hj|].
           split; [exact Hv|].
           destruct (400 <=? status_code r); cbn [fst] in Hc;
             injection Hc as <- <-; split; reflexivity.
        -- destruct (400 <=? status_code r); discriminate.
      * destruct (400 <=? status_code r); discriminate.
Qed.

Lemma truthy_default (v : option string) : truthy v = true → v = Some (default "" v).
Proof. destruct v; [reflexivity|discriminate]. Qed.

(** If the loop returns, the directory served the pages it returns. *)
Lemma gget_loop_sound fuel url items w res :
  truthy (Some url) = true →
  (gget_loop fuel (Some url) None items w).1 = Some (Returned res) →
  ∃ pages, paged (requests_made w) url pages ∧ res = items ++ concat pages.
Proof.
  revert url items w.
  induction fuel as [|fuel IH]; intros url items w Hu.
  - cbn [gget_loop]. rewrite Hu. discriminate.
  - cbn [gget_loop]. rewrite Hu. change (default "" (Some url)) with url.
    pose proof (gget_turn_requests url None items w) as Hn.
    pose proof (gget_turn_continue url None items w) as Hc.
    destruct (gget_turn url None items w) as [[url' items'|e] w1];
      [|discriminate].
    cbn [fst snd] in Hn, Hc.
    destruct (Hc url' items' eq_refl)
      as [(wait_s & Ht & -> & ->)|(r & data & page & Hr & Ha & Hj & Hv & -> & ->)].
    + intros Hres. destruct (IH _ _ _ Hu Hres) as (pages & Hp & ->).
      exists pages. split; [|reflexivity]. rewrite Hn in Hp.
      destruct Ht as (r & Hr & Hs & Hi & Hw).
      exact (paged_throttled _ _ r wait_s pages Hr Hs Hi Hw Hp).
    + destruct (truthy (fields data !! "@odata.nextLink")) eqn:Et.
      * rewrite (truthy_default _ Et). intros Hres.
        assert (Hu' : truthy (Some (default "" (fields data !! "@odata.nextLink"))) = true)
          by (rewrite <- (truthy_default _ Et); exact Et).
        destruct (IH _ _ _ Hu' Hres) as (pages & Hp & ->).
        exists (page :: pages). rewrite Hn in Hp.
        split; [exact (paged_next _ _ r data page pages Hr Ha Hj Hv Et Hp)|].
        cbn [concat]. rewrite app_assoc. reflexivity.
      * destruct fuel; cbn [gget_loop]; rewrite Et; cbn [fst];
          intros [= <-]; exists [page];
          (split; [exact (paged_last _ _ r data page Hr Ha Hj Hv Et)|]);
          cbn [concat]; rewrite app_nil_r; reflexivity.
Qed.


(** While the directory throttles, the loop keeps asking for the same
    URL with the items it has. *)
Lemma gget_loop_throttled k url items w :
  truthy (Some url) = true →
  (∀ j, (j < k)%nat →
        ∃ wait_s, throttled (requests_made w + j) url None wait_s) →
  (gget_loop k (Some url) None items w).1 = None
  ∧ ∃ w', requests_made w' = (requests_made w + k)%nat
          ∧ _role_name_by_id w' = _role_name_by_id w
          ∧ ∀ fuel, gget_loop (k + fuel) (Some url) None items w
                    = gget_loop fuel (Some url) None items w'.
Proof.
  revert w. induction k as [|k IH]; intros w Hu Ht.
  - split; [cbn [gget_loop]; rewrite Hu; reflexivity|].
    exists w. split; [lia|]. split; reflexivity.
  - destruct (Ht 0%nat) as [wait_s Ht0]; [lia|].
    rewrite Nat.add_0_r in Ht0.
    set (w1 := emit (Sleep wait_s) (emit (PrintThrottled wait_s) (asked w))).
    destruct (IH w1 Hu) as (Hnone & w' & Hn & Hc & Hrun).
    { intros j Hj. destruct (Ht (S j)) as [ws Hs]; [lia|].
      exists ws.
      replace (requests_made w1 + j)%nat with (requests_made w + S j)%nat
        by (cbn; lia).
      exact Hs. }
    split.
    + cbn [gget_loop]. rewrite Hu. change (default "" (Some url)) with url.
      rewrite (gget_turn_throttled url None items w wait_s Ht0). exact Hnone.
    + exists w'. split; [rewrite Hn; cbn; lia|]. split; [rewrite Hc; reflexivity|].
      intros fuel. cbn [Nat.add gget_loop]. rewrite Hu.
      change (default "" (Some url)) with url.
      rewrite (gget_turn_throttled url None items w wait_s Ht0).
      apply Hrun.
Qed.

End Fetch.




(** The retry after a 429 on the first request of a call with query
    parameters is made without them: the call returns the unfiltered
    collection. *)
Lemma gget_all_retry_drops_params :
  (@gget_all py310 directory_filtered 2
     "/roleManagement/directory/roleAssignmentScheduleInstances"
     (Some [("$filter", "principalId eq 'P'")]) fresh).1
  = Some (Returned [ga_instance; other_instance]).
Proof. vm_compute. reflexivity. Qed.

(** While the directory throttles, the fetch has neither returned nor
    raised, however many turns it is given. *)
Lemma gget_all_on_directory_busy (k : nat) :
  (@gget_all py310 directory_busy k "/roleManagement/directory/roleAssignments"
     None fresh).1 = None.
Proof.
  apply (@gget_loop_throttled py310 directory_busy k); [reflexivity|].
  intros j _. exists 1. eexists. split; [reflexivity|].
  split; [reflexivity|]. split; reflexivity.
Qed.

(** ** The cache is written by successful lookups only *)

Section Cache.
Context `{PyRuntime} `{Network}.

Lemma fetched_name_Some id o name :
  fetched_name id o = Some name ↔
  ∃ r body, o = Reply r ∧ status_code r < 400 ∧ json r = Some body
            ∧ name = default id (fields body !! "displayName").
Proof.
  unfold fetched_name. destruct o as [|r].
  - split; [discriminate|]. intros (r & body & Hr & _). discriminate Hr.
  - destruct (Z.ltb_spec (status_code r) 400) as [Hlt|Hge].
    + destruct (json r) as [body|] eqn:Hj.
      * split.
        -- intros [= <-]. exists r, body. repeat split; assumption.
        -- intros (r' & body' & [= <-] & _ & Hj' & ->).
           rewrite Hj in Hj'. injection Hj' as <-. reflexivity.
      * split; [discriminate|].
        intros (r' & body' & [= <-] & _ & Hj' & _). rewrite Hj in Hj'. discriminate Hj'.
    + split; [discriminate|]. intros (r' & body' & [= <-] & Hlt & _). lia.
Qed.

Lemma fetched_name_None id o :
  fetched_name id o = None ↔
  o = RequestException
  ∨ ∃ r, o = Reply r ∧ (400 ≤ status_code r ∨ json r = None).
Proof.
  unfold fetched_name. destruct o as [|r].
  - split; [intros _; left; reflexivity|reflexivity].
  - destruct (Z.ltb_spec (status_code r) 400) as [Hlt|Hge].
    + destruct (json r) as [body|] eqn:Hj.
      * split; [discriminate|].
        intros [Hx|(r' & [= <-] & [Hs|Hn])]; [discriminate Hx|lia|].
        rewrite Hj in Hn. discriminate Hn.
      * split; [|reflexivity]. intros _. right. exists r.
        split; [reflexivity|]. right. exact Hj.
    + split; [|reflexivity]. intros _. right. exists r.
      split; [reflexivity|]. left. exact Hge.
Qed.

Lemma role_name_falsy rid w : truthy rid = false → role_name rid w = ("", w).
Proof. intros Hf. rewrite role_name_eq, Hf. reflexivity. Qed.

Lemma role_name_cached id name w :
  id ≠ "" → _role_name_by_id w !! id = Some name →
  role_name (Some id) w = (name, w).
Proof.
  intros Hne Hc. rewrite role_name_eq, (truthy_Some id Hne). cbn [negb].
  cbv zeta. change (default "" (Some id)) with id. rewrite Hc. reflexivity.
Qed.

Lemma role_name_failed id w :
  id ≠ "" → _role_name_by_id w !! id = None →
  fetched_name id (requests_get (requests_made w) (role_url id) None) = None →
  role_name (Some id) w = (id, asked w).
Proof.
  intros Hne Hc Hf. rewrite role_name_eq, (truthy_Some id Hne). cbn [negb].
  cbv zeta. change (default "" (Some id)) with id. rewrite Hc, Hf. reflexivity.
Qed.

Lemma role_name_fetched id name w :
  id ≠ "" → _role_name_by_id w !! id = None →
  fetched_name id (requests_get (requests_made w) (role_url id) None) = Some name →
  role_name (Some id) w
    = (name, set_cache (<[id := name]> (_role_name_by_id w)) (asked w)).
Proof.
  intros Hne Hc Hf. rewrite role_name_eq, (truthy_Some id Hne). cbn [negb].
  cbv zeta. change (default "" (Some id)) with id. rewrite Hc, Hf. reflexivity.
Qed.

(** A call leaves the cache as it was or adds the name a successful
    request gave. *)
Lemma role_name_writes rid w :
  _role_name_by_id (role_name rid w).2 = _role_name_by_id w
  ∨ ∃ id r body,
      rid = Some id ∧ _role_name_by_id w !! id = None
      ∧ requests_get (requests_made w) (role_url id) None = Reply r
      ∧ status_code r < 400 ∧ json r = Some body
      ∧ (role_name rid w).1 = default id (fields body !! "displayName")
      ∧ _role_name_by_id (role_name rid w).2
        = <[id := (role_name rid w).1]> (_role_name_by_id w).
Proof.
  rewrite role_name_eq. destruct rid as [id|]; [|left; reflexivity].
  destruct (negb (truthy (Some id))); [left; reflexivity|]. cbv zeta.
  change (default "" (Some id)) with id.
  destruct (_role_name_by_id w !! id) eqn:Hc; [left; reflexivity|].
  destruct (fetched_name id _) as [name|] eqn:Hf; [|left; reflexivity].
  right. apply fetched_name_Some in Hf. destruct Hf as (r & body & Hr & Hs & Hj & ->).
  exists id, r, body. repeat split; assumption.
Qed.

Lemma role_name_cache_from c0 rid w :
  cache_from c0 w → cache_from c0 (role_name rid w).2.
Proof.
  intros Hw. destruct (role_name_writes rid w)
    as [E|(id & r & body & -> & Hc & Hr & Hs & Hj & Hn & E)].
  - intros id name. rewrite E. apply Hw.
  - intros id' name. rewrite E.
    destruct (decide (id = id')) as [<-|Hne].
    + rewrite lookup_insert_eq. intros [= <-]. right.
      exists (requests_made w), r, body. repeat split; assumption.
    + rewrite lookup_insert_ne by exact Hne. apply Hw.
Qed.

Lemma cache_from_cache c0 w w' :
  _role_name_by_id w' = _role_name_by_id w → cache_from c0 w → cache_from c0 w'.
Proof. intros E Hw id name. rewrite E. apply Hw. Qed.

Lemma permanent_body_cache_from c0 keys a w :
  cache_from c0 w → cache_from c0 (permanent_body keys a w).2.
Proof.
  intros Hw. rewrite permanent_body_eq. cbv zeta.
  pose proof (role_name_cache_from c0 (a !! "roleDefinitionId") w Hw) as Hw1.
  destruct (decide (_ ∈ PRIV_ROLES)); [|exact Hw1].
  destruct (decide (_ ∈ keys)); [exact Hw1|].
  cbn [snd]. exact (cache_from_cache _ _ _ (upn_cache _ _) Hw1).
Qed.

Lemma stale_body_cache_from c0 keys a w :
  cache_from c0 w → cache_from c0 (stale_body keys a w).2.
Proof.
  intros Hw. rewrite stale_body_eq. cbv zeta.
  pose proof (role_name_cache_from c0 (a !! "roleDefinitionId") w Hw) as Hw1.
  destruct (decide (_ ∈ PRIV_ROLES)); [|exact Hw1].
  destruct (decide (_ ∈ keys)); [exact Hw1|].
  cbn [snd]. exact (cache_from_cache _ _ _ (upn_cache _ _) Hw1).
Qed.

Lemma long_body_cache_from c0 a w :
  cache_from c0 w → cache_from c0 (long_body a w).2.
Proof.
  intros Hw. rewrite long_body_eq. cbv zeta.
  pose proof (role_name_cache_from c0 (a !! "roleDefinitionId") w Hw) as Hw1.
  destruct (decide (_ ∈ PRIV_ROLES)); [|exact Hw1].
  destruct (truthy _ && truthy _); [|exact Hw1].
  destruct (duration_hours _ _); [|exact Hw1].
  destruct (over_limit _); [|exact Hw1].
  cbn [snd]. exact (cache_from_cache _ _ _ (upn_cache _ _) Hw1).
Qed.

Lemma count_privileged_cache_from c0 xs n w :
  cache_from c0 w → cache_from c0 (count_privileged xs n w).2.
Proof.
  revert n w. induction xs as [|a xs IH]; intros n w Hw; [exact Hw|].
  cbn [count_privileged]. unfold bind.
  pose proof (role_name_cache_from c0 (a !! "roleDefinitionId") w Hw) as Hw1.
  destruct (role_name (a !! "roleDefinitionId") w) as [rname w1].
  apply IH. exact Hw1.
Qed.

Lemma permanent_loop_cache_from c0 keys l w :
  cache_from c0 w → cache_from c0 (permanent_loop keys l [] w).2.
Proof.
  revert w. induction l as [|a l IH]; intros w Hw; [exact Hw|].
  rewrite permanent_loop_cons. cbv zeta. cbn [snd].
  apply IH, permanent_body_cache_from, Hw.
Qed.

Lemma stale_loop_cache_from c0 keys l w :
  cache_from c0 w → cache_from c0 (stale_loop keys l [] w).2.
Proof.
  revert w. induction l as [|a l IH]; intros w Hw; [exact Hw|].
  rewrite stale_loop_cons. cbv zeta. cbn [snd].
  apply IH, stale_body_cache_from, Hw.
Qed.

Lemma long_loop_cache_from c0 l w :
  cache_from c0 w → cache_from c0 (long_loop l [] w).2.
Proof.
  revert w. induction l as [|a l IH]; intros w Hw; [exact Hw|].
  rewrite long_loop_cons. cbv zeta. cbn [snd].
  apply IH, long_body_cache_from, Hw.
Qed.

Lemma classify_cache_from c0 ts assignments eligibles inst w :
  cache_from c0 w → cache_from c0 (classify ts assignments eligibles inst w).2.
Proof.
  intros Hw. rewrite classify_lists. cbv zeta. cbn [snd].
  apply count_privileged_cache_from, count_privileged_cache_from.
  apply long_loop_cache_from, stale_loop_cache_from, permanent_loop_cache_from, Hw.
Qed.

(** The fetch does not touch the cache. *)
Lemma gget_turn_cache url params items w :
  _role_name_by_id (gget_turn url params items w).2 = _role_name_by_id w.
Proof.
  unfold gget_turn, http_get.
  destruct (requests_get _ _ _) as [|r]; [reflexivity|].
  destruct (status_code r =? 429).
  - destruct (py_int _) as [wait_s|]; [|reflexivity].
    destruct (time_sleep _ _); reflexivity.
  - destruct (400 <=? status_code r);
      destruct (raises_for_status _); try reflexivity;
      (destruct (json r) as [data|]; [|reflexivity]);
      destruct (page_items (value data)); reflexivity.
Qed.

Lemma gget_loop_cache fuel url params items w :
  _role_name_by_id (gget_loop fuel url params items w).2 = _role_name_by_id w.
Proof.
  revert url params items w. induction fuel as [|fuel IH]; intros url params items w.
  - cbn [gget_loop]. destruct (truthy url); reflexivity.
  - cbn [gget_loop]. destruct (truthy url); [|reflexivity].
    pose proof (gget_turn_cache (default "" url) params items w) as Hc.
    destruct (gget_turn (default "" url) params items w) as [[url' items'|e] w1];
      cbn [snd] in Hc.
    + rewrite IH. exact Hc.
    + exact Hc.
Qed.

(** The entries of [update] are the old ones and the pairs written. *)
Lemma update_lookup c kvs id name :
  update c kvs !! id = Some name → c !! id = Some name ∨ (id, name) ∈ kvs.
Proof.
  unfold update. revert c. induction kvs as [|[k v] kvs IH]; intros c; cbn [foldl].
  - intros Hc. left. exact Hc.
  - intros Hc. destruct (IH _ Hc) as [Hi|Hi].
    + cbn [fst snd] in Hi. destruct (decide (k = id)) as [->|Hne].
      * rewrite lookup_insert_eq in Hi. injection Hi as ->.
        right. apply list_elem_of_here.
      * rewrite lookup_insert_ne in Hi by exact Hne. left. exact Hi.
    + right. apply list_elem_of_further, Hi.
Qed.

Lemma role_pairs_elem defs kvs id name :
  role_pairs defs = Some kvs → (id, name) ∈ kvs →
  ∃ d : obj, d ∈ defs ∧ d !! "id" = Some id ∧ name = default "" (d !! "displayName").
Proof.
  revert kvs. induction defs as [|d defs IH]; intros kvs; cbn [role_pairs].
  - intros [= <-] Hin. destruct (not_elem_of_nil _ Hin).
  - destruct (d !! "id") as [i|] eqn:Hid; [|discriminate].
    destruct (role_pairs defs) as [kvs'|]; [|discriminate].
    intros [= <-] Hin. apply elem_of_cons in Hin. destruct Hin as [[= -> ->]|Hin].
    + exists d. split; [apply list_elem_of_here|]. split; [exact Hid|reflexivity].
    + destruct (IH kvs' eq_refl Hin) as (d' & Hd & Hi & Hn).
      exists d'. split; [apply list_elem_of_further, Hd|]. split; assumption.
Qed.

(** The preload leaves the cache as it was, or its fetch returned the
    role definitions, each with an id, and the cache is updated with
    their names. *)
Lemma load_all_role_definitions_writes fuel w w' :
  load_all_role_definitions fuel w = Some w' →
  _role_name_by_id w' = _role_name_by_id w
  ∨ ∃ defs kvs,
      (gget_all fuel "/roleManagement/directory/roleDefinitions" None w).1
        = Some (Returned defs)
      ∧ role_pairs defs = Some kvs
      ∧ _role_name_by_id w' = update (_role_name_by_id w) kvs.
Proof.
  unfold load_all_role_definitions.
  pose proof (gget_loop_cache fuel
                (Some (GRAPH +:+ "/roleManagement/directory/roleDefinitions")) None [] w)
    as Hc.
  fold (gget_all fuel "/roleManagement/directory/roleDefinitions" None w) in Hc.
  destruct (gget_all fuel "/roleManagement/directory/roleDefinitions" None w)
    as [[[defs|e]|] w1]; cbn [snd] in Hc; [| |discriminate].
  - destruct (role_pairs defs) as [kvs|] eqn:Hk.
    + intros [= <-]. right. exists defs, kvs.
      split; [reflexivity|]. split; [exact Hk|]. cbn. rewrite Hc. reflexivity.
    + intros [= <-]. left. exact Hc.
  - intros [= <-]. left. exact Hc.
Qed.

End Cache.

(** C10.  [role_name] leaves the cache as it was or adds, for the id it
    was asked, the name taken from a reply with a status below 400; after a
    failed lookup (an exception, a status of 400 or more, a body that does
    not decode) the id is still absent from the cache, the next call for it
    asks the directory again and caches the name if that request succeeds;
    for an id in the cache it returns the cached name and leaves the world
    as it was, so it makes no request.  The preload leaves the cache as it
    was or updates it with the names of the role definitions its fetch
    returned.  [upn] never writes, and after a whole classification every
    entry of the cache was there before or was looked up with success. *)
Theorem cache_written_on_success_only (rt : PyRuntime) (net : Network) :
  (∀ rid w,
      _role_name_by_id (role_name rid w).2 = _role_name_by_id w
      ∨ ∃ id r body,
          rid = Some id ∧ _role_name_by_id w !! id = None
          ∧ requests_get (requests_made w) (role_url id) None = Reply r
          ∧ status_code r < 400 ∧ json r = Some body
          ∧ (role_name rid w).1 = default id (fields body !! "displayName")
          ∧ _role_name_by_id (role_name rid w).2
            = <[id := (role_name rid w).1]> (_role_name_by_id w))
  ∧ (∀ id w,
       id ≠ "" → _role_name_by_id w !! id = None →
       fetched_name id (requests_get (requests_made w) (role_url id) None) = None →
       role_name (Some id) w = (id, asked w)
       ∧ _role_name_by_id (asked w) !! id = None
       ∧ requests_made (asked w) = S (requests_made w)
       ∧ ∀ name,
           fetched_name id (requests_get (S (requests_made w)) (role_url id) None)
             = Some name →
           role_name (Some id) (asked w)
             = (name, set_cache (<[id := name]> (_role_name_by_id w)) (asked (asked w))))
  ∧ (∀ id o,
       fetched_name id o = None ↔
       o = RequestException ∨ ∃ r, o = Reply r ∧ (400 ≤ status_code r ∨ json r = None))
  ∧ (∀ id name w,
       id ≠ "" → _role_name_by_id w !! id = Some name →
       role_name (Some id) w = (name, w))
  ∧ (∀ fuel w w',
       load_all_role_definitions fuel w = Some w' →
       _role_name_by_id w' = _role_name_by_id w
       ∨ ∃ defs kvs pages,
           (gget_all fuel "/roleManagement/directory/roleDefinitions" None w).1
             = Some (Returned defs)
           ∧ paged (requests_made w)
               (GRAPH +:+ "/roleManagement/directory/roleDefinitions") pages
           ∧ defs = concat pages
           ∧ role_pairs defs = Some kvs
           ∧ _role_name_by_id w' = update (_role_name_by_id w) kvs
           ∧ ∀ id name,
               _role_name_by_id w' !! id = Some name →
               _role_name_by_id w !! id = Some name
               ∨ ∃ d : obj, d ∈ defs ∧ d !! "id" = Some id
                            ∧ name = default "" (d !! "displayName"))
  ∧ (∀ pid w, _role_name_by_id (upn pid w).2 = _role_name_by_id w)
  ∧ (∀ ts assignments eligibles inst w,
       cache_from (_role_name_by_id w) (classify ts assignments eligibles inst w).2).
Proof.
  split; [|split; [|split; [|split; [|split; [|split]]]]].
  - apply role_name_writes.
  - intros id w Hne Hc Hf. split; [exact (role_name_failed id w Hne Hc Hf)|].
    split; [exact Hc|]. split; [reflexivity|].
    intros name Hn. exact (role_name_fetched id name (asked w) Hne Hc Hn).
  - apply fetched_name_None.
  - apply role_name_cached.
  - intros fuel w w' Hl.
    destruct (load_all_role_definitions_writes fuel w w' Hl) as [E|(defs & kvs & Hg & Hk & E)].
    + left. exact E.
    + right.
      destruct (gget_loop_sound fuel
                  (GRAPH +:+ "/roleManagement/directory/roleDefinitions") [] w defs
                  eq_refl Hg) as (pages & Hp & Hd).
      exists defs, kvs, pages. split; [exact Hg|]. split; [exact Hp|].
      split; [exact Hd|]. split; [exact Hk|]. split; [exact E|].
      intros id name. rewrite E. intros Hu.
      destruct (update_lookup _ _ _ _ Hu) as [Ho|Hi]; [left; exact Ho|].
      right. exact (role_pairs_elem defs kvs id name Hk Hi).
  - apply upn_cache.
  - intros ts assignments eligibles inst w. apply classify_cache_from.
    intros id name Hc. left. exact Hc.
Qed.

(** A lookup that fails, the retry that succeeds, and the cached answer. *)
Lemma retry_after_failed_lookup :
  let w2 := set_cache {[ ga_id := "Global Administrator" ]} (asked (asked fresh)) in
  @role_name directory_flaky (Some ga_id) fresh = (ga_id, asked fresh)
  ∧ @role_name directory_flaky (Some ga_id) (asked fresh)
    = ("Global Administrator", w2)
  ∧ @role_name directory_flaky (Some ga_id) w2 = ("Global Administrator", w2).
Proof.
  cbv zeta.
  pose proof (cache_written_on_success_only py310 directory_flaky)
    as (_ & Hfail & _ & Hhit & _).
  destruct (Hfail ga_id fresh) as (E1 & _ & _ & E2);
    [discriminate|reflexivity|reflexivity|].
  split; [exact E1|]. split.
  - rewrite (E2 "Global Administrator"); [|vm_compute; reflexivity].
    f_equal.
  - apply Hhit; [discriminate|]. apply lookup_insert_eq.
Defined.

(** A record is appended when the name is privileged and the key absent. *)
Lemma is_Some_listed {A B} (P Q : Prop) `{Decision P} `{Decision Q} (a : A) (b b' : B) :
  is_Some (if decide P then if decide Q then (None, b) else (Some a, b')
           else (None, b)).1 ↔ P ∧ ¬ Q.
Proof.
  destruct (decide P) as [Hp|Hp]; [destruct (decide Q) as [Hq|Hq]|]; cbn [fst]; split.
  - intros Hs. destruct (is_Some_None Hs).
  - intros [_ Hn]. destruct (Hn Hq).
  - intros _. split; assumption.
  - intros _. eexists. reflexivity.
  - intros Hs. destruct (is_Some_None Hs).
  - intros [Hn _]. destruct (Hp Hn).
Qed.

(** C8 as stated fails.  The role definition [ga_id] is Global
    Administrator, and with the directory answering the assignment, the
    eligibility and the long activation of P are all listed; with the
    lookup failing the role name is the raw id and none of them is. *)
Lemma degraded_lookup_drops_records :
  (@role_name directory_up (Some ga_id) fresh).1 = "Global Administrator"
  ∧ length (@permanent_loop directory_up (inst_keys []) [ga_assignment] [] fresh).1 = 1%nat
  ∧ length (@stale_loop directory_up (recent_keys []) [ga_eligibility] [] fresh).1 = 1%nat
  ∧ length (@long_loop py310 directory_up [ga_instance] [] fresh).1 = 1%nat
  ∧ (@role_name directory_down (Some ga_id) fresh).1 = ga_id
  ∧ (@permanent_loop directory_down (inst_keys []) [ga_assignment] [] fresh).1 = []
  ∧ (@stale_loop directory_down (recent_keys []) [ga_eligibility] [] fresh).1 = []
  ∧ (@long_loop py310 directory_down [ga_instance] [] fresh).1 = [].
Proof. repeat split; vm_compute; reflexivity. Qed.

(** C8, as amended.  [role_name] always returns: the empty string, with no
    request, for an empty or missing id; the cached name, with no request,
    for a cached id; the raw id when the id is not cached and the lookup
    fails.  A record whose role name is the raw id in this way is listed
    only if the raw id is itself a name of PRIV_ROLES, and then with the
    raw id as its role; for the permanent and stale lists that and the
    absence of its key from the key set is also enough. *)
Theorem role_name_falls_back_to_raw_id (rt : PyRuntime) (net : Network) :
  (∀ rid w, ∃ name w', role_name rid w = (name, w'))
  ∧ (∀ rid w, truthy rid = false → role_name rid w = ("", w))
  ∧ (∀ id name w,
       id ≠ "" → _role_name_by_id w !! id = Some name →
       role_name (Some id) w = (name, w))
  ∧ (∀ id w,
       id ≠ "" → _role_name_by_id w !! id = None →
       fetched_name id (requests_get (requests_made w) (role_url id) None) = None →
       role_name (Some id) w = (id, asked w))
  ∧ (∀ (keys : gset key) (x : obj) id w,
       x !! "roleDefinitionId" = Some id →
       id ≠ "" → _role_name_by_id w !! id = None →
       fetched_name id (requests_get (requests_made w) (role_url id) None) = None →
       (is_Some (permanent_body keys x w).1
          ↔ id ∈ PRIV_ROLES ∧ (x !! "principalId", Some id) ∉ keys)
       ∧ (is_Some (stale_body keys x w).1
          ↔ id ∈ PRIV_ROLES ∧ (x !! "principalId", Some id) ∉ keys)
       ∧ (is_Some (long_body x w).1 → id ∈ PRIV_ROLES)
       ∧ (∀ p, (permanent_body keys x w).1 = Some p → pa_role p = id)
       ∧ (∀ p, (stale_body keys x w).1 = Some p → se_role p = id)
       ∧ (∀ p, (long_body x w).1 = Some p → la_role p = id)).
Proof.
  split; [|split; [|split; [|split]]].
  - intros rid w. destruct (role_name rid w) as [name w']. exists name, w'. reflexivity.
  - apply role_name_falsy.
  - apply role_name_cached.
  - apply role_name_failed.
  - intros keys x id w Hx Hne Hc Hf.
    pose proof (role_name_failed id w Hne Hc Hf) as E.
    split; [|split; [|split; [|split; [|split]]]].
    + rewrite permanent_body_eq. cbv zeta. rewrite Hx, E. cbn [fst snd].
      apply is_Some_listed.
    + rewrite stale_body_eq. cbv zeta. rewrite Hx, E. cbn [fst snd].
      apply is_Some_listed.
    + rewrite long_body_eq. cbv zeta. rewrite Hx, E. cbn [fst snd].
      destruct (decide (id ∈ PRIV_ROLES)) as [Hp|_]; [intros _; exact Hp|].
      intros Hs. destruct (is_Some_None Hs).
    + intros p. rewrite permanent_body_eq. cbv zeta. rewrite Hx, E. cbn [fst snd].
      destruct (decide (id ∈ PRIV_ROLES)); [|discriminate].
      destruct (decide (_ ∈ keys)); [discriminate|].
      intros [= <-]. reflexivity.
    + intros p. rewrite stale_body_eq. cbv zeta. rewrite Hx, E. cbn [fst snd].
      destruct (decide (id ∈ PRIV_ROLES)); [|discriminate].
      destruct (decide (_ ∈ keys)); [discriminate|].
      intros [= <-]. reflexivity.
    + intros p. rewrite long_body_eq. cbv zeta. rewrite Hx, E. cbn [fst snd].
      destruct (decide (id ∈ PRIV_ROLES)); [|discriminate].
      destruct (truthy _ && truthy _); [|discriminate].
      destruct (duration_hours _ _); [|discriminate].
      destruct (over_limit _); [|discriminate].
      intros [= <-]. reflexivity.
Qed.

(** The fallback on the directory whose every request fails. *)
Lemma fallback_on_directory_down :
  @role_name directory_down (Some ga_id) fresh = (ga_id, asked fresh)
  ∧ @role_name directory_down None fresh = ("", fresh).
Proof.
  pose proof (role_name_falls_back_to_raw_id py310 directory_down)
    as (_ & Hfalsy & _ & Hfail & _).
  split.
  - apply Hfail; [discriminate|reflexivity|reflexivity].
  - apply Hfalsy. reflexivity.
Defined.

(** * Further properties *)

(** ** Stale eligibilities (lines 220-233) *)

(** X1.  When the loop reaches an eligibility [e] whose role name resolves
    to a member of PRIV_ROLES, the body appends a record for [e] if and
    only if no in-window instance carries the (principalId,
    roleDefinitionId) pair of [e]; the record copies the id and the start
    of [e] and carries the resolved name and the looked-up UPN, and the
    stale list is the records of the eligibilities before [e], then that of
    [e] if any, then those of the eligibilities after it. *)
Theorem stale_iff_no_instance_in_window `{Network}
    (inst pre post : list obj) (e : obj) (w0 : world) :
  let keys := recent_keys inst in
  let before := stale_loop keys pre [] w0 in
  let rn := role_name (e !! "roleDefinitionId") before.2 in
  let r := stale_body keys e before.2 in
  let after := stale_loop keys post [] r.2 in
  rn.1 ∈ PRIV_ROLES →
  (is_Some r.1 ↔
     ¬ ∃ i : obj, i ∈ inst ∧ i !! "principalId" = e !! "principalId"
                  ∧ i !! "roleDefinitionId" = e !! "roleDefinitionId")
  ∧ (∀ s, r.1 = Some s →
       se_role s = rn.1 ∧ se_principalId s = e !! "principalId"
       ∧ se_principalUPN s = (upn (e !! "principalId") rn.2).1
       ∧ se_eligibilityId s = e !! "id"
       ∧ se_eligibleSince s = e !! "startDateTime")
  ∧ (stale_loop keys (pre ++ e :: post) [] w0).1
    = before.1 ++ option_list r.1 ++ after.1.
Proof.
  intros keys before rn r after Hpriv.
  assert (Hr : r = if decide ((e !! "principalId", e !! "roleDefinitionId") ∈ keys)
                   then (None, rn.2)
                   else (Some {| se_principalId := e !! "principalId";
                                 se_principalUPN := (upn (e !! "principalId") rn.2).1;
                                 se_role := rn.1;
                                 se_eligibilityId := e !! "id";
                                 se_eligibleSince := e !! "startDateTime" |},
                         (upn (e !! "principalId") rn.2).2)).
  { subst r. rewrite stale_body_eq. cbv zeta. fold rn.
    destruct (decide (rn.1 ∈ PRIV_ROLES)) as [_|Hn]; [reflexivity|].
    destruct (Hn Hpriv). }
  split; [|split].
  - rewrite Hr. subst keys. change (recent_keys inst) with (inst_keys inst).
    destruct (decide (_ ∈ inst_keys inst)) as [Hin|Hout]; cbn [fst]; split.
    + intros Hs. destruct (is_Some_None Hs).
    + intros Hn. destruct Hn. apply elem_of_inst_keys in Hin.
      destruct Hin as (i & Hi & Hk). injection Hk as ? ?.
      exists i. split; [exact Hi|]. split; assumption.
    + intros _ (i & Hi & Hp & Hd). apply Hout, elem_of_inst_keys.
      exists i. split; [exact Hi|]. rewrite Hp, Hd. reflexivity.
    + intros _. eexists. reflexivity.
  - intros s. rewrite Hr.
    destruct (decide (_ ∈ keys)); cbn [fst]; intros Hs.
    + discriminate Hs.
    + injection Hs as <-. cbn. repeat split.
  - rewrite stale_loop_app. cbv zeta. cbn [fst snd].
    rewrite stale_loop_cons. reflexivity.
Qed.

(** An eligibility of P for Global Administrator is stale while P has no
    activation in the window, and is not once P has one. *)
Lemma stale_global_administrator :
  (@stale_loop directory_up (recent_keys [other_instance]) [ga_eligibility] [] fresh).1
    = [ {| se_principalId := Some "P"; se_principalUPN := "p@contoso.com";
           se_role := "Global Administrator"; se_eligibilityId := Some "e1";
           se_eligibleSince := Some "2023-01-01T00:00:00Z" |} ]
  ∧ (@stale_loop directory_up (recent_keys [other_instance; ga_instance])
       [ga_eligibility] [] fresh).1 = [].
Proof.
  pose proof (@stale_iff_no_instance_in_window directory_up
                [other_instance] [] [] ga_eligibility fresh) as H1.
  pose proof (@stale_iff_no_instance_in_window directory_up
                [other_instance; ga_instance] [] [] ga_eligibility fresh) as H2.
  split.
  - destruct H1 as (_ & _ & E); [apply (bool_decide_unpack _); vm_compute; exact I|].
    etransitivity; [exact E|]. vm_compute. reflexivity.
  - destruct H2 as (_ & _ & E); [apply (bool_decide_unpack _); vm_compute; exact I|].
    etransitivity; [exact E|]. vm_compute. reflexivity.
Defined.

(** ** The lists select records of the collections, in order *)

Section Selection.
Context `{PyRuntime} `{Network}.

Lemma permanent_loop_sublist keys l w :
  sublist ((λ p, (pa_principalId p, pa_assignmentId p, pa_createdDateTime p))
             <$> (permanent_loop keys l [] w).1)
          ((λ a : obj, (a !! "principalId", a !! "id", a !! "createdDateTime")) <$> l).
Proof.
  revert w. induction l as [|a l IH]; intros w; [apply sublist_nil|].
  rewrite permanent_loop_cons. cbv zeta. cbn [fst]. rewrite fmap_app, fmap_cons.
  specialize (IH (permanent_body keys a w).2).
  rewrite permanent_body_eq in *. cbv zeta in *.
  destruct (decide (_ ∈ PRIV_ROLES)); [|apply sublist_cons, IH].
  destruct (decide (_ ∈ keys)); [apply sublist_cons, IH|].
  cbn. apply sublist_skip, IH.
Qed.

Lemma stale_loop_sublist keys l w :
  sublist ((λ p, (se_principalId p, se_eligibilityId p, se_eligibleSince p))
             <$> (stale_loop keys l [] w).1)
          ((λ a : obj, (a !! "principalId", a !! "id", a !! "startDateTime")) <$> l).
Proof.
  revert w. induction l as [|a l IH]; intros w; [apply sublist_nil|].
  rewrite stale_loop_cons. cbv zeta. cbn [fst]. rewrite fmap_app, fmap_cons.
  specialize (IH (stale_body keys a w).2).
  rewrite stale_body_eq in *. cbv zeta in *.
  destruct (decide (_ ∈ PRIV_ROLES)); [|apply sublist_cons, IH].
  destruct (decide (_ ∈ keys)); [apply sublist_cons, IH|].
  cbn. apply sublist_skip, IH.
Qed.

Lemma long_loop_sublist l w :
  sublist ((λ p, (la_principalId p, la_instanceId p, Some (la_start p), Some (la_end p)))
             <$> (long_loop l [] w).1)
          ((λ i : obj, (i !! "principalId", i !! "id", i !! "startDateTime",
                        i !! "endDateTime")) <$> l).
Proof.
  revert w. induction l as [|a l IH]; intros w; [apply sublist_nil|].
  rewrite long_loop_cons. cbv zeta. cbn [fst]. rewrite fmap_app, fmap_cons.
  specialize (IH (long_body a w).2).
  rewrite long_body_eq in *. cbv zeta in *.
  destruct (decide (_ ∈ PRIV_ROLES)); [|apply sublist_cons, IH].
  destruct (a !! "startDateTime") as [st|]; [|apply sublist_cons, IH].
  destruct (a !! "endDateTime") as [en|];
    [|rewrite andb_false_r in *; apply sublist_cons, IH].
  destruct (truthy (Some st) && truthy (Some en)); [|apply sublist_cons, IH].
  destruct (duration_hours _ _); [|apply sublist_cons, IH].
  destruct (over_limit _); [|apply sublist_cons, IH].
  exact (sublist_skip _ _ _ IH).
Qed.

Lemma classify_list_lengths ts assignments eligibles inst w :
  let snap := (classify ts assignments eligibles inst w).1 in
  (length (permanent snap) ≤ length assignments)%nat
  ∧ (length (staleEligibilities snap) ≤ length eligibles)%nat
  ∧ (length (longActivations snap) ≤ length inst)%nat.
Proof.
  intros snap. subst snap. rewrite classify_lists. cbv zeta.
  cbn [fst permanent staleEligibilities longActivations].
  pose proof (permanent_loop_sublist (inst_keys inst) assignments w) as Hp.
  pose proof (stale_loop_sublist (recent_keys inst) eligibles
                (permanent_loop (inst_keys inst) assignments [] w).2) as Hs.
  pose proof (long_loop_sublist inst
                (stale_loop (recent_keys inst) eligibles []
                   (permanent_loop (inst_keys inst) assignments [] w).2).2) as Hl.
  apply sublist_length in Hp. rewrite !length_fmap in Hp.
  apply sublist_length in Hs. rewrite !length_fmap in Hs.
  apply sublist_length in Hl. rewrite !length_fmap in Hl.
  split; [exact Hp|]. split; [exact Hs|exact Hl].
Qed.

End Selection.

(** X2.  Each of the three lists is a selection of its collection in the
    collection's order: the records copy the principal, the id and the
    dates of the inputs they come from, an input gives at most one record
    and no record is invented, so no list is longer than its collection. *)
Theorem lists_select_in_order `{PyRuntime} `{Network}
    (ts : string) (assignments eligibles inst : list obj) (w : world) :
  let snap := (classify ts assignments eligibles inst w).1 in
  sublist ((λ p, (pa_principalId p, pa_assignmentId p, pa_createdDateTime p))
             <$> permanent snap)
          ((λ a : obj, (a !! "principalId", a !! "id", a !! "createdDateTime"))
             <$> assignments)
  ∧ sublist ((λ p, (se_principalId p, se_eligibilityId p, se_eligibleSince p))
               <$> staleEligibilities snap)
            ((λ a : obj, (a !! "principalId", a !! "id", a !! "startDateTime"))
               <$> eligibles)
  ∧ sublist ((λ p, (la_principalId p, la_instanceId p, Some (la_start p), Some (la_end p)))
               <$> longActivations snap)
            ((λ i : obj, (i !! "principalId", i !! "id", i !! "startDateTime",
                          i !! "endDateTime")) <$> inst)
  ∧ (length (permanent snap) ≤ length assignments)%nat
  ∧ (length (staleEligibilities snap) ≤ length eligibles)%nat
  ∧ (length (longActivations snap) ≤ length inst)%nat.
Proof.
  intros snap. subst snap. rewrite classify_lists. cbv zeta.
  cbn [fst permanent staleEligibilities longActivations].
  pose proof (permanent_loop_sublist (inst_keys inst) assignments w) as Hp.
  pose proof (stale_loop_sublist (recent_keys inst) eligibles
                (permanent_loop (inst_keys inst) assignments [] w).2) as Hs.
  pose proof (long_loop_sublist inst
                (stale_loop (recent_keys inst) eligibles []
                   (permanent_loop (inst_keys inst) assignments [] w).2).2) as Hl.
  split; [exact Hp|]. split; [exact Hs|]. split; [exact Hl|].
  apply sublist_length in Hp. rewrite !length_fmap in Hp.
  apply sublist_length in Hs. rewrite !length_fmap in Hs.
  apply sublist_length in Hl. rewrite !length_fmap in Hl.
  split; [exact Hp|]. split; [exact Hs|exact Hl].
Qed.

(** ** What a classification changes in the world *)

Section Frame.
Context `{PyRuntime} `{Network}.

Lemma within_refl w : within 0 w w.
Proof. split; [reflexivity|]. split; [reflexivity|lia]. Qed.

Lemma within_trans k1 k2 w w1 w2 :
  within k1 w w1 → within k2 w1 w2 → within (k1 + k2) w w2.
Proof.
  intros (Hc1 & Hp1 & Hr1) (Hc2 & Hp2 & Hr2).
  split; [etransitivity; eassumption|]. split; [congruence|lia].
Qed.

Lemma within_weaken k k' w w' : (k ≤ k')%nat → within k w w' → within k' w w'.
Proof. intros Hk (Hc & Hp & Hr). split; [exact Hc|]. split; [exact Hp|lia]. Qed.

Lemma role_name_within rid w : within 1 w (role_name rid w).2.
Proof.
  rewrite role_name_eq.
  destruct (negb (truthy rid)); [apply (within_weaken 0); [lia|apply within_refl]|].
  cbv zeta. destruct (_role_name_by_id w !! default "" rid) eqn:Hc;
    [apply (within_weaken 0); [lia|apply within_refl]|].
  destruct (fetched_name _ _); cbn [snd].
  - split; [apply insert_subseteq, Hc|]. split; [reflexivity|cbn; lia].
  - split; [reflexivity|]. split; [reflexivity|cbn; lia].
Qed.

Lemma upn_within pid w : within 1 w (upn pid w).2.
Proof.
  rewrite upn_eq.
  destruct (negb (truthy pid)); [apply (within_weaken 0); [lia|apply within_refl]|].
  split; [reflexivity|]. split; [reflexivity|cbn; lia].
Qed.

Lemma permanent_body_within keys a w :
  within (1 + length (option_list (permanent_body keys a w).1)) w (permanent_body keys a w).2.
Proof.
  rewrite permanent_body_eq. cbv zeta.
  pose proof (role_name_within (a !! "roleDefinitionId") w) as Hr.
  destruct (decide (_ ∈ PRIV_ROLES)); [|apply (within_weaken 1); [cbn; lia|exact Hr]].
  destruct (decide (_ ∈ keys)); [apply (within_weaken 1); [cbn; lia|exact Hr]|].
  cbn [fst snd option_list length].
  exact (within_trans _ _ _ _ _ Hr (upn_within _ _)).
Qed.

Lemma stale_body_within keys a w :
  within (1 + length (option_list (stale_body keys a w).1)) w (stale_body keys a w).2.
Proof.
  rewrite stale_body_eq. cbv zeta.
  pose proof (role_name_within (a !! "roleDefinitionId") w) as Hr.
  destruct (decide (_ ∈ PRIV_ROLES)); [|apply (within_weaken 1); [cbn; lia|exact Hr]].
  destruct (decide (_ ∈ keys)); [apply (within_weaken 1); [cbn; lia|exact Hr]|].
  cbn [fst snd option_list length].
  exact (within_trans _ _ _ _ _ Hr (upn_within _ _)).
Qed.

Lemma long_body_within a w :
  within (1 + length (option_list (long_body a w).1)) w (long_body a w).2.
Proof.
  rewrite long_body_eq. cbv zeta.
  pose proof (role_name_within (a !! "roleDefinitionId") w) as Hr.
  destruct (decide (_ ∈ PRIV_ROLES)); [|apply (within_weaken 1); [cbn; lia|exact Hr]].
  destruct (truthy _ && truthy _); [|apply (within_weaken 1); [cbn; lia|exact Hr]].
  destruct (duration_hours _ _); [|apply (within_weaken 1); [cbn; lia|exact Hr]].
  destruct (over_limit _); [|apply (within_weaken 1); [cbn; lia|exact Hr]].
  cbn [fst snd option_list length].
  exact (within_trans _ _ _ _ _ Hr (upn_within _ _)).
Qed.

Lemma permanent_loop_within keys l w :
  within (length l + length (permanent_loop keys l [] w).1) w (permanent_loop keys l [] w).2.
Proof.
  revert w. induction l as [|a l IH]; intros w; [apply within_refl|].
  rewrite permanent_loop_cons. cbv zeta. cbn [fst snd].
  eapply within_weaken;
    [|exact (within_trans _ _ _ _ _ (permanent_body_within keys a w) (IH _))].
  rewrite length_app. cbn [length]. lia.
Qed.

Lemma stale_loop_within keys l w :
  within (length l + length (stale_loop keys l [] w).1) w (stale_loop keys l [] w).2.
Proof.
  revert w. induction l as [|a l IH]; intros w; [apply within_refl|].
  rewrite stale_loop_cons. cbv zeta. cbn [fst snd].
  eapply within_weaken;
    [|exact (within_trans _ _ _ _ _ (stale_body_within keys a w) (IH _))].
  rewrite length_app. cbn [length]. lia.
Qed.

Lemma long_loop_within l w :
  within (length l + length (long_loop l [] w).1) w (long_loop l [] w).2.
Proof.
  revert w. induction l as [|a l IH]; intros w; [apply within_refl|].
  rewrite long_loop_cons. cbv zeta. cbn [fst snd].
  eapply within_weaken;
    [|exact (within_trans _ _ _ _ _ (long_body_within a w) (IH _))].
  rewrite length_app. cbn [length]. lia.
Qed.

Lemma count_privileged_within xs n w :
  within (length xs) w (count_privileged xs n w).2.
Proof.
  revert n w. induction xs as [|a xs IH]; intros n w; [apply within_refl|].
  cbn [count_privileged]. unfold bind.
  pose proof (role_name_within (a !! "roleDefinitionId") w) as Hr.
  destruct (role_name (a !! "roleDefinitionId") w) as [rname w1]. cbn [snd] in Hr.
  exact (within_trans _ _ _ _ _ Hr (IH _ w1)).
Qed.

Lemma classify_within ts assignments eligibles inst w :
  let r := classify ts assignments eligibles inst w in
  within (2 * length assignments + 2 * length eligibles + length inst
          + length (permanent r.1) + length (staleEligibilities r.1)
          + length (longActivations r.1)) w r.2.
Proof.
  cbv zeta. rewrite classify_lists. cbv zeta.
  cbn [fst snd permanent staleEligibilities longActivations].
  eapply within_weaken;
    [|exact (within_trans _ _ _ _ _
               (within_trans _ _ _ _ _
                  (within_trans _ _ _ _ _
                     (within_trans _ _ _ _ _
                        (permanent_loop_within (inst_keys inst) assignments w)
                        (stale_loop_within (recent_keys inst) eligibles _))
                     (long_loop_within inst _))
                  (count_privileged_within assignments 0%nat _))
               (count_privileged_within eligibles 0%nat _))].
  lia.
Qed.

End Frame.

(** X3.  A classification never removes or changes an entry of the
    role-name cache and prints nothing: every id cached before it is
    cached under the same name after it, and is then still answered from
    the cache with no request. *)
Theorem classification_keeps_cache `{PyRuntime} `{Network}
    (ts : string) (assignments eligibles inst : list obj) (w : world) :
  let w' := (classify ts assignments eligibles inst w).2 in
  _role_name_by_id w ⊆ _role_name_by_id w'
  ∧ console w' = console w
  ∧ ∀ id name,
      _role_name_by_id w !! id = Some name →
      _role_name_by_id w' !! id = Some name
      ∧ (id ≠ "" → role_name (Some id) w' = (name, w')).
Proof.
  intros w'. destruct (classify_within ts assignments eligibles inst w) as (Hc & Hp & _).
  fold w' in Hc, Hp. split; [exact Hc|]. split; [exact Hp|].
  intros id name Hid.
  assert (Hid' : _role_name_by_id w' !! id = Some name).
  { exact (proj1 (map_subseteq_spec _ _) Hc id name Hid). }
  split; [exact Hid'|]. intros Hne. exact (role_name_cached id name w' Hne Hid').
Qed.

(** A run on a cache that knows the role: the entry is there after it. *)
Lemma classification_keeps_cache_run :
  let w := set_cache {[ ua_id := "Helpdesk" ]} fresh in
  let w' := (@classify py310 directory_up "2024-01-15T000000Z"
               [ga_assignment; ua_assignment] [ga_eligibility] [ga_instance] w).2 in
  _role_name_by_id w !! ua_id = Some "Helpdesk"
  ∧ _role_name_by_id w' !! ua_id = Some "Helpdesk".
Proof.
  cbv zeta. split; [apply lookup_insert_eq|].
  pose proof (@classification_keeps_cache py310 directory_up "2024-01-15T000000Z"
                [ga_assignment; ua_assignment] [ga_eligibility] [ga_instance]
                (set_cache {[ ua_id := "Helpdesk" ]} fresh)) as Hk.
  cbv zeta in Hk. destruct Hk as (_ & _ & Hk).
  apply (Hk ua_id "Helpdesk"). apply lookup_insert_eq.
Defined.

(** X4.  A classification makes at most one role lookup per record it
    scans, the assignments and the eligibilities being scanned twice, and
    one UPN lookup per record it lists: the number of requests never
    goes down and grows by at most twice the assignments, twice the
    eligibilities, the in-window instances and the lengths of the three
    lists. *)
Theorem classification_request_budget `{PyRuntime} `{Network}
    (ts : string) (assignments eligibles inst : list obj) (w : world) :
  let r := classify ts assignments eligibles inst w in
  (requests_made w ≤ requests_made r.2)%nat
  ∧ (requests_made r.2
     ≤ requests_made w + 2 * length assignments + 2 * length eligibles + length inst
       + length (permanent r.1) + length (staleEligibilities r.1)
       + length (longActivations r.1))%nat
  ∧ (requests_made r.2
     ≤ requests_made w + 3 * length assignments + 3 * length eligibles
       + 2 * length inst)%nat.
Proof.
  intros r. destruct (classify_within ts assignments eligibles inst w) as (_ & _ & Hr).
  fold r in Hr.
  destruct (classify_list_lengths ts assignments eligibles inst w) as (Hp & Hs & Hl).
  cbv zeta in Hp, Hs, Hl. fold r in Hp, Hs, Hl. lia.
Qed.

(** ** The metrics against the lists, whatever the directory answers *)

Section Counted.
Context `{PyRuntime} `{Network}.

Lemma empty_not_privileged : "" ∉ PRIV_ROLES.
Proof. apply (bool_decide_unpack _). vm_compute. exact I. Qed.

Lemma cached_privileged_mono c c' (a : obj) :
  c ⊆ c' → cached_privileged c a = true → cached_privileged c' a = true.
Proof.
  intros Hc. unfold cached_privileged.
  destruct (a !! "roleDefinitionId") as [id|]; [|discriminate].
  destruct (negb (String.eqb id "")); [|discriminate]. cbn [andb].
  destruct (c !! id) as [name|] eqn:E; [|discriminate].
  rewrite (proj1 (map_subseteq_spec _ _) Hc id name E). intros Hn. exact Hn.
Qed.

Lemma filter_length_mono (P Q : obj → Prop)
    `{∀ x, Decision (P x)} `{∀ x, Decision (Q x)} (l : list obj) :
  (∀ x, P x → Q x) →
  (length (filter P l) ≤ length (filter Q l))%nat.
Proof.
  intros HPQ. induction l as [|x l IH]; [reflexivity|].
  rewrite !filter_cons.
  destruct (decide (P x)) as [Hp|Hp].
  - rewrite decide_True by exact (HPQ x Hp). cbn [length]. lia.
  - destruct (decide (Q x)); cbn [length]; lia.
Qed.

(** A cached privileged id is answered from the cache. *)
Lemma role_name_of_cached (a : obj) w :
  cached_privileged (_role_name_by_id w) a = true →
  (role_name (a !! "roleDefinitionId") w).1 ∈ PRIV_ROLES
  ∧ (role_name (a !! "roleDefinitionId") w).2 = w.
Proof.
  unfold cached_privileged.
  destruct (a !! "roleDefinitionId") as [id|]; [|discriminate].
  destruct (String.eqb_spec id "") as [->|Hne]; [discriminate|]. cbn [negb andb].
  destruct (_role_name_by_id w !! id) as [name|] eqn:E; [|discriminate].
  intros Hn. rewrite (role_name_cached id name w Hne E). cbn [fst snd].
  split; [exact (bool_decide_unpack _ (Is_true_true_2 _ Hn))|reflexivity].
Qed.

(** A privileged answer for an id that is not itself a role name comes
    from the cache or has just been cached. *)
Lemma role_name_privileged_cached (a : obj) w :
  (∀ id, a !! "roleDefinitionId" = Some id → id ∉ PRIV_ROLES) →
  (role_name (a !! "roleDefinitionId") w).1 ∈ PRIV_ROLES →
  cached_privileged (_role_name_by_id (role_name (a !! "roleDefinitionId") w).2) a = true.
Proof.
  intros Hid. rewrite role_name_eq. unfold cached_privileged.
  destruct (a !! "roleDefinitionId") as [id|] eqn:Ea;
    [|intros Hp; destruct (empty_not_privileged Hp)].
  specialize (Hid id eq_refl). unfold truthy.
  destruct (String.eqb_spec id "") as [->|Hne]; cbn [negb andb];
    [intros Hp; destruct (empty_not_privileged Hp)|].
  cbv zeta. change (default "" (Some id)) with id.
  destruct (_role_name_by_id w !! id) as [name|] eqn:E.
  - cbn [fst snd]. rewrite E. intros Hp. apply bool_decide_eq_true_2, Hp.
  - destruct (fetched_name id _) as [name|]; cbn [fst snd].
    + intros Hp. cbn. rewrite lookup_insert_eq. apply bool_decide_eq_true_2, Hp.
    + intros Hp. destruct (Hid Hp).
Qed.

Lemma count_privileged_cached xs n w :
  (n + length (filter (λ a : obj, cached_privileged (_role_name_by_id w) a = true) xs)
   ≤ (count_privileged xs n w).1)%nat.
Proof.
  revert n w. induction xs as [|a xs IH]; intros n w; [cbn; lia|].
  cbn [count_privileged]. unfold bind. rewrite filter_cons.
  pose proof (role_name_within (a !! "roleDefinitionId") w) as (Hc & _).
  pose proof (role_name_of_cached a w) as Hk.
  destruct (role_name (a !! "roleDefinitionId") w) as [rname w1].
  cbn [fst snd] in Hc, Hk.
  pose proof (filter_length_mono
                (λ a : obj, cached_privileged (_role_name_by_id w) a = true)
                (λ a : obj, cached_privileged (_role_name_by_id w1) a = true) xs
                (λ x, cached_privileged_mono _ _ x Hc)) as Hm.
  destruct (decide (cached_privileged (_role_name_by_id w) a = true)) as [Ha|Ha].
  - destruct (Hk Ha) as [Hp _]. rewrite decide_True by exact Hp.
    specialize (IH (S n) w1). cbn [length]. lia.
  - specialize (IH (if decide (rname ∈ PRIV_ROLES) then S n else n) w1).
    destruct (decide (rname ∈ PRIV_ROLES)); lia.
Qed.

Lemma permanent_loop_cached keys l w :
  ids_are_not_names l →
  (length (permanent_loop keys l [] w).1
   ≤ length (filter (λ a : obj,
               cached_privileged (_role_name_by_id (permanent_loop keys l [] w).2) a = true)
               l))%nat.
Proof.
  revert w. induction l as [|a l IH]; intros w Hids; [reflexivity|].
  apply Forall_cons in Hids. destruct Hids as [Ha Hl].
  rewrite permanent_loop_cons. cbv zeta. cbn [fst snd].
  rewrite length_app, filter_cons.
  specialize (IH (permanent_body keys a w).2 Hl).
  pose proof (permanent_loop_within keys l (permanent_body keys a w).2) as (Hc & _).
  assert (Hone : is_Some (permanent_body keys a w).1 →
                 cached_privileged
                   (_role_name_by_id (permanent_body keys a w).2) a = true).
  { rewrite permanent_body_eq. cbv zeta.
    pose proof (role_name_privileged_cached a w Ha) as Hk.
    destruct (decide (_ ∈ PRIV_ROLES)) as [Hp|];
      [|intros Hs; destruct (is_Some_None Hs)].
    destruct (decide (_ ∈ keys)); [intros Hs; destruct (is_Some_None Hs)|].
    intros _. cbn [snd]. rewrite upn_cache. exact (Hk Hp). }
  destruct (permanent_body keys a w).1 as [p|].
  - rewrite decide_True
      by exact (cached_privileged_mono _ _ a Hc (Hone (ex_intro _ p eq_refl))).
    change (length (option_list (Some p))) with 1%nat. cbn [length]. lia.
  - change (length (option_list (@None PermanentAssignment))) with 0%nat.
    destruct (decide (_ = true)); cbn [length]; lia.
Qed.

Lemma stale_loop_cached keys l w :
  ids_are_not_names l →
  (length (stale_loop keys l [] w).1
   ≤ length (filter (λ a : obj,
               cached_privileged (_role_name_by_id (stale_loop keys l [] w).2) a = true)
               l))%nat.
Proof.
  revert w. induction l as [|a l IH]; intros w Hids; [reflexivity|].
  apply Forall_cons in Hids. destruct Hids as [Ha Hl].
  rewrite stale_loop_cons. cbv zeta. cbn [fst snd].
  rewrite length_app, filter_cons.
  specialize (IH (stale_body keys a w).2 Hl).
  pose proof (stale_loop_within keys l (stale_body keys a w).2) as (Hc & _).
  assert (Hone : is_Some (stale_body keys a w).1 →
                 cached_privileged
                   (_role_name_by_id (stale_body keys a w).2) a = true).
  { rewrite stale_body_eq. cbv zeta.
    pose proof (role_name_privileged_cached a w Ha) as Hk.
    destruct (decide (_ ∈ PRIV_ROLES)) as [Hp|];
      [|intros Hs; destruct (is_Some_None Hs)].
    destruct (decide (_ ∈ keys)); [intros Hs; destruct (is_Some_None Hs)|].
    intros _. cbn [snd]. rewrite upn_cache. exact (Hk Hp). }
  destruct (stale_body keys a w).1 as [p|].
  - rewrite decide_True
      by exact (cached_privileged_mono _ _ a Hc (Hone (ex_intro _ p eq_refl))).
    change (length (option_list (Some p))) with 1%nat. cbn [length]. lia.
  - change (length (option_list (@None StaleEligibility))) with 0%nat.
    destruct (decide (_ = true)); cbn [length]; lia.
Qed.

End Counted.

(** X5.  Whatever the directory answers and whenever, as long as no
    roleDefinitionId of the assignments is itself one of the eight role
    names, every assignment listed as permanent is counted by the metrics:
    the permanent list is no longer than active_privileged_assignments; and
    likewise the stale list is no longer than eligible_privileged_users
    when no roleDefinitionId of the eligibilities is a role name. *)
Theorem metrics_count_listed_records (rt : PyRuntime) (net : Network)
    (ts : string) (assignments eligibles inst : list obj) (w : world) :
  let snap := (classify ts assignments eligibles inst w).1 in
  (ids_are_not_names assignments →
   (length (permanent snap) ≤ active_privileged_assignments (metrics snap))%nat)
  ∧ (ids_are_not_names eligibles →
     (length (staleEligibilities snap) ≤ eligible_privileged_users (metrics snap))%nat).
Proof.
  intros snap. subst snap. rewrite classify_lists. cbv zeta.
  cbn [fst metrics permanent staleEligibilities active_privileged_assignments
       eligible_privileged_users].
  set (w1 := (permanent_loop (inst_keys inst) assignments [] w).2).
  set (w2 := (stale_loop (recent_keys inst) eligibles [] w1).2).
  set (w3 := (long_loop inst [] w2).2).
  set (w4 := (count_privileged assignments 0%nat w3).2).
  pose proof (stale_loop_within (recent_keys inst) eligibles w1) as (Hc12 & _).
  pose proof (long_loop_within inst w2) as (Hc23 & _).
  pose proof (count_privileged_within assignments 0%nat w3) as (Hc34 & _).
  fold w2 in Hc12. fold w3 in Hc23. fold w4 in Hc34.
  split.
  - intros Hids.
    pose proof (permanent_loop_cached (inst_keys inst) assignments w Hids) as Hp.
    fold w1 in Hp.
    pose proof (count_privileged_cached assignments 0%nat w3) as Hn.
    assert (Hc13 : _role_name_by_id w1 ⊆ _role_name_by_id w3)
      by (etransitivity; eassumption).
    pose proof (filter_length_mono
                  (λ a : obj, cached_privileged (_role_name_by_id w1) a = true)
                  (λ a : obj, cached_privileged (_role_name_by_id w3) a = true)
                  assignments (λ x, cached_privileged_mono _ _ x Hc13)) as Hm.
    lia.
  - intros Hids.
    pose proof (stale_loop_cached (recent_keys inst) eligibles w1 Hids) as Hp.
    fold w2 in Hp.
    pose proof (count_privileged_cached eligibles 0%nat w4) as Hn.
    assert (Hc24 : _role_name_by_id w2 ⊆ _role_name_by_id w4)
      by (etransitivity; eassumption).
    pose proof (filter_length_mono
                  (λ a : obj, cached_privileged (_role_name_by_id w2) a = true)
                  (λ a : obj, cached_privileged (_role_name_by_id w4) a = true)
                  eligibles (λ x, cached_privileged_mono _ _ x Hc24)) as Hm.
    lia.
Qed.

(** On a directory that starts to answer during the run, the lists stay
    within the counts. *)
Lemma metrics_count_listed_records_run :
  let snap := (@classify py310 directory_late "2024-01-15T000000Z"
                 [ga_assignment; ua_assignment] [ga_eligibility] [] fresh).1 in
  ids_are_not_names [ga_assignment; ua_assignment]
  ∧ (length (permanent snap) ≤ active_privileged_assignments (metrics snap))%nat.
Proof.
  cbv zeta.
  assert (Hids : ids_are_not_names [ga_assignment; ua_assignment]).
  { repeat apply Forall_cons_2; [| |apply Forall_nil_2]; intros id Hid;
      vm_compute in Hid; injection Hid as <-;
      apply (bool_decide_unpack _); vm_compute; exact I. }
  split; [exact Hids|].
  exact (proj1 (metrics_count_listed_records py310 directory_late
                  "2024-01-15T000000Z" [ga_assignment; ua_assignment]
                  [ga_eligibility] [] fresh) Hids).
Defined.

(** ** A window with no activation *)

Section Quiet.
Context `{PyRuntime} `{Network}.
Hypothesis Hroles : roles_fixed.



End Quiet.



(** ** When the window filter raises *)

(** X7.  The window filter returns exactly when every start timestamp that
    parses carries a UTC offset: one instance whose start parses to a
    naive datetime makes the comparison with the aware [since_dt] raise,
    wherever the instance is in the collection, and no [inst] is
    produced. *)
Theorem filter_returns_iff_starts_aware `{PyRuntime}
    (now_us : Z) (inst_all : list obj) :
  is_Some (filter_inst (since_dt now_us) inst_all) ↔ starts_aware inst_all.
Proof.
  split.
  - induction inst_all as [|i l IH]; intros Hs.
    + intros j s Hj. destruct (not_elem_of_nil _ Hj).
    + cbn [filter_inst] in Hs.
      destruct (in_window (since_dt now_us) i) as [b|] eqn:Eb;
        [|destruct (is_Some_None Hs)].
      destruct (filter_inst (since_dt now_us) l) as [inst|] eqn:El;
        [|destruct (is_Some_None Hs)].
      specialize (IH (ex_intro _ inst eq_refl)).
      intros j s Hj Hp. apply elem_of_cons in Hj. destruct Hj as [->|Hj].
      * unfold in_window in Eb. rewrite Hp in Eb. unfold dt_ge in Eb.
        destruct (utcoffset s) as [off|]; [eexists; reflexivity|].
        cbn [since_dt utcoffset] in Eb. discriminate Eb.
      * exact (IH j s Hj Hp).
  - intros Ha. rewrite (filter_inst_aware now_us inst_all Ha). eexists. reflexivity.
Qed.

(** ** A throttled first request (lines 65-70) *)

(** X8.  [params] is cleared before the status is looked at, so when the
    first request of a call with query parameters is answered by a 429
    whose Retry-After is absent or an integer that [time.sleep] takes, the
    retry is sent without them: the call then returns whatever a call
    without query parameters returns from the next request on. *)
Theorem throttled_first_request_drops_params `{PyRuntime} `{Network}
    (path : string) (params : option (list (string * string))) (w : world)
    (wait_s : Z) (fuel : nat) :
  throttled (requests_made w) (GRAPH +:+ path) params wait_s →
  gget_all (S fuel) path params w
  = gget_all fuel path None
      (emit (Sleep wait_s) (emit (PrintThrottled wait_s) (asked w))).
Proof.
  intros Ht. unfold gget_all. cbn [gget_loop].
  change (truthy (Some (GRAPH +:+ path))) with true. cbv iota.
  change (default "" (Some (GRAPH +:+ path))) with (GRAPH +:+ path).
  rewrite (gget_turn_throttled (GRAPH +:+ path) params [] w wait_s Ht).
  reflexivity.
Qed.

(** A filtered call whose first request is throttled returns the
    unfiltered collection. *)
Lemma throttled_filter_is_lost :
  @throttled py310 directory_filtered 0
    (GRAPH +:+ "/roleManagement/directory/roleAssignmentScheduleInstances")
    (Some [("$filter", "principalId eq 'P'")]) 2
  ∧ (@gget_all py310 directory_filtered 2
       "/roleManagement/directory/roleAssignmentScheduleInstances"
       (Some [("$filter", "principalId eq 'P'")]) fresh).1
    = (@gget_all py310 directory_filtered 1
         "/roleManagement/directory/roleAssignmentScheduleInstances" None
         (emit (Sleep 2) (emit (PrintThrottled 2) (asked fresh)))).1.
Proof.
  assert (Ht : @throttled py310 directory_filtered 0
                 (GRAPH +:+ "/roleManagement/directory/roleAssignmentScheduleInstances")
                 (Some [("$filter", "principalId eq 'P'")]) 2).
  { eexists. split; [reflexivity|]. split; [reflexivity|].
    split; reflexivity. }
  split; [exact Ht|].
  rewrite (@throttled_first_request_drops_params py310 directory_filtered
             "/roleManagement/directory/roleAssignmentScheduleInstances"
             (Some [("$filter", "principalId eq 'P'")]) fresh 2 1 Ht).
  reflexivity.
Defined.

(** ** The bulk preload (lines 149-155) *)

Section Preload.
Context `{PyRuntime} `{Network}.

Lemma role_pairs_app defs1 defs2 :
  role_pairs (defs1 ++ defs2)
  = match role_pairs defs1, role_pairs defs2 with
    | Some k1, Some k2 => Some (k1 ++ k2)
    | _, _ => None
    end.
Proof.
  induction defs1 as [|d defs1 IH]; cbn [app role_pairs].
  - destruct (role_pairs defs2); reflexivity.
  - destruct (d !! "id"); [|reflexivity]. rewrite IH.
    destruct (role_pairs defs1), (role_pairs defs2); reflexivity.
Qed.

Lemma role_pairs_Some defs :
  Forall (λ d : obj, is_Some (d !! "id")) defs → is_Some (role_pairs defs).
Proof.
  induction 1 as [|d defs [id Hid] _ [kvs IH]]; cbn [role_pairs].
  - eexists. reflexivity.
  - rewrite Hid, IH. eexists. reflexivity.
Qed.

Lemma role_pairs_None defs :
  role_pairs defs = None ↔ ∃ d : obj, d ∈ defs ∧ d !! "id" = None.
Proof.
  induction defs as [|d defs IH]; cbn [role_pairs].
  - split; [discriminate|]. intros (d & Hd & _). destruct (not_elem_of_nil _ Hd).
  - destruct (d !! "id") as [id|] eqn:Hid.
    + destruct (role_pairs defs) as [kvs|].
      * split; [discriminate|]. intros (d' & Hd & Hn).
        apply elem_of_cons in Hd. destruct Hd as [->|Hd].
        -- rewrite Hid in Hn. discriminate Hn.
        -- pose proof (proj2 IH (ex_intro _ d' (conj Hd Hn))) as Hx.
           discriminate Hx.
      * split; [|reflexivity]. intros _.
        destruct (proj1 IH eq_refl) as (d' & Hd & Hn).
        exists d'. split; [apply list_elem_of_further, Hd|exact Hn].
    + split; [|reflexivity]. intros _. exists d.
      split; [apply list_elem_of_here|exact Hid].
Qed.

Lemma update_app c kvs1 kvs2 : update c (kvs1 ++ kvs2) = update (update c kvs1) kvs2.
Proof. unfold update. apply foldl_app. Qed.

Lemma update_other c kvs k :
  (∀ v, (k, v) ∉ kvs) → update c kvs !! k = c !! k.
Proof.
  unfold update. revert c. induction kvs as [|[k' v'] kvs IH]; intros c Hk; [reflexivity|].
  cbn [foldl fst snd]. rewrite IH.
  - apply lookup_insert_ne. intros ->. apply (Hk v'), list_elem_of_here.
  - intros v Hin. apply (Hk v), list_elem_of_further, Hin.
Qed.

Lemma update_last c kvs1 k v kvs2 :
  (∀ v', (k, v') ∉ kvs2) → update c (kvs1 ++ (k, v) :: kvs2) !! k = Some v.
Proof.
  intros Hk. rewrite update_app.
  change (update (update c kvs1) ((k, v) :: kvs2))
    with (update (<[k := v]> (update c kvs1)) kvs2).
  rewrite (update_other _ kvs2 k Hk). apply lookup_insert_eq.
Qed.

End Preload.

(** X9.  When the fetch of the preload returns and every role definition
    carries an id, the preload caches each id under the display name of
    the last definition with that id, the empty string when that
    definition has no display name; [role_name] then answers the id from
    the cache, with no request, and entries for ids that were not fetched
    are kept. *)
Theorem preload_caches_fetched_definitions `{PyRuntime} `{Network}
    (fuel : nat) (w : world) (pre post : list obj) (d : obj) (id : string) :
  (gget_all fuel "/roleManagement/directory/roleDefinitions" None w).1
    = Some (Returned (pre ++ d :: post)) →
  Forall (λ d' : obj, is_Some (d' !! "id")) (pre ++ d :: post) →
  d !! "id" = Some id →
  Forall (λ d' : obj, d' !! "id" ≠ Some id) post →
  ∃ w', load_all_role_definitions fuel w = Some w'
        ∧ _role_name_by_id w' !! id = Some (default "" (d !! "displayName"))
        ∧ (id ≠ "" →
           role_name (Some id) w' = (default "" (d !! "displayName"), w'))
        ∧ ∀ id' name,
            _role_name_by_id w !! id' = Some name →
            Forall (λ d' : obj, d' !! "id" ≠ Some id') (pre ++ d :: post) →
            _role_name_by_id w' !! id' = Some name.
Proof.
  intros Hg Hall Hid Hpost.
  unfold load_all_role_definitions.
  pose proof (gget_loop_cache fuel
                (Some (GRAPH +:+ "/roleManagement/directory/roleDefinitions")) None [] w)
    as Hc.
  fold (gget_all fuel "/roleManagement/directory/roleDefinitions" None w) in Hc.
  destruct (gget_all fuel "/roleManagement/directory/roleDefinitions" None w)
    as [res w1]. cbn [fst snd] in Hg, Hc. subst res.
  destruct (role_pairs_Some _ Hall) as [kvs Hk]. rewrite Hk.
  eexists. split; [reflexivity|]. cbn [_role_name_by_id emit set_cache]. rewrite Hc.
  pose proof Hk as Hsplit.
  rewrite role_pairs_app in Hsplit. cbn [role_pairs] in Hsplit. rewrite Hid in Hsplit.
  destruct (role_pairs pre) as [k1|]; [|discriminate Hsplit].
  destruct (role_pairs post) as [k2|] eqn:Hk2; [|discriminate Hsplit].
  injection Hsplit as <-.
  assert (Hlast : update (_role_name_by_id w)
                    (k1 ++ (id, default "" (d !! "displayName")) :: k2) !! id
                  = Some (default "" (d !! "displayName"))).
  { apply update_last. intros v' Hin.
    destruct (role_pairs_elem post k2 id v' Hk2 Hin) as (d' & Hd' & Hid' & _).
    exact (proj1 (Forall_forall _ _) Hpost d' Hd' Hid'). }
  split; [exact Hlast|]. split.
  - intros Hne. apply role_name_cached; [exact Hne|]. cbn. exact Hlast.
  - intros id' name Hn Hnone. rewrite update_other; [exact Hn|].
    intros v Hin.
    destruct (role_pairs_elem _ _ id' v Hk Hin) as (d' & Hd' & Hid' & _).
    exact (proj1 (Forall_forall _ _) Hnone d' Hd' Hid').
Qed.

(** The preload on a directory that serves two definitions, one of them
    without a display name. *)
Lemma preload_on_directory_defs :
  ∃ w', @load_all_role_definitions py310 directory_defs 1 fresh = Some w'
        ∧ _role_name_by_id w' !! ua_id = Some ""
        ∧ @role_name directory_defs (Some ua_id) w' = ("", w').
Proof.
  destruct (@preload_caches_fetched_definitions py310 directory_defs 1 fresh
              [ {[ "id" := ga_id; "displayName" := "Global Administrator" ]} ]
              [] {[ "id" := ua_id ]} ua_id)
    as (w' & Hl & Hc & Hr & _).
  - vm_compute. reflexivity.
  - repeat apply Forall_cons_2; [| |apply Forall_nil_2]; eexists; vm_compute; reflexivity.
  - vm_compute. reflexivity.
  - apply Forall_nil_2.
  - exists w'. split; [exact Hl|]. split; [exact Hc|]. apply Hr. discriminate.
Defined.

(** X10.  The preload never raises: once its fetch has ended it returns.
    It is all or nothing: when the fetch raised, or returned a collection
    in which one role definition has no id, nothing at all is cached, not
    even the definitions that do have an id, and the only trace is the
    warning printed after what the fetch printed. *)
Theorem preload_is_all_or_nothing `{PyRuntime} `{Network}
    (fuel : nat) (w w1 : world) (res : result (list obj)) :
  gget_all fuel "/roleManagement/directory/roleDefinitions" None w = (Some res, w1) →
  is_Some (load_all_role_definitions fuel w)
  ∧ ((∃ e, res = Raised e)
     ∨ (∃ defs (d : obj), res = Returned defs ∧ d ∈ defs ∧ d !! "id" = None) →
     load_all_role_definitions fuel w = Some (emit PrintBulkFailed w1)
     ∧ _role_name_by_id (emit PrintBulkFailed w1) = _role_name_by_id w
     ∧ console (emit PrintBulkFailed w1) = console w1 ++ [PrintBulkFailed]).
Proof.
  intros Hg.
  pose proof (gget_loop_cache fuel
                (Some (GRAPH +:+ "/roleManagement/directory/roleDefinitions")) None [] w)
    as Hc.
  fold (gget_all fuel "/roleManagement/directory/roleDefinitions" None w) in Hc.
  unfold load_all_role_definitions. rewrite Hg in *. cbn [snd] in Hc.
  split.
  - destruct res as [defs|e]; [|eexists; reflexivity].
    destruct (role_pairs defs); eexists; reflexivity.
  - intros [[e ->]|(defs & d & -> & Hd & Hn)].
    + split; [reflexivity|]. split; [exact Hc|reflexivity].
    + rewrite (proj2 (role_pairs_None defs) (ex_intro _ d (conj Hd Hn))).
      split; [reflexivity|]. split; [exact Hc|reflexivity].
Qed.

(** One definition without an id: Global Administrator is not cached. *)
Lemma preload_on_directory_defs_broken :
  ∃ w', @load_all_role_definitions py310 directory_defs_broken 1 fresh = Some w'
        ∧ _role_name_by_id w' !! ga_id = None.
Proof.
  destruct (@preload_is_all_or_nothing py310 directory_defs_broken 1 fresh
              (@gget_all py310 directory_defs_broken 1
                 "/roleManagement/directory/roleDefinitions" None fresh).2
              (Returned [ {[ "id" := ga_id; "displayName" := "Global Administrator" ]};
                          {[ "displayName" := "Orphan" ]} ]))
    as (_ & Hfail).
  - vm_compute. reflexivity.
  - destruct Hfail as (Hl & Hc & _).
    + right. eexists _, {[ "displayName" := "Orphan" ]}.
      split; [reflexivity|]. split; [|vm_compute; reflexivity].
      apply list_elem_of_further, list_elem_of_here.
    + eexists. split; [exact Hl|]. rewrite Hc. reflexivity.
Defined.

(** ** The GitHub self check (lines 86-119) *)

Section SelfCheck.
Context `{GitHub}.

(** The check, request by request. *)
Lemma gh_self_check_eq cfg d :
  gh_self_check cfg d =
    if negb (truthy (GITHUB_TOKEN cfg)
             && truthy (Some (GITHUB_REPO_OWNER cfg))
             && truthy (Some (GITHUB_REPO_NAME cfg)))
    then (Returned false, gh_print PrintNoToken d)
    else
      let q1 := GhGet (GITHUB +:+ "/user") (gh_headers cfg) in
      let q2 := GhGet (repo_url cfg) (gh_headers cfg) in
      let d1 := {| sent := sent d ++ [q1]; printed := printed d |} in
      match github (length (sent d)) q1 with
      | GhException => (Raised RequestsError, d1)
      | GhReply r =>
          if gh_status r =? 401 then (Returned false, gh_print PrintBadCredentials d1)
          else
            match gh_json r with
            | None => (Raised JSONDecodeError, d1)
            | Some b =>
                let d3 := {| sent := sent d ++ [q1; q2];
                             printed := printed d ++ [PrintTokenOk (gh_login b)] |} in
                match github (S (length (sent d))) q2 with
                | GhException => (Raised RequestsError, d3)
                | GhReply r2 =>
                    if 400 <=? gh_status r2 then
                      (Returned false, gh_print (PrintCannotAccess (gh_status r2)) d3)
                    else
                      match gh_json r2 with
                      | None => (Raised JSONDecodeError, d3)
                      | Some b2 =>
                          if negb (default true (gh_has_issues b2)) then
                            (Returned false, gh_print PrintIssuesDisabled d3)
                          else (Returned true, gh_print PrintRepoReachable d3)
                      end
                end
            end
      end.
Proof.
  unfold gh_self_check, gh_send, gh_print. cbn [sent printed].
  destruct (negb _); [reflexivity|]. cbv zeta.
  destruct (github (length (sent d)) _) as [|r]; [reflexivity|].
  destruct (gh_status r =? 401); [reflexivity|].
  destruct (gh_json r) as [b|]; [|reflexivity].
  rewrite length_app, Nat.add_1_r, <- app_assoc. cbn [app length].
  reflexivity.
Qed.

End SelfCheck.

(** X11.  The self check sends nothing when the token, the owner or the
    repository name is not set, and at most the two GET requests
    otherwise.  It enables ticketing exactly when the three are set, the
    who-am-I request is answered with any status other than 401 and a
    body that decodes, and the repository request is answered with a
    status below 400 and a body that decodes and does not say that issues
    are off; a 403 or a 500 on the who-am-I request does not disable
    ticketing. *)
Theorem gh_self_check_enables_iff `{GitHub} (cfg : Config) (d : desk) :
  let q1 := GhGet (GITHUB +:+ "/user") (gh_headers cfg) in
  let q2 := GhGet (repo_url cfg) (gh_headers cfg) in
  let configured :=
    truthy (GITHUB_TOKEN cfg) && truthy (Some (GITHUB_REPO_OWNER cfg))
    && truthy (Some (GITHUB_REPO_NAME cfg)) in
  (configured = false →
   gh_self_check cfg d = (Returned false, gh_print PrintNoToken d)
   ∧ sent (gh_print PrintNoToken d) = sent d)
  ∧ ((gh_self_check cfg d).1 = Returned true ↔
     configured = true
     ∧ ∃ r1 b1 r2 b2,
         github (length (sent d)) q1 = GhReply r1
         ∧ gh_status r1 ≠ 401 ∧ gh_json r1 = Some b1
         ∧ github (S (length (sent d))) q2 = GhReply r2
         ∧ gh_status r2 < 400 ∧ gh_json r2 = Some b2
         ∧ gh_has_issues b2 ≠ Some false)
  ∧ (sent (gh_self_check cfg d).2 = sent d
     ∨ sent (gh_self_check cfg d).2 = sent d ++ [q1]
     ∨ sent (gh_self_check cfg d).2 = sent d ++ [q1; q2]).
Proof.
  intros q1 q2 configured. rewrite gh_self_check_eq. cbv zeta.
  fold q1 q2 configured.
  destruct configured; cbn [negb].
  - split; [discriminate|].
    destruct (github (length (sent d)) q1) as [|r1] eqn:E1.
    { split; [|right; left; reflexivity].
      split; [discriminate|]. intros (_ & r & _ & _ & _ & Hx & _). discriminate Hx. }
    destruct (Z.eqb_spec (gh_status r1) 401) as [H401|H401].
    { split; [|right; left; reflexivity].
      split; [discriminate|].
      intros (_ & r & _ & _ & _ & [= <-] & Hn & _). destruct (Hn H401). }
    destruct (gh_json r1) as [b1|] eqn:J1.
    2:{ split; [|right; left; reflexivity].
        split; [discriminate|].
        intros (_ & r & b & _ & _ & [= <-] & _ & Hj & _). rewrite J1 in Hj. discriminate Hj. }
    destruct (github (S (length (sent d))) q2) as [|r2] eqn:E2.
    { split; [|right; right; reflexivity].
      split; [discriminate|].
      intros (_ & _ & _ & r & _ & _ & _ & _ & Hx & _). discriminate Hx. }
    destruct (Z.leb_spec 400 (gh_status r2)) as [H400|H400].
    { split; [|right; right; reflexivity].
      split; [discriminate|].
      intros (_ & _ & _ & r & _ & _ & _ & _ & [= <-] & Hlt & _). lia. }
    destruct (gh_json r2) as [b2|] eqn:J2.
    2:{ split; [|right; right; reflexivity].
        split; [discriminate|].
        intros (_ & _ & _ & r & b & _ & _ & _ & [= <-] & _ & Hj & _).
        rewrite J2 in Hj. discriminate Hj. }
    destruct (gh_has_issues b2) as [[|]|] eqn:Hi; cbn [default negb].
    + split; [|right; right; reflexivity].
      split; [|reflexivity]. intros _. split; [reflexivity|].
      exists r1, b1, r2, b2. repeat split; try assumption; try reflexivity.
      rewrite Hi. discriminate.
    + split; [|right; right; reflexivity].
      split; [discriminate|].
      intros (_ & _ & _ & r & b & _ & _ & _ & [= <-] & _ & Hj & Hn).
      rewrite J2 in Hj. injection Hj as <-. destruct (Hn Hi).
    + split; [|right; right; reflexivity].
      split; [|reflexivity]. intros _. split; [reflexivity|].
      exists r1, b1, r2, b2. repeat split; try assumption; try reflexivity.
      rewrite Hi. discriminate.
  - split; [intros _; split; reflexivity|].
    split; [|left; reflexivity].
    split; [discriminate|]. intros [Hx _]. discriminate Hx.
Qed.

(** A 403 on the who-am-I request leaves ticketing on; no token turns it
    off without a request. *)
Lemma gh_self_check_runs :
  (@gh_self_check github_forbidden_user contoso no_desk).1 = Returned true
  ∧ @gh_self_check github_up
      {| GITHUB_REPO_OWNER := "contoso"; GITHUB_REPO_NAME := "pim-audit";
         GITHUB_TOKEN := None |} no_desk
    = (Returned false, gh_print PrintNoToken no_desk).
Proof.
  split.
  - apply (proj1 (proj2 (@gh_self_check_enables_iff github_forbidden_user contoso no_desk))).
    split; [reflexivity|].
    eexists _, _, _, _. split; [reflexivity|]. split; [discriminate|].
    split; [reflexivity|]. split; [reflexivity|]. split; [cbn; lia|].
    split; [reflexivity|]. discriminate.
  - apply (proj1 (@gh_self_check_enables_iff github_up _ no_desk)). reflexivity.
Defined.

(** ** Tickets (lines 121-132 and 278-292) *)

Section Tickets.
Context `{GitHub} `{JsonDumps}.

Lemma for_each_app {A} (f : A → desk → result unit * desk) l1 l2 d :
  for_each f (l1 ++ l2) d =
    match (for_each f l1 d).1 with
    | Returned _ => for_each f l2 (for_each f l1 d).2
    | Raised e => (Raised e, (for_each f l1 d).2)
    end.
Proof.
  revert d. induction l1 as [|x l1 IH]; intros d; [reflexivity|].
  cbn [app for_each]. destruct (f x d) as [[u|e] d1]; [apply IH|reflexivity].
Qed.

Lemma for_each_fmap {A B} (g : A → B) (f : B → desk → result unit * desk) l d :
  for_each (λ x, f (g x)) l d = for_each f (g <$> l) d.
Proof.
  revert d. induction l as [|x l IH]; intros d; [reflexivity|].
  cbn [fmap list_fmap for_each]. destruct (f (g x) d) as [[u|e] d1]; [apply IH|reflexivity].
Qed.

(** The three loops are one loop over the tickets. *)
Lemma notify_eq cfg gh_ok snap d :
  notify cfg gh_ok snap d = for_each (file_ticket cfg gh_ok) (tickets snap) d.
Proof.
  unfold notify, tickets.
  rewrite !for_each_app, <- !for_each_fmap.
  destruct (for_each _ (permanent snap) d) as [[u|e] d1]; cbn [fst snd]; [|reflexivity].
  destruct (for_each _ (staleEligibilities snap) d1) as [[u'|e] d2]; cbn [fst snd];
    reflexivity.
Qed.

Lemma for_each_dry_run cfg ts d :
  for_each (file_ticket cfg false) ts d
  = (Returned tt,
     {| sent := sent d; printed := printed d ++ (PrintDryRun ∘ ticket_title <$> ts) |}).
Proof.
  revert d. induction ts as [|t ts IH]; intros d.
  - cbn. rewrite app_nil_r. destruct d; reflexivity.
  - cbn [for_each]. unfold file_ticket at 1, create_issue. cbn [negb].
    rewrite IH. cbn [gh_print sent printed fmap list_fmap compose].
    rewrite <- app_assoc. reflexivity.
Qed.

(** One enabled ticket: the POST is sent, and the call returns exactly
    when the reply counts as created. *)
Lemma file_ticket_sent cfg t d :
  sent (file_ticket cfg true t d).2 = sent d ++ [ticket_post cfg t].
Proof.
  unfold file_ticket, create_issue, gh_send, ticket_post. cbn [negb]. cbv zeta.
  destruct (github _ _) as [|r]; [reflexivity|].
  destruct (400 <=? gh_status r), (raises_for_status (gh_status r)), (gh_json r);
    reflexivity.
Qed.

Lemma file_ticket_returns cfg t d :
  (file_ticket cfg true t d).1 = Returned tt
  ↔ created (github (length (sent d)) (ticket_post cfg t)).
Proof.
  unfold file_ticket, create_issue, gh_send, ticket_post, created. cbn [negb]. cbv zeta.
  destruct (github _ _) as [|r].
  - split; [discriminate|]. intros (r & b & Hx & _). discriminate Hx.
  - destruct (raises_for_status (gh_status r)) eqn:Hr.
    + split; [destruct (400 <=? gh_status r); discriminate|].
      intros (r' & b & [= <-] & Hn & _). rewrite Hr in Hn. discriminate Hn.
    + destruct (gh_json r) as [b|] eqn:Hj.
      * split; [|destruct (400 <=? gh_status r); reflexivity].
        intros _. exists r, b. repeat split; assumption.
      * split; [destruct (400 <=? gh_status r); discriminate|].
        intros (r' & b & [= <-] & _ & Hj'). rewrite Hj in Hj'. discriminate Hj'.
Qed.

(** The loop over enabled tickets files them all, or stops at the first
    one whose reply does not count as created. *)
Lemma for_each_enabled cfg ts d :
  let r := for_each (file_ticket cfg true) ts d in
  (r.1 = Returned tt
   ∧ sent r.2 = sent d ++ (ticket_post cfg <$> ts)
   ∧ ∀ j t, ts !! j = Some t →
            created (github (length (sent d) + j) (ticket_post cfg t)))
  ∨ (∃ j t e,
       ts !! j = Some t ∧ r.1 = Raised e
       ∧ ¬ created (github (length (sent d) + j) (ticket_post cfg t))
       ∧ (∀ i t', (i < j)%nat → ts !! i = Some t' →
                  created (github (length (sent d) + i) (ticket_post cfg t')))
       ∧ sent r.2 = sent d ++ (ticket_post cfg <$> take (S j) ts)).
Proof.
  cbv zeta. revert d. induction ts as [|t ts IH]; intros d.
  - left. cbn. rewrite app_nil_r. split; [reflexivity|]. split; [reflexivity|].
    intros j t Hj. discriminate Hj.
  - cbn [for_each].
    pose proof (file_ticket_sent cfg t d) as Hs.
    pose proof (file_ticket_returns cfg t d) as Hr.
    destruct (file_ticket cfg true t d) as [[[]|e] d1]; cbn [fst snd] in Hs, Hr.
    + destruct (IH d1)
        as [(Hok & Hsent & Hall)|(j & t' & e & Hj & Hraised & Hbad & Hprev & Hsent)].
      * left. split; [exact Hok|]. split.
        -- rewrite Hsent, Hs, <- app_assoc. reflexivity.
        -- intros [|j] t' Hj.
           ++ injection Hj as <-. rewrite Nat.add_0_r. apply Hr. reflexivity.
           ++ specialize (Hall j t' Hj). rewrite Hs, length_app in Hall.
              cbn [length] in Hall.
              replace (length (sent d) + S j)%nat with (length (sent d) + 1 + j)%nat by lia.
              exact Hall.
      * right. exists (S j), t', e. split; [exact Hj|]. split; [exact Hraised|].
        split; [|split].
        -- rewrite Hs, length_app in Hbad. cbn [length] in Hbad.
           replace (length (sent d) + S j)%nat with (length (sent d) + 1 + j)%nat by lia.
           exact Hbad.
        -- intros [|i] t'' Hi Ht.
           ++ injection Ht as <-. rewrite Nat.add_0_r. apply Hr. reflexivity.
           ++ assert (i < j)%nat as Hi' by lia.
              specialize (Hprev i t'' Hi' Ht). rewrite Hs, length_app in Hprev.
              cbn [length] in Hprev.
              replace (length (sent d) + S i)%nat with (length (sent d) + 1 + i)%nat by lia.
              exact Hprev.
        -- rewrite Hsent, Hs, <- app_assoc. reflexivity.
    + right. exists 0%nat, t, e. split; [reflexivity|]. split; [reflexivity|].
      split; [|split].
      * rewrite Nat.add_0_r. intros Hc. apply Hr in Hc. discriminate Hc.
      * intros i t' Hi. lia.
      * cbn [take fmap list_fmap]. exact Hs.
Qed.

End Tickets.

(** X12.  With ticketing disabled the loops of [main] send nothing to
    GitHub and never raise: they print one dry-run line per violation,
    with the title of its ticket, the permanent assignments first, then
    the stale eligibilities, then the long activations, each in list
    order. *)
Theorem dry_run_sends_nothing `{GitHub} `{JsonDumps}
    (cfg : Config) (snap : Snapshot) (d : desk) :
  notify cfg false snap d
  = (Returned tt,
     {| sent := sent d;
        printed := printed d ++ (PrintDryRun ∘ ticket_title <$> tickets snap) |})
  ∧ length (tickets snap)
    = (length (permanent snap) + length (staleEligibilities snap)
       + length (longActivations snap))%nat.
Proof.
  split; [rewrite notify_eq; apply for_each_dry_run|].
  unfold tickets. rewrite !length_app, !length_fmap. lia.
Qed.

(** X13.  With ticketing enabled the loops of [main] send one POST per
    violation, in the order of the lists, and either file them all and
    return, every reply being a status outside 400-599 with a body that
    decodes, or raise at the first ticket whose reply is not: the tickets
    before it were created, the POSTs sent are those up to and including
    it, and the violations after it get no ticket. *)
Theorem tickets_stop_at_first_failure `{GitHub} `{JsonDumps}
    (cfg : Config) (snap : Snapshot) (d : desk) :
  let r := notify cfg true snap d in
  (r.1 = Returned tt
   ∧ sent r.2 = sent d ++ (ticket_post cfg <$> tickets snap)
   ∧ ∀ j t, tickets snap !! j = Some t →
            created (github (length (sent d) + j) (ticket_post cfg t)))
  ∨ (∃ j t e,
       tickets snap !! j = Some t ∧ r.1 = Raised e
       ∧ ¬ created (github (length (sent d) + j) (ticket_post cfg t))
       ∧ (∀ i t', (i < j)%nat → tickets snap !! i = Some t' →
                  created (github (length (sent d) + i) (ticket_post cfg t')))
       ∧ sent r.2 = sent d ++ (ticket_post cfg <$> take (S j) (tickets snap))).
Proof.
  cbv zeta. rewrite notify_eq. apply for_each_enabled.
Qed.

(** Three findings against a GitHub that refuses the second issue: two
    POSTs are sent and the third finding gets none. *)
Lemma second_ticket_refused :
  sent (@notify github_second_post_fails dumps_role contoso true three_findings no_desk).2
  = ticket_post contoso <$> take 2 (@tickets dumps_role three_findings)
  ∧ ∃ e, (@notify github_second_post_fails dumps_role contoso true three_findings
            no_desk).1 = Raised e.
Proof.
  destruct (@tickets_stop_at_first_failure github_second_post_fails dumps_role contoso
              three_findings no_desk)
    as [(_ & _ & Hall)|(j & t & e & Hj & Hraised & Hbad & Hprev & Hsent)].
  - destruct (Hall 1%nat _ eq_refl) as (r & b & Hr & Hn & _).
    injection Hr as <-. discriminate Hn.
  - destruct j as [|[|j]].
    + destruct Hbad. injection Hj as <-.
      eexists _, _. split; [reflexivity|]. split; reflexivity.
    + split; [exact Hsent|]. exists e. exact Hraised.
    + assert (1 < S (S j))%nat as H1 by lia.
      destruct (Hprev 1%nat _ H1 eq_refl) as (r & b & Hr & Hn & _).
      injection Hr as <-. discriminate Hn.
Defined.
